(** * AppTrack: the record table and its synchronisation with the remote sheet

    A shallow embedding of the parts of [src/gui/main_window.py] that hold
    and change the table of job applications ([self.applications_df]):
    [save_application], [save_edit], [delete_rows], [load_application_data],
    [sync_from_google_sheets], [sync_to_google_sheets], [schedule_sync] and
    [toggle_sync], together with the fragments of Python, pandas and Tk they
    rely on. *)

From Stdlib Require Import List ZArith String Ascii Bool Lia Permutation.
Import ListNotations.

Set Implicit Arguments.

(** ** Python strings *)

Module Py.

Local Open Scope N_scope.

(** [str.isspace] on one character.  A Rocq character is read as the code
    point of the same number, so this is Python's table of white space
    below 256: TAB..CR, FS..US, SPACE, NEL and NBSP. *)
Definition isspace (c : ascii) : bool :=
  let n := N_of_ascii c in
  ((9 <=? n) && (n <=? 13)) || ((28 <=? n) && (n <=? 32))
  || (n =? 133) || (n =? 160).

(** [s.lstrip()] *)
Fixpoint lstrip (s : string) : string :=
  match s with
  | EmptyString => EmptyString
  | String c s' => if isspace c then lstrip s' else s
  end.

(** [s.rstrip()] *)
Fixpoint rstrip (s : string) : string :=
  match s with
  | EmptyString => EmptyString
  | String c s' =>
      match rstrip s' with
      | EmptyString => if isspace c then EmptyString else String c EmptyString
      | r => String c r
      end
  end.

(** [s.strip()] *)
Definition strip (s : string) : string := rstrip (lstrip s).

(** Every character of [s] is white space (true of the empty string). *)
Fixpoint all_space (s : string) : bool :=
  match s with
  | EmptyString => true
  | String c s' => isspace c && all_space s'
  end.

Definition starts_with_space (s : string) : bool :=
  match s with
  | EmptyString => false
  | String c _ => isspace c
  end.

Fixpoint ends_with_space (s : string) : bool :=
  match s with
  | EmptyString => false
  | String c EmptyString => isspace c
  | String _ s' => ends_with_space s'
  end.

(** Truth value of a string: [not s] holds exactly for the empty one. *)
Definition truthy (s : string) : bool :=
  match s with
  | EmptyString => false
  | _ => true
  end.

End Py.

(** ** pandas frames *)

Module Pd.

Local Open Scope Z_scope.

(** A cell holds text or is missing ([NaN]). *)
Inductive cell : Type :=
| NaN
| Str (s : string).

(** A frame: the column labels, and the rows in order, each with its index
    label and one cell per column. *)
Record DataFrame : Type := mkDataFrame {
  columns : list string;
  rows : list (Z * list cell)
}.

Definition cell_eqb (a b : cell) : bool :=
  match a, b with
  | NaN, NaN => true
  | Str x, Str y => String.eqb x y
  | _, _ => false
  end.

Fixpoint list_eqb {A} (eqb : A -> A -> bool) (l1 l2 : list A) : bool :=
  match l1, l2 with
  | [], [] => true
  | x :: l1', y :: l2' => eqb x y && list_eqb eqb l1' l2'
  | _, _ => false
  end.

Definition row_eqb (r1 r2 : Z * list cell) : bool :=
  (fst r1 =? fst r2) && list_eqb cell_eqb (snd r1) (snd r2).

(** [pd.DataFrame()] *)
Definition DataFrame_empty : DataFrame := mkDataFrame [] [].

(** [pd.DataFrame(columns=cols)] *)
Definition DataFrame_columns (cols : list string) : DataFrame :=
  mkDataFrame cols [].

(** [pd.DataFrame([cells], columns=cols)]: one row, labelled 0. *)
Definition DataFrame_row (cells : list cell) (cols : list string) : DataFrame :=
  mkDataFrame cols [(0, cells)].

(** [df.index] *)
Definition index (df : DataFrame) : list Z := map fst (rows df).

(** [len(df)] *)
Definition len (df : DataFrame) : nat := List.length (rows df).

(** [df.empty]: some axis has length 0. *)
Definition empty (df : DataFrame) : bool :=
  (List.length (columns df) =? 0)%nat || (List.length (rows df) =? 0)%nat.

(** [a.equals(b)]: same column labels, same index labels, same cells,
    missing cells in the same places counting as equal.  Every cell is text
    here, so the column types pandas compares as well always agree. *)
Definition equals (a b : DataFrame) : bool :=
  list_eqb String.eqb (columns a) (columns b)
  && list_eqb row_eqb (rows a) (rows b).

(** [df.fillna('')] *)
Definition fill_cell (c : cell) : cell :=
  match c with
  | NaN => Str ""
  | Str s => Str s
  end.

Definition fillna (df : DataFrame) : DataFrame :=
  mkDataFrame (columns df)
    (map (fun r => (fst r, map fill_cell (snd r))) (rows df)).

(** [label in df.index] *)
Definition in_index (label : Z) (df : DataFrame) : bool :=
  existsb (Z.eqb label) (index df).

(** [df.drop(label)]: a frame without the rows labelled [label];
    [None] stands for the KeyError pandas raises when there is none. *)
Definition drop (label : Z) (df : DataFrame) : option DataFrame :=
  if in_index label df
  then Some (mkDataFrame (columns df)
               (filter (fun r => negb (fst r =? label)) (rows df)))
  else None.

(** Labels 0, 1, ... for a list of rows, as a RangeIndex gives them. *)
Fixpoint renumber_from (k : Z) (rs : list (Z * list cell)) : list (Z * list cell) :=
  match rs with
  | [] => []
  | r :: rs' => (k, snd r) :: renumber_from (k + 1) rs'
  end.

(** [df.reset_index(drop=True)] *)
Definition reset_index (df : DataFrame) : DataFrame :=
  mkDataFrame (columns df) (renumber_from 0 (rows df)).

(** Position of a column label. *)
Fixpoint position (c : string) (cols : list string) : option nat :=
  match cols with
  | [] => None
  | c' :: cols' =>
      if String.eqb c c' then Some 0%nat
      else option_map S (position c cols')
  end.

(** The cell of a row under column [c]; missing when the row has none. *)
Definition get_cell (cols : list string) (cells : list cell) (c : string) : cell :=
  match position c cols with
  | Some i => nth i cells NaN
  | None => NaN
  end.

(** A row laid out again under the column labels [cols']. *)
Definition realign (cols' cols : list string) (cells : list cell) : list cell :=
  map (get_cell cols cells) cols'.

Definition has_column (c : string) (cols : list string) : bool :=
  existsb (String.eqb c) cols.

(** [pd.concat([a, b], ignore_index=True)]: the union of the columns, those
    of [a] first; the rows of [a] then those of [b], cells missing where a
    frame lacks a column; labels 0, 1, ... *)
Definition concat (a b : DataFrame) : DataFrame :=
  let cols := columns a ++ filter (fun c => negb (has_column c (columns a))) (columns b) in
  mkDataFrame cols
    (renumber_from 0
       (map (fun r => (fst r, realign cols (columns a) (snd r))) (rows a)
        ++ map (fun r => (fst r, realign cols (columns b) (snd r))) (rows b))).

(** [row.get(c, default)] *)
Definition row_get (cols : list string) (cells : list cell) (c : string)
    (default : cell) : cell :=
  if has_column c cols then get_cell cols cells c else default.

Fixpoint set_nth {A} (i : nat) (x : A) (l : list A) : list A :=
  match l, i with
  | [], _ => []
  | _ :: l', O => x :: l'
  | y :: l', S i' => y :: set_nth i' x l'
  end.

(** [df.at[label, col] = v].  Setting through [.at] never raises for an
    absent label or column: pandas falls back to [.loc], which enlarges the
    frame by a column of missing cells and then by a row that is missing
    everywhere but under [col]. *)
Definition at_set (label : Z) (col : string) (v : cell) (df : DataFrame) : DataFrame :=
  let df1 :=
    if has_column col (columns df) then df
    else mkDataFrame (columns df ++ [col])
           (map (fun r => (fst r, snd r ++ [NaN])) (rows df)) in
  let cols := columns df1 in
  match position col cols with
  | None => df1
  | Some i =>
      if in_index label df1
      then mkDataFrame cols
             (map (fun r => if fst r =? label
                            then (fst r, set_nth i v (snd r)) else r)
                  (rows df1))
      else mkDataFrame cols
             (rows df1 ++ [(label, set_nth i v (repeat NaN (List.length cols)))])
  end.

(** [df.at[label, col]] read back; [None] for the KeyError of an absent
    label or column. *)
Definition at_get (label : Z) (col : string) (df : DataFrame) : option cell :=
  match find (fun r => fst r =? label) (rows df), position col (columns df) with
  | Some r, Some i => Some (nth i (snd r) NaN)
  | _, _ => None
  end.


End Pd.

(** ** Exceptions, the Tk tree view and the Tk timers *)

(** The exceptions the embedded code can meet.  All of them are caught by
    [except Exception]. *)
Inductive exn : Type :=
| TclError (msg : string)
| AttributeError
| IndexError
| KeyError
| FileNotFoundError
| OtherError (name : string).

Definition is_FileNotFoundError (e : exn) : bool :=
  match e with
  | FileNotFoundError => true
  | _ => false
  end.

Module Tk.

Local Open Scope Z_scope.

(** A displayed value: the number of the "No" column or a cell. *)
Inductive value : Type :=
| VInt (n : Z)
| VCell (c : Pd.cell).

(** The items of a [ttk.Treeview] in display order: item id and values.
    Item ids are [str(index)] in the source and are read back with [int];
    they are kept as integers here. *)
Definition Tree : Type := list (Z * list value).

Definition exists_item (iid : Z) (t : Tree) : bool :=
  existsb (fun it => fst it =? iid) t.

(** [tree.item(iid, "values")]: a TclError when there is no such item. *)
Definition item (iid : Z) (t : Tree) : exn + list value :=
  match find (fun it => fst it =? iid) t with
  | Some it => inr (snd it)
  | None => inl (TclError "Item not found")
  end.

(** [tree.item(iid, values=vs)] *)
Definition item_set (iid : Z) (vs : list value) (t : Tree) : exn + Tree :=
  if exists_item iid t
  then inr (map (fun it => if fst it =? iid then (iid, vs) else it) t)
  else inl (TclError "Item not found").

(** [tree.insert("", "end", iid=iid, values=vs)]: a TclError when the item
    id is taken. *)
Definition insert (iid : Z) (vs : list value) (t : Tree) : exn + Tree :=
  if exists_item iid t
  then inl (TclError "Item already exists")
  else inr (t ++ [(iid, vs)]).

(** What a pending [after] call will run. *)
Inductive callback : Type :=
| cb_schedule_sync
| cb_sync_to_google_sheets.

Record timer : Type := mkTimer {
  timer_id : nat;
  due : Z;
  timer_cb : callback
}.

(** The pending timer that is due first, the older one on a tie. *)
Fixpoint earliest (ts : list timer) : option timer :=
  match ts with
  | [] => None
  | t :: ts' =>
      match earliest ts' with
      | None => Some t
      | Some u => if due u <? due t then Some u else Some t
      end
  end.

Definition next_due (target : Z) (ts : list timer) : option timer :=
  earliest (filter (fun t => due t <=? target) ts).

Definition remove_timer (id : nat) (ts : list timer) : list timer :=
  filter (fun t => negb (Nat.eqb (timer_id t) id)) ts.

End Tk.

(** ** The state of the application *)

(** What the embedded code does to the world outside the table, in the order
    it happens, most recent first. *)
Inductive event : Type :=
| EvFetch                                   (* read_from_google_sheets() *)
| EvPush (df : Pd.DataFrame)                (* write_to_google_sheets(df) *)
| EvSave (df : Pd.DataFrame)                (* save_applications_to_excel(df) *)
| EvReplace (df : Pd.DataFrame)             (* applications_df = google_df *)
| EvPopulate (df : Pd.DataFrame)            (* populate_treeview(df) *)
| EvLogError (op : string) (e : exn)        (* logging.error(...) *)
| EvShowError (title msg : string)          (* messagebox.showerror(...) *)
| EvUpdateConfig (enable : bool)            (* update_config(ENABLE_GOOGLE_SYNC=...) *)
| EvDrawPie                                 (* draw_status_pie_chart(...) *)
| EvDrawLine.                               (* draw_submissions_line_graph(...) *)

(** The attributes of the [AppTrack] object the embedded methods read or
    write, the Tk timer queue with its clock (milliseconds), the number of
    calls made so far to the outside (which selects the outcome of the next
    one), and the trace. *)
Record App : Type := mkApp {
  sync_to_google : bool;
  google_sync_var : bool;
  sync_task : option nat;
  applications_df : Pd.DataFrame;
  applications_tree : option Tk.Tree;
  edit_entry : option string;
  company_entry : string;
  position_entry : string;
  url_entry : string;
  pie_chart_frame : bool;
  line_graph_frame : bool;
  clock : Z;
  timers : list Tk.timer;
  next_id : nat;
  calls : nat;
  trace : list event
}.

Definition set_sync_to_google (b : bool) (s : App) : App :=
  mkApp b (google_sync_var s) (sync_task s) (applications_df s)
    (applications_tree s) (edit_entry s) (company_entry s) (position_entry s)
    (url_entry s) (pie_chart_frame s) (line_graph_frame s) (clock s) (timers s)
    (next_id s) (calls s) (trace s).

Definition set_google_sync_var (b : bool) (s : App) : App :=
  mkApp (sync_to_google s) b (sync_task s) (applications_df s)
    (applications_tree s) (edit_entry s) (company_entry s) (position_entry s)
    (url_entry s) (pie_chart_frame s) (line_graph_frame s) (clock s) (timers s)
    (next_id s) (calls s) (trace s).

Definition set_sync_task (t : option nat) (s : App) : App :=
  mkApp (sync_to_google s) (google_sync_var s) t (applications_df s)
    (applications_tree s) (edit_entry s) (company_entry s) (position_entry s)
    (url_entry s) (pie_chart_frame s) (line_graph_frame s) (clock s) (timers s)
    (next_id s) (calls s) (trace s).

Definition set_applications_df (df : Pd.DataFrame) (s : App) : App :=
  mkApp (sync_to_google s) (google_sync_var s) (sync_task s) df
    (applications_tree s) (edit_entry s) (company_entry s) (position_entry s)
    (url_entry s) (pie_chart_frame s) (line_graph_frame s) (clock s) (timers s)
    (next_id s) (calls s) (trace s).

Definition set_applications_tree (t : option Tk.Tree) (s : App) : App :=
  mkApp (sync_to_google s) (google_sync_var s) (sync_task s) (applications_df s)
    t (edit_entry s) (company_entry s) (position_entry s)
    (url_entry s) (pie_chart_frame s) (line_graph_frame s) (clock s) (timers s)
    (next_id s) (calls s) (trace s).

Definition set_edit_entry (e : option string) (s : App) : App :=
  mkApp (sync_to_google s) (google_sync_var s) (sync_task s) (applications_df s)
    (applications_tree s) e (company_entry s) (position_entry s)
    (url_entry s) (pie_chart_frame s) (line_graph_frame s) (clock s) (timers s)
    (next_id s) (calls s) (trace s).

Definition set_input_fields (company position url : string) (s : App) : App :=
  mkApp (sync_to_google s) (google_sync_var s) (sync_task s) (applications_df s)
    (applications_tree s) (edit_entry s) company position
    url (pie_chart_frame s) (line_graph_frame s) (clock s) (timers s)
    (next_id s) (calls s) (trace s).

Definition set_loop (now : Z) (ts : list Tk.timer) (next : nat) (s : App) : App :=
  mkApp (sync_to_google s) (google_sync_var s) (sync_task s) (applications_df s)
    (applications_tree s) (edit_entry s) (company_entry s) (position_entry s)
    (url_entry s) (pie_chart_frame s) (line_graph_frame s) now ts
    next (calls s) (trace s).

Definition set_calls (n : nat) (s : App) : App :=
  mkApp (sync_to_google s) (google_sync_var s) (sync_task s) (applications_df s)
    (applications_tree s) (edit_entry s) (company_entry s) (position_entry s)
    (url_entry s) (pie_chart_frame s) (line_graph_frame s) (clock s) (timers s)
    (next_id s) n (trace s).

Definition set_trace (tr : list event) (s : App) : App :=
  mkApp (sync_to_google s) (google_sync_var s) (sync_task s) (applications_df s)
    (applications_tree s) (edit_entry s) (company_entry s) (position_entry s)
    (url_entry s) (pie_chart_frame s) (line_graph_frame s) (clock s) (timers s)
    (next_id s) (calls s) tr.

(** ** Methods as state transformers that may raise

    A method maps the object to a result, a value or a raised exception, and
    the object as the call leaves it: what was assigned before an exception
    stays assigned. *)

Inductive res (A : Type) : Type :=
| Ok (a : A)
| Raise (e : exn).

Arguments Ok {A} a.
Arguments Raise {A} e.

Definition M (A : Type) : Type := App -> res A * App.

Definition ret {A} (a : A) : M A := fun s => (Ok a, s).

Definition raise {A} (e : exn) : M A := fun s => (Raise e, s).

Definition bind {A B} (m : M A) (k : A -> M B) : M B :=
  fun s =>
    match m s with
    | (Ok a, s') => k a s'
    | (Raise e, s') => (Raise e, s')
    end.

(** [try: m except Exception as e: h e] *)
Definition try_except {A} (m : M A) (h : exn -> M A) : M A :=
  fun s =>
    match m s with
    | (Ok a, s') => (Ok a, s')
    | (Raise e, s') => h e s'
    end.

Definition gets {A} (f : App -> A) : M A := fun s => (Ok (f s), s).

Definition modify (f : App -> App) : M unit := fun s => (Ok tt, f s).

Definition emit (e : event) : M unit :=
  modify (fun s => set_trace (e :: trace s) s).

Definition lift {A} (r : exn + A) : M A :=
  match r with
  | inl e => raise e
  | inr a => ret a
  end.

Declare Scope method_scope.
Delimit Scope method_scope with method.

Notation "x <- m ;; k" := (bind m (fun x => k))
  (at level 61, m at next level, right associativity) : method_scope.
Notation "m ;; k" := (bind m (fun _ => k))
  (at level 61, right associativity) : method_scope.

Local Open Scope method_scope.

(** [for x in l: body x] *)
Fixpoint for_each {A} (l : list A) (body : A -> M unit) : M unit :=
  match l with
  | [] => ret tt
  | x :: l' => body x ;; for_each l' body
  end.

(** [if b: m] *)
Definition when (b : bool) (m : M unit) : M unit :=
  if b then m else ret tt.

(** Number of events of a kind in a trace. *)
Definition count_events (p : event -> bool) (tr : list event) : nat :=
  List.length (filter p tr).

Definition is_fetch (e : event) : bool :=
  match e with EvFetch => true | _ => false end.

Definition is_replace (e : event) : bool :=
  match e with EvReplace _ => true | _ => false end.

Definition is_populate (e : event) : bool :=
  match e with EvPopulate _ => true | _ => false end.

Definition is_push (e : event) : bool :=
  match e with EvPush _ => true | _ => false end.

(** ** The methods of [AppTrack] *)

(** The file behind [DATA_FILE_PATH] as a call to the reader finds it. *)
Inductive file_state : Type :=
| FileAbsent
| FileUnreadable
| FileHolds (df : Pd.DataFrame).

Definition record_columns : list string :=
  ["Company"; "Position"; "Application Portal URL"; "Date Applied"; "Status"]%string.

(** The columns the tree view is created with in
    [create_view_edit_applications_tab]. *)
Definition tree_columns : list string := "No"%string :: record_columns.

(** [sorted(l, reverse=True)] on integers. *)
Fixpoint insert_desc (x : Z) (l : list Z) : list Z :=
  match l with
  | [] => [x]
  | y :: l' => if (y <=? x)%Z then x :: l else y :: insert_desc x l'
  end.

Fixpoint sorted_reverse (l : list Z) : list Z :=
  match l with
  | [] => []
  | x :: l' => insert_desc x (sorted_reverse l')
  end.

(** [l[i]] and [l[i] = x] for a position counted from the front: an
    IndexError past the end. *)
Definition list_get {A} (i : nat) (l : list A) : M A :=
  match nth_error l i with
  | Some x => ret x
  | None => raise IndexError
  end.

Definition list_set {A} (i : nat) (x : A) (l : list A) : M (list A) :=
  if (i <? List.length l)%nat then ret (Pd.set_nth i x l) else raise IndexError.

Section Methods.

Local Open Scope Z_scope.
Local Open Scope string_scope.

(** The helpers of [src/utils] ([google_sheets.py], [file_io.py]) and the
    calendar are outside this file: the outcome of each call is given by the
    environment, for the remote and the file calls as a function of the
    number of calls made before it. *)
Variable read_from_google_sheets : nat -> exn + Pd.DataFrame.
Variable write_to_google_sheets : nat -> Pd.DataFrame -> option exn.
Variable save_applications_to_excel : nat -> Pd.DataFrame -> option exn.
Variable read_applications_from_excel : file_state -> exn + Pd.DataFrame.
Variable today : Z -> string.

Definition call_read_from_google_sheets : M Pd.DataFrame :=
  fun s =>
    let s' := set_calls (S (calls s)) (set_trace (EvFetch :: trace s) s) in
    match read_from_google_sheets (calls s) with
    | inl e => (Raise e, s')
    | inr df => (Ok df, s')
    end.

Definition call_write_to_google_sheets (df : Pd.DataFrame) : M unit :=
  fun s =>
    let s' := set_calls (S (calls s)) (set_trace (EvPush df :: trace s) s) in
    match write_to_google_sheets (calls s) df with
    | Some e => (Raise e, s')
    | None => (Ok tt, s')
    end.

Definition call_save_applications_to_excel (df : Pd.DataFrame) : M unit :=
  fun s =>
    let s' := set_calls (S (calls s)) (set_trace (EvSave df :: trace s) s) in
    match save_applications_to_excel (calls s) df with
    | Some e => (Raise e, s')
    | None => (Ok tt, s')
    end.

(** [self.applications_tree]: an AttributeError on a method of [None]. *)
Definition the_tree : M Tk.Tree :=
  fun s =>
    match applications_tree s with
    | Some t => (Ok t, s)
    | None => (Raise AttributeError, s)
    end.

Definition tree_insert (iid : Z) (vs : list Tk.value) : M unit :=
  t <- the_tree ;;
  t' <- lift (Tk.insert iid vs t) ;;
  modify (set_applications_tree (Some t')).

Definition row_values (cols : list string) (r : Z * list Pd.cell) : list Tk.value :=
  [ Tk.VInt (fst r + 1);
    Tk.VCell (Pd.row_get cols (snd r) "Company" (Pd.Str ""));
    Tk.VCell (Pd.row_get cols (snd r) "Position" (Pd.Str ""));
    Tk.VCell (Pd.row_get cols (snd r) "Application Portal URL" (Pd.Str ""));
    Tk.VCell (Pd.row_get cols (snd r) "Date Applied" (Pd.Str ""));
    Tk.VCell (Pd.row_get cols (snd r) "Status" (Pd.Str "")) ].

(** [populate_treeview(df)]: every item is deleted, then one item is
    inserted per row of [df] under the row's index label. *)
Definition populate_treeview (df : Pd.DataFrame) : M unit :=
  emit (EvPopulate df) ;;
  _ <- the_tree ;;
  modify (set_applications_tree (Some [])) ;;
  for_each (Pd.rows df)
    (fun r => tree_insert (fst r) (row_values (Pd.columns df) r)).

(** [sync_from_google_sheets] (the Pull). *)
Definition sync_from_google_sheets : M unit :=
  sync <- gets sync_to_google ;;
  if negb sync then ret tt
  else
    try_except
      (google_df <- call_read_from_google_sheets ;;
       let google_df := Pd.fillna google_df in
       when (negb (Pd.empty google_df))
         (local <- gets applications_df ;;
          when (negb (Pd.equals google_df local))
            (modify (set_applications_df google_df) ;;
             emit (EvReplace google_df) ;;
             tree <- gets applications_tree ;;
             match tree with
             | Some _ => df <- gets applications_df ;; populate_treeview df
             | None => ret tt
             end)))
      (fun e => emit (EvLogError "sync_from_google_sheets" e)).

(** [sync_to_google_sheets] (the Push). *)
Definition sync_to_google_sheets : M unit :=
  sync <- gets sync_to_google ;;
  if negb sync then ret tt
  else
    try_except
      (df <- gets applications_df ;; call_write_to_google_sheets df)
      (fun e => emit (EvLogError "sync_to_google_sheets" e)).

(** [self.after(ms, cb)] *)
Definition after (ms : Z) (cb : Tk.callback) : M nat :=
  fun s =>
    (Ok (next_id s),
     set_loop (clock s)
       (timers s ++ [Tk.mkTimer (next_id s) (clock s + ms) cb])
       (S (next_id s)) s).

(** [self.after_cancel(id)]: nothing happens for an id that is not pending. *)
Definition after_cancel (id : nat) : M unit :=
  modify (fun s => set_loop (clock s) (Tk.remove_timer id (timers s)) (next_id s) s).

(** [schedule_sync] *)
Definition schedule_sync : M unit :=
  id <- after 60000 Tk.cb_schedule_sync ;;
  modify (set_sync_task (Some id)) ;;
  sync <- gets sync_to_google ;;
  when sync sync_from_google_sheets.

(** [update_config(ENABLE_GOOGLE_SYNC=enable)] catches what it raises; the
    configuration file is outside the table. *)
Definition update_config (enable : bool) : M unit := emit (EvUpdateConfig enable).

(** [toggle_sync], the command of the "Google Sync" check button. *)
Definition toggle_sync : M unit :=
  v <- gets google_sync_var ;;
  modify (set_sync_to_google v) ;;
  sync <- gets sync_to_google ;;
  update_config sync ;;
  task <- gets sync_task ;;
  match negb sync, task with
  | true, Some id => after_cancel id ;; modify (set_sync_task None)
  | _, _ => ret tt
  end ;;
  sync <- gets sync_to_google ;;
  when sync schedule_sync ;;
  sync <- gets sync_to_google ;;
  when sync sync_to_google_sheets.

(** [schedule_tasks], and the end of [__init__] that follows it. *)
Definition schedule_tasks : M unit :=
  sync <- gets sync_to_google ;;
  when sync
    (_ <- after 60000 Tk.cb_sync_to_google_sheets ;;
     schedule_sync).

Definition init_schedule : M unit :=
  schedule_tasks ;;
  modify (set_sync_task None) ;;
  schedule_sync.

(** [draw_status_pie_chart] and [draw_submissions_line_graph] catch what they
    raise. *)
Definition draw_status_pie_chart : M unit := emit EvDrawPie.
Definition draw_submissions_line_graph : M unit := emit EvDrawLine.

Definition clear_input_fields : M unit := modify (set_input_fields "" "" "").

(** [save_application] (Add). *)
Definition save_application : M unit :=
  position <- gets (fun s => Py.strip (position_entry s)) ;;
  company <- gets (fun s => Py.strip (company_entry s)) ;;
  url <- gets (fun s => Py.strip (url_entry s)) ;;
  date_applied <- gets (fun s => today (clock s)) ;;
  let status := "Submitted" in
  if negb (Py.truthy company) || negb (Py.truthy position)
  then emit (EvShowError "Error" "Company and Position are required fields.")
  else
    df <- gets applications_df ;;
    when (Pd.empty df)
      (modify (set_applications_df (Pd.DataFrame_columns record_columns))) ;;
    let new_data :=
      Pd.DataFrame_row
        [Pd.Str company; Pd.Str position; Pd.Str url; Pd.Str date_applied;
         Pd.Str status]
        record_columns in
    df <- gets applications_df ;;
    modify (set_applications_df (Pd.concat df new_data)) ;;
    df <- gets applications_df ;;
    call_save_applications_to_excel df ;;
    sync <- gets sync_to_google ;;
    when sync
      (try_except
         (df <- gets applications_df ;; call_write_to_google_sheets df)
         (fun e =>
            if is_FileNotFoundError e
            then emit (EvShowError "Error" "Google Sheets sync failed")
            else emit (EvShowError "Error" "Google Sheets sync failed"))) ;;
    df <- gets applications_df ;;
    populate_treeview df ;;
    pie <- gets pie_chart_frame ;;
    when pie draw_status_pie_chart ;;
    line <- gets line_graph_frame ;;
    when line draw_submissions_line_graph ;;
    clear_input_fields.

(** The body of the loop of [delete_rows]: the row is dropped when its id is
    in the index; otherwise a message is printed. *)
Definition drop_if_present (row_index : Z) : M unit :=
  df <- gets applications_df ;;
  if Pd.in_index row_index df
  then
    match Pd.drop row_index df with
    | Some df' => modify (set_applications_df df')
    | None => raise KeyError
    end
  else ret tt.

(** [delete_rows(row_ids)] (Delete). *)
Definition delete_rows (row_ids : list Z) : M unit :=
  match row_ids with
  | [] => ret tt
  | _ =>
      let row_indices := sorted_reverse row_ids in
      for_each row_indices drop_if_present ;;
      modify (fun s => set_applications_df (Pd.reset_index (applications_df s)) s) ;;
      df <- gets applications_df ;;
      populate_treeview df ;;
      sync <- gets sync_to_google ;;
      when sync
        (try_except
           (df <- gets applications_df ;; call_write_to_google_sheets df)
           (fun _ => ret tt)) ;;
      df <- gets applications_df ;;
      call_save_applications_to_excel df ;;
      pie <- gets pie_chart_frame ;;
      if pie then draw_status_pie_chart else raise AttributeError
  end.

(** [save_edit(item_id, col_index)] (Update). *)
Definition save_edit (item_id : Z) (col_index : nat) : M unit :=
  entry <- gets edit_entry ;;
  match entry with
  | None => ret tt
  | Some new_value =>
      tree <- the_tree ;;
      values <- lift (Tk.item item_id tree) ;;
      values <- list_set col_index (Tk.VCell (Pd.Str new_value)) values ;;
      tree <- the_tree ;;
      tree' <- lift (Tk.item_set item_id values tree) ;;
      modify (set_applications_tree (Some tree')) ;;
      column_name <- list_get col_index tree_columns ;;
      modify (fun s =>
                set_applications_df
                  (Pd.at_set item_id column_name (Pd.Str new_value)
                     (applications_df s)) s) ;;
      df <- gets applications_df ;;
      call_save_applications_to_excel df ;;
      sync <- gets sync_to_google ;;
      when sync
        (try_except
           (df <- gets applications_df ;; call_write_to_google_sheets df)
           (fun _ => ret tt)) ;;
      modify (set_edit_entry None)
  end.

(** [load_application_data] (Load). *)
Definition load_application_data (file : file_state) : M unit :=
  try_except
    (df <- lift (read_applications_from_excel file) ;;
     modify (set_applications_df df))
    (fun e =>
       emit (EvLogError "load_application_data" e) ;;
       modify (set_applications_df Pd.DataFrame_empty)).

(** ** The Tk main loop

    Callbacks run one at a time, each to its end.  An exception that leaves a
    callback is reported by Tk and the loop goes on. *)

Definition run_callback (cb : Tk.callback) : M unit :=
  match cb with
  | Tk.cb_schedule_sync => schedule_sync
  | Tk.cb_sync_to_google_sheets => sync_to_google_sheets
  end.

(** One pending timer fires: it leaves the queue, the clock is at least its
    due time, its callback runs. *)
Definition fire (t : Tk.timer) (s : App) : App :=
  snd (run_callback (Tk.timer_cb t)
         (set_loop (Z.max (clock s) (Tk.due t))
            (Tk.remove_timer (Tk.timer_id t) (timers s)) (next_id s) s)).

(** The loop runs with nothing but timers to serve until the clock shows
    [target]; [fuel] bounds the number of timers fired. *)
Fixpoint mainloop_until (fuel : nat) (target : Z) (s : App) : App :=
  match fuel with
  | O => s
  | S fuel' =>
      match Tk.next_due target (timers s) with
      | None => set_loop (Z.max (clock s) target) (timers s) (next_id s) s
      | Some t => mainloop_until fuel' target (fire t s)
      end
  end.

End Methods.

(** ** Notions used in the statements *)

(** Modelled from the spec: [read_applications_from_excel] of
    [src/utils/file_io.py], the reader behind Load, which is not among the
    sources embedded here.  An absent file gives the empty snapshot and is
    not an error; a file that is present but unreadable or corrupt makes the
    reader raise; otherwise the reader returns what the file holds. *)
Definition read_applications_from_excel_spec (file : file_state) : exn + Pd.DataFrame :=
  match file with
  | FileAbsent => inr Pd.DataFrame_empty
  | FileUnreadable => inl (OtherError "unreadable file")
  | FileHolds df => inr df
  end.

(** A method leaves an attribute as it found it, however it ends. *)
Definition preserves {A B} (f : App -> A) (m : M B) : Prop :=
  forall s, f (snd (m s)) = f s.

(** A method keeps a property of the state, however it ends. *)
Definition keeps {A} (P : App -> Prop) (m : M A) : Prop :=
  forall s, P s -> P (snd (m s)).

(** The ids of a store of [n] records are 0, ..., n-1 in display order. *)
Definition contiguous (df : Pd.DataFrame) : Prop :=
  Pd.index df = map Z.of_nat (seq 0 (Pd.len df)).

(** [x in l] for integers. *)
Definition mem (x : Z) (l : list Z) : bool := existsb (Z.eqb x) l.

(** The frame without the rows whose label is in [ids]. *)
Definition drop_all (ids : list Z) (df : Pd.DataFrame) : Pd.DataFrame :=
  Pd.mkDataFrame (Pd.columns df)
    (filter (fun r => negb (mem (fst r) ids)) (Pd.rows df)).

(** The last row of a frame. *)
Definition last_row (df : Pd.DataFrame) : option (Z * list Pd.cell) :=
  match rev (Pd.rows df) with
  | [] => None
  | r :: _ => Some r
  end.

(** The frame [save_application] appends to: a frame without rows or
    without columns is first replaced by one with the five columns. *)
Definition base_frame (df : Pd.DataFrame) : Pd.DataFrame :=
  if Pd.empty df then Pd.DataFrame_columns record_columns else df.

(** The row [save_application] builds from the input fields. *)
Definition new_row (today : Z -> string) (s : App) : list Pd.cell :=
  [Pd.Str (Py.strip (company_entry s)); Pd.Str (Py.strip (position_entry s));
   Pd.Str (Py.strip (url_entry s)); Pd.Str (today (clock s)); Pd.Str "Submitted"].

(** A stored text has no white space at either end. *)
Definition no_outer_space (c : Pd.cell) : Prop :=
  match c with
  | Pd.Str t => Py.starts_with_space t = false /\ Py.ends_with_space t = false
  | Pd.NaN => True
  end.

(** The message box of a rejected Add. *)
Definition required_fields_error : event :=
  EvShowError "Error" "Company and Position are required fields.".

(** Every item of the tree view stands for a row of the table: its id is an
    index label.  This is so after every [populate_treeview] of the table,
    and Pull, Add, Update and Delete keep it so. *)
Definition view_within_store (s : App) : bool :=
  match applications_tree s with
  | Some tree =>
      forallb (fun it => Pd.in_index (fst it) (applications_df s)) tree
  | None => true
  end.

(** The timer ids in the queue are distinct and below the next id to be
    handed out, as Tk keeps them. *)
Definition timers_ok (s : App) : Prop :=
  NoDup (map Tk.timer_id (timers s))
  /\ forall t, In t (timers s) -> Tk.timer_id t < next_id s.

(** The timer [schedule_sync] arms, and the state once it is armed and
    recorded in [sync_task]. *)
Definition next_tick (s : App) : Tk.timer :=
  Tk.mkTimer (next_id s) (clock s + 60000)%Z Tk.cb_schedule_sync.

Definition armed (s : App) : App :=
  set_sync_task (Some (next_id s))
    (set_loop (clock s) (timers s ++ [next_tick s]) (S (next_id s)) s).

(** ** Sample data *)

Definition sample_row (company position status : string) : list Pd.cell :=
  [Pd.Str company; Pd.Str position; Pd.Str ""; Pd.Str "2024-01-15"; Pd.Str status].

Definition store_A : Pd.DataFrame :=
  Pd.mkDataFrame record_columns [(0%Z, sample_row "A" "a" "Submitted")].

Definition store_B : Pd.DataFrame :=
  Pd.mkDataFrame record_columns [(0%Z, sample_row "B" "b" "Interview")].

Definition store_ABCD : Pd.DataFrame :=
  Pd.mkDataFrame record_columns
    [(0%Z, sample_row "A" "a" "Submitted"); (1%Z, sample_row "B" "b" "Rejected");
     (2%Z, sample_row "C" "c" "Interview"); (3%Z, sample_row "D" "d" "Offer")].

Definition store_ACD : Pd.DataFrame :=
  Pd.mkDataFrame record_columns
    [(0%Z, sample_row "A" "a" "Submitted"); (1%Z, sample_row "C" "c" "Interview");
     (2%Z, sample_row "D" "d" "Offer")].

(** The remote sheet with its header and no record. *)
Definition remote_without_records : Pd.DataFrame := Pd.DataFrame_columns record_columns.

(** Outcomes of the calls to the remote sheet and to the file. *)
Definition network_error : exn := OtherError "network".

Definition remote_returns (df : Pd.DataFrame) : nat -> exn + Pd.DataFrame :=
  fun _ => inr df.

Definition remote_fails (e : exn) : nat -> exn + Pd.DataFrame :=
  fun _ => inl e.

Definition write_succeeds : nat -> Pd.DataFrame -> option exn := fun _ _ => None.

Definition write_fails (e : exn) : nat -> Pd.DataFrame -> option exn :=
  fun _ _ => Some e.

Definition fixed_date : Z -> string := fun _ => "2024-01-15"%string.

(** An application showing the table [df], with synchronisation on or off,
    no timer pending and nothing typed. *)
Definition app_showing (sync : bool) (df : Pd.DataFrame) : App :=
  mkApp sync sync None df (Some []) None "" "" "" true true 0%Z [] 0 0 [].

(** Input fields filled in over a table. *)
Definition app_with_input (company position url : string) (df : Pd.DataFrame) : App :=
  set_input_fields company position url (app_showing false df).

(** The application as [__init__] leaves it with synchronisation on and the
    remote sheet equal to the table, and the same once the user has unchecked
    the "Google Sync" box (before the command [toggle_sync] runs). *)
Definition app_after_init : App :=
  snd (init_schedule (remote_returns store_A) (app_showing true store_A)).

Definition app_box_unchecked : App := set_google_sync_var false app_after_init.



(** ** Further methods of [AppTrack] *)

(** [s.lower()] on code points below 256: A..Z and the capital letters of
    Latin-1 (all of 192..222 but the multiplication sign) move up by 32. *)
Definition char_lower (c : ascii) : ascii :=
  let n := N_of_ascii c in
  if (((65 <=? n) && (n <=? 90))
      || ((192 <=? n) && (n <=? 222) && negb (n =? 215)))%N
  then ascii_of_N (n + 32)
  else c.

Fixpoint str_lower (s : string) : string :=
  match s with
  | EmptyString => EmptyString
  | String c s' => String (char_lower c) (str_lower s')
  end.

(** [t in s] for strings. *)
Fixpoint str_contains (t s : string) : bool :=
  String.prefix t s
  || match s with
     | EmptyString => false
     | String _ s' => str_contains t s'
     end.

(** [mask_char * n] *)
Fixpoint str_times (mask_char : string) (n : nat) : string :=
  match n with
  | O => EmptyString
  | S n' => String.append mask_char (str_times mask_char n')
  end.

(** [mask_value(value, mask_char)] *)
Definition mask_value (value mask_char : string) : string :=
  if Py.truthy value then str_times mask_char (String.length value)
  else EmptyString.

(** [df[df[col] == v]]: the rows whose cell under [col] is the text [v], in
    their order and under their labels; [None] for the KeyError of a frame
    without the column.  A missing cell equals no text. *)
Definition frame_where_eq (col v : string) (df : Pd.DataFrame) : option Pd.DataFrame :=
  if Pd.has_column col (Pd.columns df)
  then Some (Pd.mkDataFrame (Pd.columns df)
               (filter (fun r => Pd.cell_eqb
                                   (Pd.get_cell (Pd.columns df) (snd r) col)
                                   (Pd.Str v))
                       (Pd.rows df)))
  else None.

(** [filter_by_status(status)] *)
Definition filter_by_status (status : string) : M unit :=
  df <- gets applications_df ;;
  match frame_where_eq "Status" status df with
  | Some filtered_df => populate_treeview filtered_df
  | None => raise KeyError
  end.

Section MoreMethods.

Variable write_to_google_sheets : nat -> Pd.DataFrame -> option exn.
Variable save_applications_to_excel : nat -> Pd.DataFrame -> option exn.

(** How pandas prints a row once its cells are lower-cased
    ([row.astype(str).str.lower().to_string()]): the layout is pandas' own
    and is left open. *)
Variable row_to_string : list string -> Z * list Pd.cell -> string.

(** [save_status(item_id, col_index)], the command of the status dropdown.
    [status_combobox] is the selection of the dropdown, [None] when the
    attribute holds no widget. *)
Definition save_status (status_combobox : option string) (item_id : Z)
    (col_index : nat) : M unit :=
  new_status <- match status_combobox with
                | Some v => ret v
                | None => raise AttributeError
                end ;;
  tree <- the_tree ;;
  values <- lift (Tk.item item_id tree) ;;
  values <- list_set col_index (Tk.VCell (Pd.Str new_status)) values ;;
  tree <- the_tree ;;
  tree' <- lift (Tk.item_set item_id values tree) ;;
  modify (set_applications_tree (Some tree')) ;;
  column_name <- list_get col_index tree_columns ;;
  modify (fun s =>
            set_applications_df
              (Pd.at_set item_id column_name (Pd.Str new_status)
                 (applications_df s)) s) ;;
  try_except
    (df <- gets applications_df ;;
     call_save_applications_to_excel save_applications_to_excel df)
    (fun _ => ret tt) ;;
  sync <- gets sync_to_google ;;
  when sync
    (try_except
       (df <- gets applications_df ;;
        call_write_to_google_sheets write_to_google_sheets df)
       (fun _ => ret tt)) ;;
  pie <- gets pie_chart_frame ;;
  if pie then draw_status_pie_chart else raise AttributeError.

(** [perform_search], run on every change of the search field, whose text
    is [search_var]. *)
Definition perform_search (search_var : string) : M unit :=
  let search_term := str_lower (Py.strip search_var) in
  if negb (Py.truthy search_term)
  then df <- gets applications_df ;; populate_treeview df
  else
    df <- gets applications_df ;;
    let filtered_df :=
      Pd.mkDataFrame (Pd.columns df)
        (filter (fun r => str_contains search_term
                            (row_to_string (Pd.columns df) r))
                (Pd.rows df)) in
    populate_treeview filtered_df.

End MoreMethods.

(** ** Further notions *)

(** Every row has one cell per column. *)
Definition rows_fit (df : Pd.DataFrame) : Prop :=
  Forall (fun r => List.length (snd r) = List.length (Pd.columns df)) (Pd.rows df).

(** The items [populate_treeview] makes of the rows of a frame. *)
Definition items_of (df : Pd.DataFrame) : Tk.Tree :=
  map (fun r => (fst r, row_values (Pd.columns df) r)) (Pd.rows df).

(** The pending timers that will run [schedule_sync]. *)
Definition is_tick (t : Tk.timer) : bool :=
  match Tk.timer_cb t with
  | Tk.cb_schedule_sync => true
  | Tk.cb_sync_to_google_sheets => false
  end.

Definition ticks_pending (s : App) : nat := List.length (filter is_tick (timers s)).

(** The calls to the remote sheet in a trace. *)
Definition is_remote (e : event) : bool := is_fetch e || is_push e.

Definition is_save (e : event) : bool :=
  match e with EvSave _ => true | _ => false end.

(** ** Further sample data *)

(** A frame in which the label 0 comes twice. *)
Definition frame_with_repeated_label : Pd.DataFrame :=
  Pd.mkDataFrame record_columns
    [(0%Z, sample_row "A" "a" "Submitted"); (0%Z, sample_row "B" "b" "Rejected")].

(** The view once the values of the item [iid] are replaced. *)
Definition view_with_values (iid : Z) (vs : list Tk.value) (t : Tk.Tree) : Tk.Tree :=
  map (fun it => if (fst it =? iid)%Z then (iid, vs) else it) t.

(** The state of [save_edit] and [save_status] once the view and the table
    hold the new text, before the file and the remote sheet are called. *)
Definition edited (item_id : Z) (col_index : nat) (column : string) (v : string)
    (values : list Tk.value) (t : Tk.Tree) (s : App) : App :=
  set_applications_df
    (Pd.at_set item_id column (Pd.Str v) (applications_df s))
    (set_applications_tree
       (Some (view_with_values item_id
                (Pd.set_nth col_index (Tk.VCell (Pd.Str v)) values) t))
       s).

(** An application showing the table [df] in a populated view, with [value]
    typed into an open edit entry and synchronisation on or off. *)
Definition app_editing_sync (sync : bool) (value : string) (df : Pd.DataFrame) : App :=
  set_edit_entry (Some value) (snd (populate_treeview df (app_showing sync df))).

(** The state of [delete_rows] once the rows are dropped, the index is reset
    and the view shows the new table, before the remote sheet and the file
    are called. *)
Definition deleted (ids : list Z) (s : App) : App :=
  let df' := Pd.reset_index (drop_all ids (applications_df s)) in
  set_applications_tree (Some (items_of df'))
    (set_trace (EvPopulate df' :: trace s) (set_applications_df df' s)).

(** The state after a call of [write_to_google_sheets] with [df] made
    exactly when synchronisation is on. *)
Definition pushed_if_sync (df : Pd.DataFrame) (s : App) : App :=
  if sync_to_google s
  then set_calls (S (calls s)) (set_trace (EvPush df :: trace s) s)
  else s.

(** The state after a call of [save_applications_to_excel] with [df]. *)
Definition saved (df : Pd.DataFrame) (s : App) : App :=
  set_calls (S (calls s)) (set_trace (EvSave df :: trace s) s).

(** The table after an Add that passes the check. *)
Definition table_with_new_record (today : Z -> string) (s : App) : Pd.DataFrame :=
  Pd.concat (base_frame (applications_df s))
    (Pd.DataFrame_row (new_row today s) record_columns).

(** The message box of an Add whose push to the remote sheet fails. *)
Definition sync_failed_error : event :=
  EvShowError "Error" "Google Sheets sync failed".

(** What an Add that passes the check does after the file is saved and the
    remote sheet is called: the view is filled, the charts that exist are
    redrawn, the input fields are cleared. *)
Definition shown_and_cleared (df : Pd.DataFrame) (s : App) : App :=
  set_input_fields "" "" ""
    (set_trace
       ((if line_graph_frame s then [EvDrawLine] else [])
        ++ (if pie_chart_frame s then [EvDrawPie] else [])
        ++ EvPopulate df :: trace s)
       (set_applications_tree (Some (items_of df)) s)).

(** Synchronisation is off and the trace holds [n] calls to the remote
    sheet. *)
Definition offline (n : nat) (s : App) : Prop :=
  sync_to_google s = false /\ count_events is_remote (trace s) = n.

(** * Properties *)

(** ** Python strings *)

Module PyFacts.

Import Py.

Lemma lstrip_all_space s : all_space s = true -> lstrip s = EmptyString.
Proof.
  induction s as [|c s IH]; simpl; [reflexivity|].
  intros H. apply andb_true_iff in H as [Hc Hs]. rewrite Hc. auto.
Qed.

Lemma lstrip_empty_all_space s : lstrip s = EmptyString -> all_space s = true.
Proof.
  induction s as [|c s IH]; simpl; [reflexivity|].
  destruct (isspace c); [simpl; auto | discriminate].
Qed.

Lemma rstrip_empty_all_space s : rstrip s = EmptyString -> all_space s = true.
Proof.
  induction s as [|c s IH]; simpl; [reflexivity|].
  destruct (rstrip s); [|discriminate].
  destruct (isspace c); [simpl; auto | discriminate].
Qed.

Lemma all_space_lstrip s : all_space (lstrip s) = true -> all_space s = true.
Proof.
  induction s as [|c s IH]; simpl; [reflexivity|].
  destruct (isspace c) eqn:Hc; simpl; [auto|].
  rewrite Hc. discriminate.
Qed.

Lemma strip_all_space s : all_space s = true -> strip s = EmptyString.
Proof. intros H. unfold strip. rewrite lstrip_all_space; auto. Qed.

Lemma strip_empty_iff s : strip s = EmptyString <-> all_space s = true.
Proof.
  split; [|apply strip_all_space].
  intros H. apply all_space_lstrip, rstrip_empty_all_space, H.
Qed.

Lemma lstrip_starts s : starts_with_space (lstrip s) = false.
Proof.
  induction s as [|c s IH]; simpl; [reflexivity|].
  destruct (isspace c) eqn:Hc; [exact IH | simpl; exact Hc].
Qed.

Lemma rstrip_starts s :
  starts_with_space s = false -> starts_with_space (rstrip s) = false.
Proof.
  destruct s as [|c s]; simpl; [reflexivity|].
  intros Hc. rewrite Hc. destruct (rstrip s); simpl; exact Hc.
Qed.

Lemma rstrip_ends s : ends_with_space (rstrip s) = false.
Proof.
  induction s as [|c s IH]; simpl; [reflexivity|].
  destruct (rstrip s) as [|c' r] eqn:Hr.
  - destruct (isspace c) eqn:Hc; simpl; [reflexivity | exact Hc].
  - simpl in *. exact IH.
Qed.

Lemma strip_no_outer_space s :
  starts_with_space (strip s) = false /\ ends_with_space (strip s) = false.
Proof.
  split; [apply rstrip_starts, lstrip_starts | apply rstrip_ends].
Qed.

End PyFacts.

(** ** pandas frames *)

Module PdFacts.

Import Pd.
Local Open Scope Z_scope.

Lemma cell_eqb_eq a b : cell_eqb a b = true <-> a = b.
Proof.
  destruct a, b; simpl; try (split; congruence).
  rewrite String.eqb_eq. split; congruence.
Qed.

Lemma list_eqb_eq {A} (eqb : A -> A -> bool)
    (eqb_eq : forall x y, eqb x y = true <-> x = y) l1 l2 :
  list_eqb eqb l1 l2 = true <-> l1 = l2.
Proof.
  revert l2. induction l1 as [|x l1 IH]; intros [|y l2]; simpl;
    try (split; congruence).
  rewrite andb_true_iff, eqb_eq, IH. split.
  - intros [-> ->]. reflexivity.
  - intros E. injection E as -> ->. auto.
Qed.

Lemma row_eqb_eq r1 r2 : row_eqb r1 r2 = true <-> r1 = r2.
Proof.
  destruct r1 as [i1 c1], r2 as [i2 c2]. unfold row_eqb. simpl.
  rewrite andb_true_iff, Z.eqb_eq, (list_eqb_eq cell_eqb cell_eqb_eq).
  split.
  - intros [-> ->]. reflexivity.
  - intros E. injection E as -> ->. auto.
Qed.

(** [equals] decides structural equality of frames. *)
Lemma equals_eq a b : equals a b = true <-> a = b.
Proof.
  destruct a as [ca ra], b as [cb rb]. unfold equals. simpl.
  rewrite andb_true_iff, (list_eqb_eq String.eqb String.eqb_eq),
    (list_eqb_eq row_eqb row_eqb_eq).
  split.
  - intros [-> ->]. reflexivity.
  - intros E. injection E as -> ->. auto.
Qed.

Lemma equals_refl a : equals a a = true.
Proof. apply equals_eq. reflexivity. Qed.

Lemma equals_false a b : a <> b -> equals a b = false.
Proof.
  intros H. destruct (equals a b) eqn:E; [|reflexivity].
  apply equals_eq in E. contradiction.
Qed.

Lemma renumber_from_length k rs : List.length (renumber_from k rs) = List.length rs.
Proof. revert k. induction rs; intros; simpl; auto. Qed.

Lemma renumber_from_cells k rs : map snd (renumber_from k rs) = map snd rs.
Proof. revert k. induction rs; intros; simpl; f_equal; auto. Qed.

Lemma renumber_from_index k rs :
  map fst (renumber_from k rs)
  = map (fun i => k + Z.of_nat i) (seq 0 (List.length rs)).
Proof.
  revert k. induction rs as [|r rs IH]; intros k; simpl; [reflexivity|].
  f_equal; [lia|].
  rewrite IH, <- seq_shift, map_map.
  apply map_ext. intros i. lia.
Qed.

Lemma renumber_from_app k l1 l2 :
  renumber_from k (l1 ++ l2)
  = renumber_from k l1 ++ renumber_from (k + Z.of_nat (List.length l1)) l2.
Proof.
  revert k. induction l1 as [|r l1 IH]; intros k; simpl.
  - f_equal. lia.
  - f_equal. rewrite IH. do 2 f_equal. lia.
Qed.

Lemma reset_index_index df :
  index (reset_index df) = map Z.of_nat (seq 0 (len df)).
Proof.
  unfold index, reset_index, len. simpl. rewrite renumber_from_index.
  apply map_ext. intros. lia.
Qed.

Lemma has_column_position c cols :
  has_column c cols = true -> exists i, position c cols = Some i.
Proof.
  induction cols as [|c' cols IH]; simpl; [discriminate|].
  destruct (String.eqb c c'); simpl; [eauto|].
  intros H. destruct (IH H) as [i ->]. simpl. eauto.
Qed.

(** A realigned row shows under each of the new columns what the row had
    under that label. *)
Lemma get_cell_map (f : string -> cell) c cols :
  has_column c cols = true -> get_cell cols (map f cols) c = f c.
Proof.
  unfold get_cell.
  induction cols as [|c' cols IH]; simpl; [discriminate|].
  destruct (String.eqb c c') eqn:E; simpl.
  - apply String.eqb_eq in E. subst. reflexivity.
  - intros H. specialize (IH H).
    destruct (position c cols); simpl; exact IH.
Qed.

Lemma get_cell_realign c cols' cols cells :
  has_column c cols' = true ->
  get_cell cols' (realign cols' cols cells) c = get_cell cols cells c.
Proof. apply get_cell_map. Qed.


Lemma has_column_union c a b :
  has_column c b = true ->
  has_column c (a ++ filter (fun c => negb (has_column c a)) b) = true.
Proof.
  intros Hb. unfold has_column at 1. rewrite existsb_app.
  destruct (existsb (String.eqb c) a) eqn:Ha; [reflexivity|]. simpl.
  apply existsb_exists. apply existsb_exists in Hb as [x [Hx Ex]].
  exists x. split; [|exact Ex].
  apply filter_In. split; [exact Hx|].
  apply String.eqb_eq in Ex. subst x. unfold has_column. rewrite Ha. reflexivity.
Qed.

(** Appending one row with [concat]: the rows of the first frame keep their
    order and get the labels 0, 1, ...; the new row comes last, labelled
    with the former length. *)
Lemma concat_row_rows a cells cols :
  let cols' := columns a ++ filter (fun c => negb (has_column c (columns a))) cols in
  rows (concat a (DataFrame_row cells cols))
  = renumber_from 0
      (map (fun r => (fst r, realign cols' (columns a) (snd r))) (rows a))
    ++ [(Z.of_nat (len a), realign cols' cols cells)].
Proof.
  unfold concat, DataFrame_row, len. simpl.
  rewrite renumber_from_app, length_map. reflexivity.
Qed.


Lemma concat_row_index a cells cols :
  index (concat a (DataFrame_row cells cols))
  = map Z.of_nat (seq 0 (S (len a))).
Proof.
  unfold index. rewrite concat_row_rows, map_app, renumber_from_index, length_map.
  rewrite seq_S, map_app. simpl.
  rewrite (map_ext (fun i => 0 + Z.of_nat i) Z.of_nat) by (intros; lia).
  reflexivity.
Qed.

Lemma filter_all {A} (p : A -> bool) l :
  (forall x, In x l -> p x = true) -> filter p l = l.
Proof.
  induction l as [|x l IH]; simpl; intros H; [reflexivity|].
  rewrite (H x (or_introl eq_refl)). f_equal. apply IH. auto.
Qed.

Lemma filter_filter {A} (p q : A -> bool) l :
  filter p (filter q l) = filter (fun x => q x && p x) l.
Proof.
  induction l as [|x l IH]; simpl; [reflexivity|].
  destruct (q x); simpl; [destruct (p x)|]; rewrite IH; reflexivity.
Qed.

Lemma in_index_In label df : in_index label df = true <-> In label (index df).
Proof.
  unfold in_index. rewrite existsb_exists. split.
  - intros [x [Hx E]]. apply Z.eqb_eq in E. subst. exact Hx.
  - intros H. exists label. split; [exact H | apply Z.eqb_refl].
Qed.



End PdFacts.

(** ** Attributes a method leaves alone *)

Section Frame.

Context {A : Type} (f : App -> A).

Lemma preserves_ret B (b : B) : preserves f (ret b).
Proof. intros s. reflexivity. Qed.

Lemma preserves_raise B e : preserves f (@raise B e).
Proof. intros s. reflexivity. Qed.

Lemma preserves_gets B (g : App -> B) : preserves f (gets g).
Proof. intros s. reflexivity. Qed.

Lemma preserves_lift B (r : exn + B) : preserves f (lift r).
Proof. intros s. destruct r; reflexivity. Qed.

Lemma preserves_bind B C (m : M B) (k : B -> M C) :
  preserves f m -> (forall b, preserves f (k b)) -> preserves f (bind m k).
Proof.
  intros Hm Hk s. unfold bind. specialize (Hm s).
  destruct (m s) as [[b|e] s']; simpl in *; [|exact Hm].
  rewrite Hk. exact Hm.
Qed.

Lemma preserves_try_except B (m : M B) (h : exn -> M B) :
  preserves f m -> (forall e, preserves f (h e)) -> preserves f (try_except m h).
Proof.
  intros Hm Hh s. unfold try_except. specialize (Hm s).
  destruct (m s) as [[b|e] s']; simpl in *; [exact Hm|].
  rewrite Hh. exact Hm.
Qed.

Lemma preserves_modify (g : App -> App) :
  (forall s, f (g s) = f s) -> preserves f (modify g).
Proof. intros H s. simpl. apply H. Qed.

Lemma preserves_when b (m : M unit) : preserves f m -> preserves f (when b m).
Proof. intros H. destruct b; simpl; [exact H | apply preserves_ret]. Qed.

Lemma preserves_for_each B (l : list B) (body : B -> M unit) :
  (forall x, preserves f (body x)) -> preserves f (for_each l body).
Proof.
  intros H. induction l as [|x l IH]; simpl.
  - apply preserves_ret.
  - apply preserves_bind; auto.
Qed.

Lemma preserves_list_get B i (l : list B) : preserves f (list_get i l).
Proof. unfold list_get. destruct (nth_error l i); intros s; reflexivity. Qed.

Lemma preserves_list_set B i (x : B) (l : list B) : preserves f (list_set i x l).
Proof. unfold list_set. destruct (i <? List.length l)%nat; intros s; reflexivity. Qed.

End Frame.

(** How a method that starts with a step [m] goes on. *)
Lemma bind_ok {A B} (m : M A) (k : A -> M B) s a s' :
  m s = (Ok a, s') -> bind m k s = k a s'.
Proof. unfold bind. intros ->. reflexivity. Qed.

(** What holds after the first step and is kept by the rest holds at the
    end, whether the first step raises or not. *)
Lemma bind_inv {A B} (P : App -> Prop) (m : M A) (k : A -> M B) s :
  P (snd (m s)) ->
  (forall a s', P s' -> P (snd (k a s'))) ->
  P (snd (bind m k s)).
Proof.
  intros Hm Hk. unfold bind. destruct (m s) as [[a|e] s']; simpl in *; auto.
Qed.

Lemma keeps_bind {A B} (P : App -> Prop) (m : M A) (k : A -> M B) :
  keeps P m -> (forall a, keeps P (k a)) -> keeps P (bind m k).
Proof.
  intros Hm Hk s Hs. apply bind_inv; [apply Hm, Hs|].
  intros a s'. apply Hk.
Qed.

Lemma keeps_preserved {A B} (f : App -> A) (P : A -> Prop) (m : M B) :
  preserves f m -> keeps (fun s => P (f s)) m.
Proof. intros H s Hs. rewrite H. exact Hs. Qed.

Lemma set_applications_df_same s : set_applications_df (applications_df s) s = s.
Proof. destruct s. reflexivity. Qed.

Section MethodFacts.

Local Open Scope Z_scope.

Variable read_from_google_sheets : nat -> exn + Pd.DataFrame.
Variable write_to_google_sheets : nat -> Pd.DataFrame -> option exn.
Variable save_applications_to_excel : nat -> Pd.DataFrame -> option exn.
Variable today : Z -> string.

Lemma the_tree_preserves A (f : App -> A) : preserves f the_tree.
Proof. intros s. unfold the_tree. destruct (applications_tree s); reflexivity. Qed.

Lemma call_write_preserves A (f : App -> A) df :
  (forall n tr s, f (set_calls n (set_trace tr s)) = f s) ->
  preserves f (call_write_to_google_sheets write_to_google_sheets df).
Proof.
  intros H s. unfold call_write_to_google_sheets.
  destruct (write_to_google_sheets (calls s) df); simpl; apply H.
Qed.

Lemma call_save_preserves A (f : App -> A) df :
  (forall n tr s, f (set_calls n (set_trace tr s)) = f s) ->
  preserves f (call_save_applications_to_excel save_applications_to_excel df).
Proof.
  intros H s. unfold call_save_applications_to_excel.
  destruct (save_applications_to_excel (calls s) df); simpl; apply H.
Qed.

Lemma call_read_preserves A (f : App -> A) :
  (forall n tr s, f (set_calls n (set_trace tr s)) = f s) ->
  preserves f (call_read_from_google_sheets read_from_google_sheets).
Proof.
  intros H s. unfold call_read_from_google_sheets.
  destruct (read_from_google_sheets (calls s)); simpl; apply H.
Qed.

(** What only the tree view changes. *)
Lemma tree_insert_preserves A (f : App -> A) iid vs :
  (forall t s, f (set_applications_tree t s) = f s) ->
  preserves f (tree_insert iid vs).
Proof.
  intros H. unfold tree_insert.
  apply preserves_bind; [apply the_tree_preserves|intro].
  apply preserves_bind; [apply preserves_lift|intro].
  apply preserves_modify. intro. apply H.
Qed.

Lemma populate_treeview_preserves A (f : App -> A) df :
  (forall t s, f (set_applications_tree t s) = f s) ->
  (forall tr s, f (set_trace tr s) = f s) ->
  preserves f (populate_treeview df).
Proof.
  intros Ht Htr. unfold populate_treeview.
  apply preserves_bind; [apply preserves_modify; intro; apply Htr|intro].
  apply preserves_bind; [apply the_tree_preserves|intro].
  apply preserves_bind; [apply preserves_modify; intro; apply Ht|intro].
  apply preserves_for_each. intro. apply tree_insert_preserves. exact Ht.
Qed.

(** [populate_treeview] adds its own event to the trace and nothing else. *)
Lemma populate_treeview_trace df s :
  trace (snd (populate_treeview df s)) = EvPopulate df :: trace s.
Proof.
  unfold populate_treeview.
  rewrite (bind_ok _ _ s (a := tt)
             (s' := set_trace (EvPopulate df :: trace s) s)) by reflexivity.
  match goal with
  | |- trace (snd (?m ?s1)) = _ =>
      assert (H : preserves trace m); [|rewrite H; reflexivity]
  end.
  apply preserves_bind; [apply the_tree_preserves|intro].
  apply preserves_bind; [apply preserves_modify; intro; reflexivity|intro].
  apply preserves_for_each. intro. apply tree_insert_preserves. reflexivity.
Qed.

End MethodFacts.

(** Splits a goal [preserves f m] along the structure of the method [m]. *)
Ltac frame_side := solve [intros; reflexivity | intros; auto].

Ltac frame_step :=
  first
    [ apply preserves_ret
    | apply preserves_raise
    | apply preserves_gets
    | apply preserves_lift
    | apply preserves_list_get
    | apply preserves_list_set
    | apply the_tree_preserves
    | apply call_read_preserves; frame_side
    | apply call_write_preserves; frame_side
    | apply call_save_preserves; frame_side
    | apply populate_treeview_preserves; frame_side
    | apply preserves_modify; frame_side
    | apply preserves_when
    | apply preserves_bind; [|intro]
    | apply preserves_try_except; [|intro]
    | apply preserves_for_each; intro
    | match goal with
      | |- preserves _ (if ?b then _ else _) => destruct b
      | |- preserves _ (match ?x with _ => _ end) => destruct x
      end ].

Ltac frame := repeat frame_step.

(** ** Pull: [sync_from_google_sheets] *)

Section Pull.

Variable read_from_google_sheets : nat -> exn + Pd.DataFrame.

Lemma empty_fillna df : Pd.empty (Pd.fillna df) = Pd.empty df.
Proof. unfold Pd.empty, Pd.fillna. simpl. rewrite length_map. reflexivity. Qed.

(** A Pull never lets an exception out. *)
Lemma pull_returns s : fst (sync_from_google_sheets read_from_google_sheets s) = Ok tt.
Proof.
  unfold sync_from_google_sheets, bind, gets, try_except. simpl.
  destruct (sync_to_google s); simpl; [|reflexivity].
  match goal with |- context [match ?m with _ => _ end] => destruct m as [[[]|e] s'] end;
    reflexivity.
Qed.

(** With synchronisation off, a Pull does nothing at all. *)
Lemma pull_disabled s : sync_to_google s = false -> sync_from_google_sheets read_from_google_sheets s = (Ok tt, s).
Proof.
  intros H. unfold sync_from_google_sheets, bind, gets. simpl. rewrite H. reflexivity.
Qed.

(** The state a Pull leaves when the fetched snapshot is not adopted. *)
Lemma pull_not_adopted s raw :
  sync_to_google s = true ->
  read_from_google_sheets (calls s) = inr raw ->
  Pd.empty (Pd.fillna raw) = true
  \/ Pd.equals (Pd.fillna raw) (applications_df s) = true ->
  sync_from_google_sheets read_from_google_sheets s = (Ok tt, set_calls (S (calls s)) (set_trace (EvFetch :: trace s) s)).
Proof.
  intros Hs Hr H.
  unfold sync_from_google_sheets, bind, gets, try_except,
    call_read_from_google_sheets, when. simpl.
  rewrite Hs. simpl. rewrite Hr. simpl.
  destruct (Pd.empty (Pd.fillna raw)) eqn:He; simpl; [reflexivity|].
  destruct H as [H|H]; [discriminate|]. rewrite H. reflexivity.
Qed.

(** The state a Pull leaves when the fetched snapshot is adopted. *)
Lemma pull_adopted s raw :
  sync_to_google s = true ->
  read_from_google_sheets (calls s) = inr raw ->
  Pd.empty (Pd.fillna raw) = false ->
  Pd.equals (Pd.fillna raw) (applications_df s) = false ->
  let s' := snd (sync_from_google_sheets read_from_google_sheets s) in
  applications_df s' = Pd.fillna raw
  /\ count_events is_replace (trace s') = S (count_events is_replace (trace s))
  /\ count_events is_populate (trace s')
     = match applications_tree s with
       | Some _ => S (count_events is_populate (trace s))
       | None => count_events is_populate (trace s)
       end
  /\ count_events is_fetch (trace s') = S (count_events is_fetch (trace s)).
Proof.
  intros Hs Hr He Hq.
  unfold sync_from_google_sheets, bind, gets, try_except,
    call_read_from_google_sheets, when, modify, emit. simpl.
  rewrite Hs. simpl. rewrite Hr. simpl. rewrite He. simpl. rewrite Hq. simpl.
  destruct (applications_tree s) as [t|] eqn:Ht; simpl; [|auto].
  match goal with
  | |- context [populate_treeview ?df ?s1] =>
      pose proof (populate_treeview_trace df s1) as Htr;
      pose proof (populate_treeview_preserves applications_df df
                    (fun _ _ => eq_refl) (fun _ _ => eq_refl) s1) as Hdf;
      destruct (populate_treeview df s1) as [[[]|e] s2]
  end; simpl in *; rewrite Htr; auto.
Qed.

End Pull.

(** From here on the arguments of a lemma are all written out. *)
Unset Implicit Arguments.

(** ** Claims about Pull *)

(** C4.  A Pull whose fetched snapshot, missing cells filled, is structurally
    equal to the local snapshot (same columns, same records in the same
    order, same values) returns normally, assigns nothing to the table, does
    not touch the tree view, and adds no replacement and no repopulation of
    the view to the trace. *)
Theorem pull_equal_snapshot_changes_nothing
    (read_from_google_sheets : nat -> exn + Pd.DataFrame) (s : App)
    (raw : Pd.DataFrame) :
  read_from_google_sheets (calls s) = inr raw ->
  Pd.fillna raw = applications_df s ->
  let out := sync_from_google_sheets read_from_google_sheets s in
  fst out = Ok tt
  /\ applications_df (snd out) = applications_df s
  /\ applications_tree (snd out) = applications_tree s
  /\ count_events is_replace (trace (snd out)) = count_events is_replace (trace s)
  /\ count_events is_populate (trace (snd out)) = count_events is_populate (trace s).
Proof.
  intros Hr Heq out. subst out.
  destruct (sync_to_google s) eqn:Hs.
  - rewrite (pull_not_adopted read_from_google_sheets s Hs Hr).
    + simpl. auto.
    + right. rewrite Heq. apply PdFacts.equals_refl.
  - rewrite pull_disabled by exact Hs. simpl. auto.
Qed.

Lemma pull_equal_snapshot_changes_nothing_witness :
  let out := sync_from_google_sheets (remote_returns store_A) (app_showing true store_A) in
  fst out = Ok tt
  /\ applications_df (snd out) = store_A
  /\ applications_tree (snd out) = Some []
  /\ count_events is_replace (trace (snd out)) = 0
  /\ count_events is_populate (trace (snd out)) = 0.
Proof.
  exact (pull_equal_snapshot_changes_nothing (remote_returns store_A)
           (app_showing true store_A) store_A eq_refl eq_refl).
Defined.

(** C10.  A Pull whose fetched snapshot is empty never replaces the local
    table, whatever the table holds: the table is the same afterwards, no
    replacement is recorded, and a table that had records still has them. *)
Theorem pull_empty_remote_never_replaces
    (read_from_google_sheets : nat -> exn + Pd.DataFrame) (s : App)
    (raw : Pd.DataFrame) :
  read_from_google_sheets (calls s) = inr raw ->
  Pd.empty raw = true ->
  let out := sync_from_google_sheets read_from_google_sheets s in
  applications_df (snd out) = applications_df s
  /\ count_events is_replace (trace (snd out)) = count_events is_replace (trace s)
  /\ (Pd.empty (applications_df s) = false ->
      Pd.empty (applications_df (snd out)) = false).
Proof.
  intros Hr He out. subst out.
  destruct (sync_to_google s) eqn:Hs.
  - rewrite (pull_not_adopted read_from_google_sheets s Hs Hr).
    + simpl. auto.
    + left. rewrite empty_fillna. exact He.
  - rewrite pull_disabled by exact Hs. simpl. auto.
Qed.

Lemma pull_empty_remote_never_replaces_witness :
  let out :=
    sync_from_google_sheets (remote_returns remote_without_records)
      (app_showing true store_ABCD) in
  applications_df (snd out) = store_ABCD
  /\ count_events is_replace (trace (snd out)) = 0
  /\ (Pd.empty store_ABCD = false -> Pd.empty (applications_df (snd out)) = false).
Proof.
  exact (pull_empty_remote_never_replaces (remote_returns remote_without_records)
           (app_showing true store_ABCD) remote_without_records eq_refl eq_refl).
Defined.

(** C1 fails for an empty remote snapshot: with the local table holding one
    record and the remote sheet none, the two snapshots differ, yet the Pull
    replaces nothing and the table still differs from what was fetched. *)
Lemma pull_empty_remote_counterexample :
  let out :=
    sync_from_google_sheets (remote_returns remote_without_records)
      (app_showing true store_A) in
  Pd.fillna remote_without_records <> store_A
  /\ Pd.empty remote_without_records = true
  /\ Pd.empty store_A = false
  /\ fst out = Ok tt
  /\ count_events is_replace (trace (snd out)) = 0
  /\ count_events is_populate (trace (snd out)) = 0
  /\ applications_df (snd out) = store_A
  /\ applications_df (snd out) <> Pd.fillna remote_without_records.
Proof.
  cbv zeta. repeat split; try reflexivity; discriminate.
Qed.

(** C1, amended.  A Pull with synchronisation on whose fetched snapshot,
    missing cells filled, has at least one record and is not structurally
    equal to the local snapshot returns normally, replaces the table
    wholesale exactly once, so that the table is the fetched snapshot
    afterwards, and repopulates the tree view exactly once when the view
    exists. *)
Theorem pull_differing_snapshot_replaces
    (read_from_google_sheets : nat -> exn + Pd.DataFrame) (s : App)
    (raw : Pd.DataFrame) :
  sync_to_google s = true ->
  read_from_google_sheets (calls s) = inr raw ->
  Pd.empty (Pd.fillna raw) = false ->
  Pd.fillna raw <> applications_df s ->
  let out := sync_from_google_sheets read_from_google_sheets s in
  fst out = Ok tt
  /\ applications_df (snd out) = Pd.fillna raw
  /\ count_events is_replace (trace (snd out))
     = S (count_events is_replace (trace s))
  /\ count_events is_populate (trace (snd out))
     = match applications_tree s with
       | Some _ => S (count_events is_populate (trace s))
       | None => count_events is_populate (trace s)
       end.
Proof.
  intros Hs Hr He Hne out. subst out.
  split; [apply pull_returns|].
  destruct (pull_adopted read_from_google_sheets s Hs Hr He
              (PdFacts.equals_false Hne)) as [H1 [H2 [H3 _]]].
  auto.
Qed.

Lemma pull_differing_snapshot_replaces_witness :
  let out :=
    sync_from_google_sheets (remote_returns store_B) (app_showing true store_A) in
  fst out = Ok tt
  /\ applications_df (snd out) = store_B
  /\ count_events is_replace (trace (snd out)) = 1
  /\ count_events is_populate (trace (snd out)) = 1.
Proof.
  refine (pull_differing_snapshot_replaces (remote_returns store_B)
            (app_showing true store_A) store_B eq_refl eq_refl eq_refl _).
  discriminate.
Defined.

(** ** Delete: [delete_rows] *)

Section Delete.

Local Open Scope Z_scope.

Variable write_to_google_sheets : nat -> Pd.DataFrame -> option exn.
Variable save_applications_to_excel : nat -> Pd.DataFrame -> option exn.

Lemma mem_In x l : mem x l = true <-> In x l.
Proof.
  unfold mem. rewrite existsb_exists. split.
  - intros [y [Hy E]]. apply Z.eqb_eq in E. subst. exact Hy.
  - intros H. exists x. split; [exact H | apply Z.eqb_refl].
Qed.

Lemma mem_cons z x l : mem z (x :: l) = (z =? x) || mem z l.
Proof. reflexivity. Qed.

Lemma mem_insert_desc z x l : mem z (insert_desc x l) = mem z (x :: l).
Proof.
  induction l as [|y l IH]; simpl; [reflexivity|].
  destruct (y <=? x); [reflexivity|].
  rewrite !mem_cons, IH, !mem_cons.
  destruct (z =? x), (z =? y); reflexivity.
Qed.

(** Sorting the ids changes their order only. *)
Lemma mem_sorted_reverse z l : mem z (sorted_reverse l) = mem z l.
Proof.
  induction l as [|x l IH]; simpl; [reflexivity|].
  rewrite mem_insert_desc, !mem_cons, IH. reflexivity.
Qed.

Lemma drop_all_sorted_reverse ids df :
  drop_all (sorted_reverse ids) df = drop_all ids df.
Proof.
  unfold drop_all. f_equal. apply filter_ext. intros r.
  rewrite mem_sorted_reverse. reflexivity.
Qed.

Lemma drop_all_nil df : drop_all [] df = df.
Proof.
  destruct df as [cols rs]. unfold drop_all. simpl. f_equal.
  apply PdFacts.filter_all. reflexivity.
Qed.

Lemma drop_all_cons x ids df :
  drop_all ids (drop_all [x] df) = drop_all (x :: ids) df.
Proof.
  unfold drop_all. simpl. f_equal. rewrite PdFacts.filter_filter.
  apply filter_ext. intros r. unfold mem. simpl.
  rewrite orb_false_r, negb_orb. reflexivity.
Qed.

(** One turn of the loop: the rows labelled [x] go, if there are any. *)
Lemma drop_one x df :
  (if Pd.in_index x df
   then match Pd.drop x df with
        | Some df' => df'
        | None => df
        end
   else df) = drop_all [x] df.
Proof.
  unfold Pd.drop. destruct (Pd.in_index x df) eqn:E.
  - unfold drop_all. f_equal. apply filter_ext. intros r.
    unfold mem. simpl. rewrite orb_false_r. reflexivity.
  - destruct df as [cols rs]. unfold drop_all. cbn [Pd.columns Pd.rows]. f_equal.
    symmetry. apply PdFacts.filter_all. intros r Hr.
    destruct (mem (fst r) [x]) eqn:M; [|reflexivity].
    apply mem_In in M. destruct M as [M|[]]. subst x.
    assert (Pd.in_index (fst r) (Pd.mkDataFrame cols rs) = true).
    { apply PdFacts.in_index_In. unfold Pd.index. simpl. apply in_map. exact Hr. }
    congruence.
Qed.

Lemma drop_if_present_run x s :
  drop_if_present x s
  = (Ok tt, set_applications_df (drop_all [x] (applications_df s)) s).
Proof.
  rewrite <- drop_one. unfold drop_if_present, bind, gets. simpl.
  unfold Pd.drop. destruct (Pd.in_index x (applications_df s)); simpl.
  - reflexivity.
  - rewrite set_applications_df_same. reflexivity.
Qed.

(** The loop of [delete_rows] never raises and leaves the table without the
    rows whose label is among the ids. *)
Lemma drop_loop_run ids s :
  for_each ids drop_if_present s
  = (Ok tt, set_applications_df (drop_all ids (applications_df s)) s).
Proof.
  revert s. induction ids as [|x ids IH]; intros s; simpl.
  - rewrite drop_all_nil, set_applications_df_same. reflexivity.
  - unfold bind at 1. rewrite drop_if_present_run, IH. simpl.
    rewrite drop_all_cons. reflexivity.
Qed.

(** The table [delete_rows] leaves, however the call ends. *)
Lemma delete_rows_table ids s :
  ids <> [] ->
  applications_df
    (snd (delete_rows write_to_google_sheets save_applications_to_excel ids s))
  = Pd.reset_index (drop_all ids (applications_df s)).
Proof.
  intros Hne. destruct ids as [|i ids]; [congruence|].
  unfold delete_rows.
  rewrite (bind_ok _ _ s (drop_loop_run _ s)).
  rewrite drop_all_sorted_reverse.
  match goal with
  | |- applications_df (snd (bind ?m ?k ?s1)) = _ =>
      rewrite (bind_ok m k s1 (a := tt)
                 (s' := set_applications_df
                          (Pd.reset_index (applications_df s1)) s1))
        by reflexivity
  end.
  match goal with
  | |- applications_df (snd (?m ?s2)) = _ =>
      assert (H : preserves applications_df m); [|rewrite H; reflexivity]
  end.
  frame.
Qed.

Lemma NoDup_range n : NoDup (map Z.of_nat (seq 0 n)).
Proof.
  apply Finite.Injective_map_NoDup; [|apply seq_NoDup].
  intros x y. apply Nat2Z.inj.
Qed.

(** Among rows with distinct labels, as many go as there are ids of rows. *)
Lemma survivors_length (rs : list (Z * list Pd.cell)) ids :
  NoDup (map fst rs) ->
  NoDup ids ->
  (forall i, In i ids -> In i (map fst rs)) ->
  List.length (filter (fun r => negb (mem (fst r) ids)) rs)
  = (List.length rs - List.length ids)%nat.
Proof.
  intros Hrs Hids Hin.
  pose proof (filter_length (fun r => mem (fst r) ids) rs) as Hsplit.
  cbv beta in Hsplit.
  assert (Hgone : List.length (filter (fun r => mem (fst r) ids) rs)
                  = List.length ids).
  { rewrite <- (length_map fst).
    rewrite <- (filter_map_swap (fun i => mem i ids) fst rs).
    apply Permutation_length, NoDup_Permutation.
    - apply NoDup_filter. exact Hrs.
    - exact Hids.
    - intros x. rewrite filter_In, mem_In. split; [tauto|]. auto. }
  lia.
Qed.

End Delete.

(** C2.  On a store whose ids are 0..n-1 in order, [delete_rows] with a set of
    ids of the store removes exactly the records with those ids, keeps the
    others in their order, and numbers them 0..(n-|S|)-1. *)
Theorem delete_rows_removes_and_renumbers
    (write_to_google_sheets save_applications_to_excel : nat -> Pd.DataFrame -> option exn)
    (s : App) (row_ids : list Z) :
  contiguous (applications_df s) ->
  NoDup row_ids ->
  (forall i, In i row_ids -> In i (Pd.index (applications_df s))) ->
  let df := applications_df s in
  let df' :=
    applications_df
      (snd (delete_rows write_to_google_sheets save_applications_to_excel row_ids s)) in
  Pd.columns df' = Pd.columns df
  /\ map snd (Pd.rows df')
     = map snd (filter (fun r => negb (mem (fst r) row_ids)) (Pd.rows df))
  /\ Pd.index df' = map Z.of_nat (seq 0 (Pd.len df - List.length row_ids)).
Proof.
  intros Hc Hnd Hin df df'. subst df df'.
  assert (Hcase : row_ids = [] \/ row_ids <> [])
    by (destruct row_ids; [left | right]; congruence).
  destruct Hcase as [->|Hne].
  - simpl. repeat split.
    + rewrite PdFacts.filter_all; reflexivity.
    + rewrite Nat.sub_0_r. exact Hc.
  - rewrite delete_rows_table by exact Hne.
    repeat split.
    + unfold Pd.reset_index, drop_all. cbn [Pd.rows].
      apply PdFacts.renumber_from_cells.
    + rewrite PdFacts.reset_index_index. unfold Pd.len at 1, drop_all.
      cbn [Pd.rows].
      rewrite survivors_length; auto.
      unfold contiguous, Pd.index in Hc. rewrite Hc. apply NoDup_range.
Qed.

Lemma delete_rows_removes_and_renumbers_witness :
  let df' :=
    applications_df
      (snd (delete_rows write_succeeds write_succeeds [1%Z] (app_showing false store_ABCD))) in
  Pd.columns df' = record_columns
  /\ map snd (Pd.rows df')
     = [sample_row "A" "a" "Submitted"; sample_row "C" "c" "Interview";
        sample_row "D" "d" "Offer"]
  /\ Pd.index df' = [0%Z; 1%Z; 2%Z].
Proof.
  refine (delete_rows_removes_and_renumbers write_succeeds write_succeeds
            (app_showing false store_ABCD) [1%Z] eq_refl _ _).
  - constructor; [intros []|constructor].
  - intros i [<-|[]]. simpl. auto.
Defined.

(** The example of the specification: deleting id 1 from [A(0), B(1), C(2),
    D(3)] leaves [A(0), C(1), D(2)]. *)
Example delete_B_from_ABCD :
  applications_df
    (snd (delete_rows write_succeeds write_succeeds [1%Z] (app_showing false store_ABCD)))
  = store_ACD.
Proof. reflexivity. Qed.

(** ** Add: [save_application] *)

Section Add.

Local Open Scope string_scope.

Variable write_to_google_sheets : nat -> Pd.DataFrame -> option exn.
Variable save_applications_to_excel : nat -> Pd.DataFrame -> option exn.
Variable today : Z -> string.

Lemma save_application_rejected s :
  Py.strip (company_entry s) = "" \/ Py.strip (position_entry s) = "" ->
  save_application write_to_google_sheets save_applications_to_excel today s
  = (Ok tt,
     set_trace (EvShowError "Error" "Company and Position are required fields."
                :: trace s) s).
Proof.
  intros H. unfold save_application, bind, gets. simpl.
  destruct H as [H|H]; rewrite H; simpl.
  - reflexivity.
  - rewrite orb_true_r. reflexivity.
Qed.

Lemma truthy_true s : s <> "" -> Py.truthy s = true.
Proof. destruct s; [congruence | reflexivity]. Qed.

(** The table [save_application] leaves when the input passes the check,
    however the call ends afterwards. *)
Lemma save_application_table s :
  Py.strip (company_entry s) <> "" ->
  Py.strip (position_entry s) <> "" ->
  applications_df
    (snd (save_application write_to_google_sheets save_applications_to_excel today s))
  = Pd.concat (base_frame (applications_df s))
      (Pd.DataFrame_row (new_row today s) record_columns).
Proof.
  intros Hc Hp. unfold save_application.
  unfold bind at 1 2 3 4. unfold gets at 1 2 3 4. cbv beta iota.
  rewrite (truthy_true _ Hc), (truthy_true _ Hp). cbn [negb orb].
  rewrite (bind_ok _ _ s (a := applications_df s) (s' := s)) by reflexivity.
  rewrite (bind_ok _ _ s (a := tt)
             (s' := set_applications_df (base_frame (applications_df s)) s)).
  2:{ unfold base_frame, when. destruct (Pd.empty (applications_df s)).
      - reflexivity.
      - rewrite set_applications_df_same. reflexivity. }
  match goal with
  | |- applications_df (snd (bind ?m ?k ?s1)) = _ =>
      rewrite (bind_ok m k s1 (a := applications_df s1) (s' := s1)) by reflexivity
  end.
  match goal with
  | |- applications_df (snd (bind (modify ?g) ?k ?s1)) = _ =>
      rewrite (bind_ok (modify g) k s1 (a := tt) (s' := g s1)) by reflexivity
  end.
  match goal with
  | |- applications_df (snd (?m ?s2)) = _ =>
      assert (H : preserves applications_df m); [|rewrite H; reflexivity]
  end.
  frame.
Qed.

(** A table without columns has no rows: then a table that counts as empty
    has no rows. *)
Lemma base_frame_len df :
  (Pd.columns df = [] -> Pd.rows df = []) ->
  Pd.len (base_frame df) = Pd.len df.
Proof.
  destruct df as [cols rs]. simpl. intros H.
  unfold base_frame, Pd.empty, Pd.len. simpl.
  destruct cols as [|c cols]; simpl.
  - rewrite (H eq_refl). reflexivity.
  - destruct rs; reflexivity.
Qed.

Lemma last_row_app df rs r :
  Pd.rows df = (rs ++ [r])%list -> last_row df = Some r.
Proof. unfold last_row. intros ->. rewrite rev_app_distr. reflexivity. Qed.

(** The columns after an Add include the five columns of a record. *)
Lemma concat_record_columns a cells c :
  Pd.has_column c record_columns = true ->
  Pd.has_column c (Pd.columns (Pd.concat a (Pd.DataFrame_row cells record_columns)))
  = true.
Proof. intros H. exact (PdFacts.has_column_union c (Pd.columns a) record_columns H). Qed.

(** The row appended by an Add shows the given cells under the five
    columns. *)
Lemma concat_last_row a cells :
  exists stored,
    last_row (Pd.concat a (Pd.DataFrame_row cells record_columns))
    = Some (Z.of_nat (Pd.len a), stored)
    /\ forall c, Pd.has_column c record_columns = true ->
         Pd.get_cell
           (Pd.columns (Pd.concat a (Pd.DataFrame_row cells record_columns)))
           stored c
         = Pd.get_cell record_columns cells c.
Proof.
  eexists. split.
  - eapply last_row_app. exact (PdFacts.concat_row_rows a cells record_columns).
  - intros c Hc.
    exact (PdFacts.get_cell_realign c _ record_columns cells
             (concat_record_columns a cells c Hc)).
Qed.

End Add.

(** ** Claims about Add *)




(** C9.  [save_application] strips Company, Position and the portal URL before
    it checks and stores them: an input whose Company or Position is white
    space only is rejected with the same result, table and trace as the
    input with that field empty, and when a record is stored its Company,
    Position and URL are the stripped texts, with no white space at either
    end. *)
Theorem save_application_strips_input
    (write_to_google_sheets save_applications_to_excel : nat -> Pd.DataFrame -> option exn)
    (today : Z -> string) (s : App) :
  let add := save_application write_to_google_sheets save_applications_to_excel today in
  let df' := applications_df (snd (add s)) in
  (Py.all_space (company_entry s) = true \/ Py.all_space (position_entry s) = true ->
   add s = (Ok tt, set_trace (required_fields_error :: trace s) s))
  /\ (Py.all_space (company_entry s) = true ->
      let s0 := set_input_fields "" (position_entry s) (url_entry s) s in
      fst (add s) = fst (add s0)
      /\ applications_df (snd (add s)) = applications_df (snd (add s0))
      /\ trace (snd (add s)) = trace (snd (add s0)))
  /\ (Py.all_space (position_entry s) = true ->
      let s0 := set_input_fields (company_entry s) "" (url_entry s) s in
      fst (add s) = fst (add s0)
      /\ applications_df (snd (add s)) = applications_df (snd (add s0))
      /\ trace (snd (add s)) = trace (snd (add s0)))
  /\ (Py.all_space (company_entry s) = false ->
      Py.all_space (position_entry s) = false ->
      exists id stored,
        last_row df' = Some (id, stored)
        /\ Pd.get_cell (Pd.columns df') stored "Company"
           = Pd.Str (Py.strip (company_entry s))
        /\ Pd.get_cell (Pd.columns df') stored "Position"
           = Pd.Str (Py.strip (position_entry s))
        /\ Pd.get_cell (Pd.columns df') stored "Application Portal URL"
           = Pd.Str (Py.strip (url_entry s))
        /\ no_outer_space (Pd.get_cell (Pd.columns df') stored "Company")
        /\ no_outer_space (Pd.get_cell (Pd.columns df') stored "Position")
        /\ no_outer_space (Pd.get_cell (Pd.columns df') stored "Application Portal URL")).
Proof.
  intros add df'.
  assert (Hrej : forall s1,
             Py.all_space (company_entry s1) = true
             \/ Py.all_space (position_entry s1) = true ->
             add s1 = (Ok tt, set_trace (required_fields_error :: trace s1) s1)).
  { intros s1 H. apply save_application_rejected.
    destruct H as [H|H]; [left | right]; apply PyFacts.strip_all_space, H. }
  split; [apply Hrej|].
  split; [|split].
  - intros H s0. rewrite (Hrej s) by auto.
    rewrite (Hrej s0) by (left; reflexivity).
    destruct s; simpl; auto.
  - intros H s0. rewrite (Hrej s) by auto.
    rewrite (Hrej s0) by (right; reflexivity).
    destruct s; simpl; auto.
  - intros Hc Hp. subst df' add.
    rewrite save_application_table.
    + destruct (concat_last_row (base_frame (applications_df s)) (new_row today s))
        as [stored [Hlast Hcells]].
      exists (Z.of_nat (Pd.len (base_frame (applications_df s)))), stored.
      split; [exact Hlast|].
      rewrite !Hcells by reflexivity.
      repeat split; try reflexivity; apply PyFacts.strip_no_outer_space.
    + intros E. apply PyFacts.strip_empty_iff in E. congruence.
    + intros E. apply PyFacts.strip_empty_iff in E. congruence.
Qed.

Lemma save_application_strips_input_witness :
  let s := app_with_input "   " "Engineer" "" store_A in
  Py.all_space (company_entry s) = true
  /\ save_application write_succeeds write_succeeds fixed_date s
     = (Ok tt, set_trace (required_fields_error :: trace s) s).
Proof.
  split; [reflexivity|].
  destruct (save_application_strips_input write_succeeds write_succeeds fixed_date
              (app_with_input "   " "Engineer" "" store_A)) as [H _].
  apply H. left. reflexivity.
Defined.

(** An Add whose Company is typed with spaces around it stores the bare
    text. *)
Example add_strips_company :
  applications_df
    (snd (save_application write_succeeds write_succeeds fixed_date
            (app_with_input " Acme " "Engineer" "" Pd.DataFrame_empty)))
  = Pd.mkDataFrame record_columns [(0%Z, sample_row "Acme" "Engineer" "Submitted")].
Proof. reflexivity. Qed.

(** The scenario of the specification: two Adds, an Update of the status of
    the second record, and the deletion of the first leave one record,
    renumbered 0. *)
Example end_to_end_scenario :
  let add company position s :=
    snd (save_application write_succeeds write_succeeds fixed_date
           (set_input_fields company position ""%string s)) in
  let update id col value s :=
    snd (save_edit write_succeeds write_succeeds id col
           (set_edit_entry (Some value) s)) in
  let delete ids s := snd (delete_rows write_succeeds write_succeeds ids s) in
  let s1 := add "Acme"%string "Engineer"%string (app_showing false Pd.DataFrame_empty) in
  let s2 := add "Globex"%string "PM"%string s1 in
  let s3 := update 1%Z 5 "Interview"%string s2 in
  let s4 := delete [0%Z] s3 in
  applications_df s1
  = Pd.mkDataFrame record_columns [(0%Z, sample_row "Acme" "Engineer" "Submitted")]
  /\ Pd.index (applications_df s2) = [0%Z; 1%Z]
  /\ Pd.at_get 1 "Status" (applications_df s3) = Some (Pd.Str "Interview")
  /\ applications_df s4
     = Pd.mkDataFrame record_columns [(0%Z, sample_row "Globex" "PM" "Interview")].
Proof. cbv zeta. repeat split; reflexivity. Qed.

(** ** The timer loop *)

Section Loop.

Local Open Scope Z_scope.

Variable read_from_google_sheets : nat -> exn + Pd.DataFrame.
Variable write_to_google_sheets : nat -> Pd.DataFrame -> option exn.

(** What a Pull can change: the table, the tree view, the trace and the count
    of outside calls. *)
Lemma pull_preserves A (f : App -> A) :
  (forall n tr s, f (set_calls n (set_trace tr s)) = f s) ->
  (forall tr s, f (set_trace tr s) = f s) ->
  (forall df s, f (set_applications_df df s) = f s) ->
  (forall t s, f (set_applications_tree t s) = f s) ->
  preserves f (sync_from_google_sheets read_from_google_sheets).
Proof.
  intros Hc Htr Hdf Ht. unfold sync_from_google_sheets. frame.
Qed.

(** What a Push can change: the trace and the count of outside calls. *)
Lemma push_preserves A (f : App -> A) :
  (forall n tr s, f (set_calls n (set_trace tr s)) = f s) ->
  (forall tr s, f (set_trace tr s) = f s) ->
  preserves f (sync_to_google_sheets write_to_google_sheets).
Proof.
  intros Hc Htr. unfold sync_to_google_sheets. frame.
Qed.

(** A Push never lets an exception out. *)
Lemma push_returns s : fst (sync_to_google_sheets write_to_google_sheets s) = Ok tt.
Proof.
  unfold sync_to_google_sheets, bind, gets, try_except. simpl.
  destruct (sync_to_google s); simpl; [|reflexivity].
  unfold call_write_to_google_sheets.
  destruct (write_to_google_sheets (calls s) (applications_df s)); reflexivity.
Qed.

(** With synchronisation off, a timer that fires changes neither the trace
    nor the table, and synchronisation stays off. *)
Lemma fire_disabled t s :
  sync_to_google s = false ->
  let s' := fire read_from_google_sheets write_to_google_sheets t s in
  sync_to_google s' = false
  /\ trace s' = trace s
  /\ applications_df s' = applications_df s
  /\ calls s' = calls s.
Proof.
  intros H. unfold fire, run_callback.
  destruct (Tk.timer_cb t).
  - unfold schedule_sync, bind, after, modify, gets, when. simpl.
    rewrite H. simpl. auto.
  - unfold sync_to_google_sheets, bind, gets. simpl. rewrite H. simpl. auto.
Qed.

Lemma mainloop_disabled fuel target s :
  sync_to_google s = false ->
  let s' := mainloop_until read_from_google_sheets write_to_google_sheets fuel target s in
  sync_to_google s' = false
  /\ trace s' = trace s
  /\ applications_df s' = applications_df s
  /\ calls s' = calls s.
Proof.
  revert s. induction fuel as [|fuel IH]; intros s H; simpl; [auto|].
  destruct (Tk.next_due target (timers s)) as [t|]; [|simpl; auto].
  destruct (fire_disabled t s H) as [H1 [H2 [H3 H4]]].
  destruct (IH _ H1) as [G1 [G2 [G3 G4]]].
  cbv zeta in *. rewrite G2, G3, G4. auto.
Qed.

Lemma remove_timer_absent id ts :
  ~ In id (map Tk.timer_id (Tk.remove_timer id ts)).
Proof.
  unfold Tk.remove_timer. intros H. apply in_map_iff in H as [t [E Ht]].
  apply filter_In in Ht as [_ Hn]. rewrite E, Nat.eqb_refl in Hn. discriminate.
Qed.

(** Unchecking the box: the state [toggle_sync] leaves. *)
Lemma toggle_sync_off s :
  google_sync_var s = false ->
  toggle_sync read_from_google_sheets write_to_google_sheets s
  = (Ok tt,
     match sync_task s with
     | Some id =>
         set_sync_task None
           (set_loop (clock s) (Tk.remove_timer id (timers s)) (next_id s)
              (set_trace (EvUpdateConfig false :: trace s)
                 (set_sync_to_google false s)))
     | None =>
         set_trace (EvUpdateConfig false :: trace s) (set_sync_to_google false s)
     end).
Proof.
  intros H. unfold toggle_sync, bind, gets, modify, update_config, emit, when,
    after_cancel. simpl. rewrite H. simpl.
  destruct (sync_task s); reflexivity.
Qed.

End Loop.

(** C5.  Once [toggle_sync] has run with the box unchecked (DisableSync),
    synchronisation is off, the call itself has fetched nothing, the timer
    recorded in [sync_task] is no longer pending, and letting the clock
    advance to any time, with any number of timers firing, adds nothing to
    the trace: no fetch from the remote sheet happens and the table is not
    replaced. *)
Theorem disable_sync_stops_pulls
    (read_from_google_sheets : nat -> exn + Pd.DataFrame)
    (write_to_google_sheets : nat -> Pd.DataFrame -> option exn)
    (s : App) (fuel : nat) (target : Z) :
  google_sync_var s = false ->
  let s1 := snd (toggle_sync read_from_google_sheets write_to_google_sheets s) in
  let s2 := mainloop_until read_from_google_sheets write_to_google_sheets fuel target s1 in
  sync_to_google s1 = false
  /\ sync_task s1 = None
  /\ (forall id, sync_task s = Some id -> ~ In id (map Tk.timer_id (timers s1)))
  /\ count_events is_fetch (trace s1) = count_events is_fetch (trace s)
  /\ trace s2 = trace s1
  /\ count_events is_fetch (trace s2) = count_events is_fetch (trace s)
  /\ applications_df s2 = applications_df s.
Proof.
  intros Hv s1 s2.
  assert (H1 : sync_to_google s1 = false
               /\ sync_task s1 = None
               /\ (forall id, sync_task s = Some id ->
                     ~ In id (map Tk.timer_id (timers s1)))
               /\ trace s1 = EvUpdateConfig false :: trace s
               /\ applications_df s1 = applications_df s).
  { subst s1. rewrite toggle_sync_off by exact Hv. simpl.
    destruct (sync_task s) as [id|] eqn:Et; simpl; repeat split; auto;
      try discriminate.
    intros id' E. injection E as <-. apply remove_timer_absent. }
  destruct H1 as [Hoff [Htask [Hcancel [Htr Hdf]]]].
  destruct (mainloop_disabled read_from_google_sheets write_to_google_sheets
              fuel target s1 Hoff) as [_ [Gtr [Gdf _]]].
  fold s2 in Gtr, Gdf.
  repeat split; auto.
  - rewrite Htr. reflexivity.
  - rewrite Gtr, Htr. reflexivity.
  - rewrite Gdf. exact Hdf.
Qed.

Lemma disable_sync_stops_pulls_witness :
  google_sync_var app_box_unchecked = false
  /\ sync_to_google app_box_unchecked = true
  /\ let s1 := snd (toggle_sync (remote_returns store_B) write_succeeds app_box_unchecked) in
     let s2 := mainloop_until (remote_returns store_B) write_succeeds 20 600000%Z s1 in
     count_events is_fetch (trace s2) = count_events is_fetch (trace app_box_unchecked)
     /\ applications_df s2 = store_A.
Proof.
  split; [reflexivity|]. split; [reflexivity|].
  destruct (disable_sync_stops_pulls (remote_returns store_B) write_succeeds
              app_box_unchecked 20 600000%Z eq_refl)
    as [_ [_ [_ [_ [_ [H1 H2]]]]]].
  split; [exact H1 | exact H2].
Defined.

(** [__init__] calls [schedule_sync] twice when synchronisation is on, and
    [sync_task] remembers the second timer only.  Unchecking the box cancels
    that one; the first chain goes on firing every 60 seconds and re-arming
    itself, and still no Pull happens, because [schedule_sync] looks at
    [sync_to_google] each time. *)
Example second_chain_keeps_ticking_without_pulling :
  let s1 := snd (toggle_sync (remote_returns store_B) write_succeeds app_box_unchecked) in
  let s2 := mainloop_until (remote_returns store_B) write_succeeds 20 600000%Z s1 in
  map Tk.timer_id (timers app_box_unchecked) = [0; 1; 2]
  /\ sync_task app_box_unchecked = Some 2
  /\ map Tk.timer_id (timers s1) = [0; 1]
  /\ clock s2 = 600000%Z
  /\ map Tk.due (timers s2) = [660000%Z]
  /\ count_events is_fetch (trace app_box_unchecked) = 2
  /\ count_events is_fetch (trace s2) = 2.
Proof. cbv zeta. repeat split; reflexivity. Qed.

(** ** Failures of Pull and Push *)

Section Failures.

Local Open Scope Z_scope.

Variable read_from_google_sheets : nat -> exn + Pd.DataFrame.
Variable write_to_google_sheets : nat -> Pd.DataFrame -> option exn.

(** The state a Pull leaves when the fetch raises. *)
Lemma pull_failed s e :
  sync_to_google s = true ->
  read_from_google_sheets (calls s) = inl e ->
  sync_from_google_sheets read_from_google_sheets s
  = (Ok tt,
     set_trace (EvLogError "sync_from_google_sheets" e :: EvFetch :: trace s)
       (set_calls (S (calls s)) s)).
Proof.
  intros Hs Hr.
  unfold sync_from_google_sheets, bind, gets, try_except,
    call_read_from_google_sheets, emit, modify. simpl.
  rewrite Hs. simpl. rewrite Hr. simpl. destruct s; reflexivity.
Qed.

(** The state a Push leaves when the upload raises. *)
Lemma push_failed s e :
  sync_to_google s = true ->
  write_to_google_sheets (calls s) (applications_df s) = Some e ->
  sync_to_google_sheets write_to_google_sheets s
  = (Ok tt,
     set_trace (EvLogError "sync_to_google_sheets" e
                :: EvPush (applications_df s) :: trace s)
       (set_calls (S (calls s)) s)).
Proof.
  intros Hs Hw.
  unfold sync_to_google_sheets, bind, gets, try_except,
    call_write_to_google_sheets, emit, modify. simpl.
  rewrite Hs. simpl. rewrite Hw. simpl. destruct s; reflexivity.
Qed.

(** [schedule_sync] arms the next tick first, then pulls if synchronisation
    is on. *)
Lemma schedule_sync_run s :
  schedule_sync read_from_google_sheets s
  = when (sync_to_google s) (sync_from_google_sheets read_from_google_sheets)
      (armed s).
Proof. reflexivity. Qed.

(** A Pull with synchronisation on fetches exactly once. *)
Lemma pull_fetches_once s :
  sync_to_google s = true ->
  count_events is_fetch
    (trace (snd (sync_from_google_sheets read_from_google_sheets s)))
  = S (count_events is_fetch (trace s)).
Proof.
  intros Hs.
  destruct (read_from_google_sheets (calls s)) as [e|raw] eqn:Hr.
  - rewrite (pull_failed s e Hs Hr). reflexivity.
  - destruct (Pd.empty (Pd.fillna raw)) eqn:He.
    + rewrite (pull_not_adopted read_from_google_sheets s Hs Hr) by auto.
      reflexivity.
    + destruct (Pd.equals (Pd.fillna raw) (applications_df s)) eqn:Hq.
      * rewrite (pull_not_adopted read_from_google_sheets s Hs Hr) by auto.
        reflexivity.
      * apply (pull_adopted read_from_google_sheets s Hs Hr He Hq).
Qed.

(** A Push fetches nothing. *)
Lemma push_fetches_nothing s :
  count_events is_fetch
    (trace (snd (sync_to_google_sheets write_to_google_sheets s)))
  = count_events is_fetch (trace s).
Proof.
  unfold sync_to_google_sheets, bind, gets, try_except,
    call_write_to_google_sheets, emit, modify. simpl.
  destruct (sync_to_google s); simpl; [|reflexivity].
  destruct (write_to_google_sheets (calls s) (applications_df s)); reflexivity.
Qed.

Lemma fire_tick_fetches t s :
  Tk.timer_cb t = Tk.cb_schedule_sync ->
  sync_to_google s = true ->
  count_events is_fetch
    (trace (fire read_from_google_sheets write_to_google_sheets t s))
  = S (count_events is_fetch (trace s)).
Proof.
  intros Hcb Hs. unfold fire, run_callback. rewrite Hcb, schedule_sync_run.
  simpl sync_to_google. rewrite Hs. simpl when.
  rewrite pull_fetches_once by exact Hs. reflexivity.
Qed.

(** A timer that fires never removes a fetch from the trace. *)
Lemma fire_fetch_mono t s :
  (count_events is_fetch (trace s)
   <= count_events is_fetch
        (trace (fire read_from_google_sheets write_to_google_sheets t s)))%nat.
Proof.
  unfold fire, run_callback. destruct (Tk.timer_cb t).
  - rewrite schedule_sync_run. simpl sync_to_google.
    destruct (sync_to_google s) eqn:Hs; simpl when.
    + rewrite pull_fetches_once by exact Hs. simpl. lia.
    + simpl. lia.
  - rewrite push_fetches_nothing. simpl. lia.
Qed.

Lemma mainloop_fetch_mono fuel target s :
  (count_events is_fetch (trace s)
   <= count_events is_fetch
        (trace (mainloop_until read_from_google_sheets write_to_google_sheets
                  fuel target s)))%nat.
Proof.
  revert s. induction fuel as [|fuel IH]; intros s; simpl; [lia|].
  destruct (Tk.next_due target (timers s)) as [t|]; [|simpl; lia].
  pose proof (fire_fetch_mono t s). pose proof (IH (fire read_from_google_sheets
    write_to_google_sheets t s)). lia.
Qed.

(** No timer that fires turns synchronisation on or off. *)
Lemma fire_keeps_flag t s :
  sync_to_google (fire read_from_google_sheets write_to_google_sheets t s)
  = sync_to_google s.
Proof.
  unfold fire, run_callback. destruct (Tk.timer_cb t).
  - rewrite schedule_sync_run. simpl sync_to_google.
    destruct (sync_to_google s) eqn:Hs; simpl when; [|simpl; exact Hs].
    rewrite (pull_preserves read_from_google_sheets _ sync_to_google);
      try reflexivity. simpl. exact Hs.
  - rewrite (push_preserves write_to_google_sheets _ sync_to_google);
      reflexivity.
Qed.

(** A Push timer that fires leaves the queue and arms nothing. *)
Lemma fire_push_timers t s :
  Tk.timer_cb t = Tk.cb_sync_to_google_sheets ->
  timers (fire read_from_google_sheets write_to_google_sheets t s)
  = Tk.remove_timer (Tk.timer_id t) (timers s).
Proof.
  intros Hcb. unfold fire, run_callback. rewrite Hcb.
  rewrite (push_preserves write_to_google_sheets _ timers); reflexivity.
Qed.

Lemma earliest_In ts t : Tk.earliest ts = Some t -> In t ts.
Proof.
  revert t. induction ts as [|u ts IH]; simpl; intros t; [discriminate|].
  destruct (Tk.earliest ts) as [v|].
  - destruct (Tk.due v <? Tk.due u); intros E; injection E as <-; auto.
  - intros E. injection E as <-. auto.
Qed.

Lemma earliest_None ts : Tk.earliest ts = None -> ts = [].
Proof.
  destruct ts as [|u ts]; simpl; [reflexivity|].
  destruct (Tk.earliest ts) as [v|]; [destruct (Tk.due v <? Tk.due u)|];
    discriminate.
Qed.

(** While a timer is due, the loop has one to fire, and what it fires is a
    pending timer that is due. *)
Lemma next_due_Some target ts t0 :
  In t0 ts -> Tk.due t0 <= target ->
  exists t, Tk.next_due target ts = Some t /\ In t ts /\ Tk.due t <= target.
Proof.
  intros Hin Hdue. unfold Tk.next_due.
  destruct (Tk.earliest (filter (fun t => Tk.due t <=? target) ts)) as [t|] eqn:E.
  - exists t. split; [reflexivity|].
    apply earliest_In, filter_In in E as [H1 H2].
    split; [exact H1 | apply Z.leb_le, H2].
  - apply earliest_None in E.
    assert (In t0 (filter (fun t => Tk.due t <=? target) ts)) as H.
    { apply filter_In. split; [exact Hin | apply Z.leb_le, Hdue]. }
    rewrite E in H. destruct H.
Qed.

Lemma remove_timer_length t ts :
  In t ts ->
  (List.length (Tk.remove_timer (Tk.timer_id t) ts) < List.length ts)%nat.
Proof.
  unfold Tk.remove_timer. induction ts as [|u ts IH]; simpl; [intros []|].
  intros [->|Hin].
  - rewrite Nat.eqb_refl. simpl.
    pose proof (filter_length_le
      (fun t0 => negb (Nat.eqb (Tk.timer_id t0) (Tk.timer_id t))) ts). lia.
  - specialize (IH Hin).
    destruct (negb (Nat.eqb (Tk.timer_id u) (Tk.timer_id t))); simpl; lia.
Qed.

Lemma remove_timer_NoDup id ts :
  NoDup (map Tk.timer_id ts) -> NoDup (map Tk.timer_id (Tk.remove_timer id ts)).
Proof.
  unfold Tk.remove_timer. induction ts as [|u ts IH]; simpl; intros H; [exact H|].
  inversion H as [|x l Hnin Hnd]; subst.
  destruct (negb (Nat.eqb (Tk.timer_id u) id)); simpl; [|auto].
  constructor; [|auto].
  intros Hin. apply Hnin. apply in_map_iff in Hin as [v [E Hv]].
  apply filter_In in Hv as [Hv _]. apply in_map_iff. eauto.
Qed.

Lemma NoDup_ids_eq ts (t u : Tk.timer) :
  NoDup (map Tk.timer_id ts) -> In t ts -> In u ts ->
  Tk.timer_id t = Tk.timer_id u -> t = u.
Proof.
  induction ts as [|v ts IH]; simpl; intros H Ht Hu E; [destruct Ht|].
  inversion H as [|x l Hnin Hnd]; subst.
  destruct Ht as [->|Ht], Hu as [->|Hu]; auto.
  - exfalso. apply Hnin. rewrite E. apply in_map. exact Hu.
  - exfalso. apply Hnin. rewrite <- E. apply in_map. exact Ht.
Qed.

(** With synchronisation on and a tick of [schedule_sync] due by [target],
    the loop run up to [target] fetches at least once more. *)
Lemma due_tick_fetches fuel target s t0 :
  sync_to_google s = true ->
  NoDup (map Tk.timer_id (timers s)) ->
  In t0 (timers s) ->
  Tk.timer_cb t0 = Tk.cb_schedule_sync ->
  Tk.due t0 <= target ->
  (List.length (timers s) <= fuel)%nat ->
  (count_events is_fetch (trace s)
   < count_events is_fetch
       (trace (mainloop_until read_from_google_sheets write_to_google_sheets
                 fuel target s)))%nat.
Proof.
  revert s. induction fuel as [|fuel IH]; intros s Hs Hnd Hin Hcb Hdue Hlen.
  - destruct (timers s); [destruct Hin | simpl in Hlen; lia].
  - simpl. destruct (next_due_Some target (timers s) t0 Hin Hdue)
      as [t [-> [Ht Htdue]]].
    destruct (Tk.timer_cb t) eqn:Hcbt.
    + pose proof (fire_tick_fetches t s Hcbt Hs).
      pose proof (mainloop_fetch_mono fuel target
                    (fire read_from_google_sheets write_to_google_sheets t s)).
      lia.
    + pose proof (fire_fetch_mono t s) as Hmono.
      assert (Hlt : (count_events is_fetch
                       (trace (fire read_from_google_sheets
                                 write_to_google_sheets t s))
                     < count_events is_fetch
                         (trace (mainloop_until read_from_google_sheets
                                   write_to_google_sheets fuel target
                                   (fire read_from_google_sheets
                                      write_to_google_sheets t s))))%nat);
        [|lia].
      apply IH.
      * rewrite fire_keeps_flag. exact Hs.
      * rewrite fire_push_timers by exact Hcbt. apply remove_timer_NoDup, Hnd.
      * rewrite fire_push_timers by exact Hcbt.
        apply filter_In. split; [exact Hin|].
        apply negb_true_iff, Nat.eqb_neq. intros E.
        apply (NoDup_ids_eq (timers s) t0 t Hnd Hin Ht) in E. congruence.
      * exact Hcb.
      * exact Hdue.
      * rewrite fire_push_timers by exact Hcbt.
        pose proof (remove_timer_length t (timers s) Ht). lia.
Qed.

End Failures.

(** C6.  With synchronisation on, an exception raised by the fetch of a Pull
    or by the upload of a Push is caught and logged: the call returns
    normally, synchronisation stays on, the table is the same and no pending
    timer is lost.  The tick of [schedule_sync] that meets a failing fetch has
    armed the next tick, 60 seconds later, before the fetch; when the loop
    runs to that time, a fetch is made again. *)
Theorem sync_failure_keeps_sync_enabled
    (read_from_google_sheets : nat -> exn + Pd.DataFrame)
    (write_to_google_sheets : nat -> Pd.DataFrame -> option exn)
    (s : App) (e : exn) :
  sync_to_google s = true ->
  timers_ok s ->
  (read_from_google_sheets (calls s) = inl e ->
   let out := sync_from_google_sheets read_from_google_sheets s in
   let tick := schedule_sync read_from_google_sheets s in
   fst out = Ok tt
   /\ trace (snd out)
      = EvLogError "sync_from_google_sheets" e :: EvFetch :: trace s
   /\ sync_to_google (snd out) = true
   /\ applications_df (snd out) = applications_df s
   /\ timers (snd out) = timers s
   /\ fst tick = Ok tt
   /\ sync_to_google (snd tick) = true
   /\ applications_df (snd tick) = applications_df s
   /\ timers (snd tick) = timers s ++ [next_tick s]
   /\ forall fuel,
        List.length (timers s) < fuel ->
        count_events is_fetch (trace (snd tick))
        < count_events is_fetch
            (trace (mainloop_until read_from_google_sheets write_to_google_sheets
                      fuel (clock s + 60000)%Z (snd tick))))
  /\ (write_to_google_sheets (calls s) (applications_df s) = Some e ->
      let out := sync_to_google_sheets write_to_google_sheets s in
      fst out = Ok tt
      /\ trace (snd out)
         = EvLogError "sync_to_google_sheets" e
           :: EvPush (applications_df s) :: trace s
      /\ sync_to_google (snd out) = true
      /\ applications_df (snd out) = applications_df s
      /\ timers (snd out) = timers s).
Proof.
  intros Hs [Hnd Hfresh]. split.
  - intros Hr out tick. subst out tick.
    rewrite (pull_failed read_from_google_sheets s e Hs Hr).
    rewrite schedule_sync_run, Hs. simpl when.
    rewrite (pull_failed read_from_google_sheets (armed s) e Hs Hr).
    assert (Hretry : forall fuel,
               List.length (timers s) < fuel ->
               count_events is_fetch
                 (trace (set_trace
                           (EvLogError "sync_from_google_sheets" e :: EvFetch
                            :: trace (armed s))
                           (set_calls (S (calls (armed s))) (armed s))))
               < count_events is_fetch
                   (trace (mainloop_until read_from_google_sheets
                             write_to_google_sheets fuel (clock s + 60000)%Z
                             (set_trace
                                (EvLogError "sync_from_google_sheets" e :: EvFetch
                                 :: trace (armed s))
                                (set_calls (S (calls (armed s))) (armed s))))));
      [|simpl; repeat split; solve [reflexivity | assumption | exact Hretry]].
    intros fuel Hfuel.
    apply (due_tick_fetches read_from_google_sheets write_to_google_sheets fuel
             (clock s + 60000)%Z _ (next_tick s)); simpl.
    + exact Hs.
    + rewrite map_app. simpl.
      apply NoDup_app_remove_l with (l := []). simpl.
      apply Permutation_NoDup with (l := next_id s :: map Tk.timer_id (timers s)).
      * apply Permutation_cons_append.
      * constructor; [|exact Hnd].
        intros Hin. apply in_map_iff in Hin as [t [E Ht]].
        specialize (Hfresh t Ht). lia.
    + apply in_or_app. right. left. reflexivity.
    + reflexivity.
    + lia.
    + rewrite length_app. simpl. lia.
  - intros Hw out. subst out.
    rewrite (push_failed write_to_google_sheets s e Hs Hw).
    simpl. repeat split; assumption.
Qed.

Lemma sync_failure_keeps_sync_enabled_witness :
  let s := app_showing true store_A in
  sync_to_google s = true
  /\ timers_ok s
  /\ count_events is_fetch
       (trace (snd (schedule_sync (remote_fails network_error) s)))
     < count_events is_fetch
         (trace (mainloop_until (remote_fails network_error)
                   (write_fails network_error) 1 60000%Z
                   (snd (schedule_sync (remote_fails network_error) s)))).
Proof.
  assert (Hok : timers_ok (app_showing true store_A)).
  { split; [constructor | intros t []]. }
  split; [reflexivity|]. split; [exact Hok|].
  destruct (sync_failure_keeps_sync_enabled (remote_fails network_error)
              (write_fails network_error) (app_showing true store_A)
              network_error eq_refl Hok) as [Hpull _].
  destruct (Hpull eq_refl) as [_ [_ [_ [_ [_ [_ [_ [_ [_ Hretry]]]]]]]]].
  apply (Hretry 1). simpl. lia.
Defined.

(** A failing tick and the next one, run: the fetch fails at time 0, the
    next tick fires at 60000 and fetches once more. *)
Example failed_tick_is_retried :
  let s1 := snd (schedule_sync (remote_fails network_error) (app_showing true store_A)) in
  let s2 := mainloop_until (remote_fails network_error) (write_fails network_error)
              1 60000%Z s1 in
  trace s1 = [EvLogError "sync_from_google_sheets" network_error; EvFetch]
  /\ sync_to_google s2 = true
  /\ applications_df s2 = store_A
  /\ trace s2
     = [EvLogError "sync_from_google_sheets" network_error; EvFetch;
        EvLogError "sync_from_google_sheets" network_error; EvFetch]
  /\ map Tk.due (timers s2) = [120000%Z].
Proof. cbv zeta. repeat split; reflexivity. Qed.

(** ** Update: [save_edit] *)

Section Update.

Local Open Scope Z_scope.

Variable write_to_google_sheets : nat -> Pd.DataFrame -> option exn.
Variable save_applications_to_excel : nat -> Pd.DataFrame -> option exn.




(** [populate_treeview] of the table leaves the view within the store,
    also when it stops on an exception. *)
Lemma insert_rows_within (l : list (Z * list Pd.cell)) cols s :
  (forall r, In r l -> Pd.in_index (fst r) (applications_df s) = true) ->
  view_within_store s = true ->
  view_within_store
    (snd (for_each l (fun r => tree_insert (fst r) (row_values cols r)) s))
  = true.
Proof.
  revert s. induction l as [|r l IH]; intros s Hl Hv; simpl; [exact Hv|].
  unfold bind at 1. unfold tree_insert at 1, bind, the_tree, modify.
  destruct (applications_tree s) as [t|] eqn:Et; simpl; [|exact Hv].
  unfold Tk.insert. destruct (Tk.exists_item (fst r) t); simpl; [exact Hv|].
  apply IH.
  - simpl. intros r' Hr'. apply Hl. right. exact Hr'.
  - unfold view_within_store in *. rewrite Et in Hv. simpl.
    rewrite forallb_app, Hv. simpl. rewrite (Hl r (or_introl eq_refl)).
    reflexivity.
Qed.

Lemma populate_treeview_within s :
  view_within_store (snd (populate_treeview (applications_df s) s)) = true.
Proof.
  unfold populate_treeview, bind, emit, modify, the_tree. simpl.
  destruct (applications_tree s) as [t|] eqn:Et; simpl.
  - apply insert_rows_within.
    + simpl. intros r Hr. apply PdFacts.in_index_In. unfold Pd.index.
      apply in_map. exact Hr.
    + reflexivity.
  - unfold view_within_store. simpl. rewrite Et. reflexivity.
Qed.

(** A Pull leaves the view within the store. *)
Lemma pull_keeps_view_within_store
    (read_from_google_sheets : nat -> exn + Pd.DataFrame) s :
  view_within_store s = true ->
  view_within_store (snd (sync_from_google_sheets read_from_google_sheets s)) = true.
Proof.
  intros Hv.
  destruct (sync_to_google s) eqn:Hs;
    [|rewrite pull_disabled by exact Hs; exact Hv].
  destruct (read_from_google_sheets (calls s)) as [e|raw] eqn:Hr.
  { rewrite (pull_failed read_from_google_sheets s e Hs Hr). exact Hv. }
  destruct (Pd.empty (Pd.fillna raw)) eqn:He.
  { rewrite (pull_not_adopted read_from_google_sheets s Hs Hr) by auto. exact Hv. }
  destruct (Pd.equals (Pd.fillna raw) (applications_df s)) eqn:Hq.
  { rewrite (pull_not_adopted read_from_google_sheets s Hs Hr) by auto. exact Hv. }
  unfold sync_from_google_sheets, bind, gets, try_except,
    call_read_from_google_sheets, when, modify, emit. simpl.
  rewrite Hs. simpl. rewrite Hr. simpl. rewrite He. simpl. rewrite Hq. simpl.
  destruct (applications_tree s) as [t|] eqn:Ht; simpl.
  - match goal with
    | |- context [populate_treeview ?df ?s1] =>
        pose proof (populate_treeview_within s1) as Hw;
        change (applications_df s1) with df in Hw;
        destruct (populate_treeview df s1) as [[[]|e] s2]
    end; simpl in *; exact Hw.
  - unfold view_within_store. simpl. rewrite Ht. reflexivity.
Qed.

(** [delete_rows] leaves the view within the store. *)
Lemma delete_rows_keeps_view_within_store row_ids s :
  view_within_store s = true ->
  view_within_store
    (snd (delete_rows write_to_google_sheets save_applications_to_excel row_ids s))
  = true.
Proof.
  intros Hv. destruct row_ids as [|i ids]; [exact Hv|].
  unfold delete_rows.
  rewrite (bind_ok _ _ s (drop_loop_run _ s)).
  match goal with
  | |- view_within_store (snd (bind ?m ?k ?s1)) = _ =>
      rewrite (bind_ok m k s1 (a := tt)
                 (s' := set_applications_df
                          (Pd.reset_index (applications_df s1)) s1))
        by reflexivity
  end.
  match goal with
  | |- view_within_store (snd (bind ?m ?k ?s2)) = _ =>
      rewrite (bind_ok m k s2 (a := applications_df s2) (s' := s2))
        by reflexivity
  end.
  apply (bind_inv (fun s' => view_within_store s' = true)).
  - apply populate_treeview_within.
  - intros _ s' Hs'.
    match goal with
    | |- view_within_store (snd (?m s')) = _ =>
        assert (H : preserves view_within_store m); [|rewrite H; exact Hs']
    end.
    frame.
Qed.

Lemma index_at_set_incl x label col v df :
  In x (Pd.index df) -> In x (Pd.index (Pd.at_set label col v df)).
Proof.
  intros Hx. unfold Pd.at_set.
  set (df1 := if Pd.has_column col (Pd.columns df) then df
              else Pd.mkDataFrame (Pd.columns df ++ [col])
                     (map (fun r => (fst r, snd r ++ [Pd.NaN])) (Pd.rows df))).
  assert (H1 : In x (Pd.index df1)).
  { subst df1. destruct (Pd.has_column col (Pd.columns df)); [exact Hx|].
    unfold Pd.index in *. simpl. rewrite map_map. simpl. exact Hx. }
  destruct (Pd.position col (Pd.columns df1)); [|exact H1].
  destruct (Pd.in_index label df1); unfold Pd.index in *; simpl.
  - rewrite map_map.
    rewrite (map_ext _ fst); [exact H1|].
    intros r. destruct (fst r =? label); reflexivity.
  - rewrite map_app. apply in_or_app. left. exact H1.
Qed.

Lemma in_index_at_set x label col v df :
  Pd.in_index x df = true -> Pd.in_index x (Pd.at_set label col v df) = true.
Proof.
  rewrite !PdFacts.in_index_In. apply index_at_set_incl.
Qed.

Lemma item_set_ids iid vs tree tree' :
  Tk.item_set iid vs tree = inr tree' -> map fst tree' = map fst tree.
Proof.
  unfold Tk.item_set. destruct (Tk.exists_item iid tree); [|discriminate].
  intros E. injection E as <-. rewrite map_map. apply map_ext_in.
  intros it _. destruct (fst it =? iid) eqn:Eid; [|reflexivity].
  simpl. symmetry. apply Z.eqb_eq, Eid.
Qed.

Lemma forallb_on_ids (p : Z -> bool) (t : Tk.Tree) :
  forallb (fun it => p (fst it)) t = forallb p (map fst t).
Proof. induction t as [|it t IH]; simpl; [|rewrite IH]; reflexivity. Qed.

Lemma forallb_ids (p : Z -> bool) (t t' : Tk.Tree) :
  map fst t' = map fst t ->
  forallb (fun it => p (fst it)) t = true ->
  forallb (fun it => p (fst it)) t' = true.
Proof. intros E H. rewrite forallb_on_ids in *. rewrite E. exact H. Qed.

(** [save_edit] leaves the view within the store. *)
Lemma save_edit_keeps_view_within_store item_id col_index s :
  view_within_store s = true ->
  view_within_store
    (snd (save_edit write_to_google_sheets save_applications_to_excel
            item_id col_index s))
  = true.
Proof.
  intros Hv. unfold save_edit.
  rewrite (bind_ok _ _ s (a := edit_entry s) (s' := s)) by reflexivity.
  destruct (edit_entry s) as [new_value|]; [|exact Hv].
  unfold bind at 1. unfold the_tree at 1.
  destruct (applications_tree s) as [tree|] eqn:Et; [|exact Hv].
  unfold bind at 1.
  destruct (Tk.item item_id tree) as [e|values]; [exact Hv|]. simpl lift.
  unfold ret at 1. unfold bind at 1. unfold list_set.
  destruct (col_index <? List.length values)%nat; [|exact Hv].
  unfold ret at 1. unfold bind at 1. unfold the_tree at 1. rewrite Et.
  unfold bind at 1.
  destruct (Tk.item_set item_id
              (Pd.set_nth col_index (Tk.VCell (Pd.Str new_value)) values) tree)
    as [e|tree'] eqn:Eset; [exact Hv|]. simpl lift.
  unfold ret at 1. unfold bind at 1, modify at 1.
  assert (Hv1 : view_within_store (set_applications_tree (Some tree') s) = true).
  { unfold view_within_store in *. rewrite Et in Hv. simpl.
    apply (forallb_ids (fun i => Pd.in_index i (applications_df s)) tree tree');
      [exact (item_set_ids _ _ _ _ Eset) | exact Hv]. }
  unfold bind at 1. unfold list_get.
  destruct (nth_error tree_columns col_index) as [column_name|]; [|exact Hv1].
  unfold ret at 1. unfold bind at 1, modify at 1.
  match goal with
  | |- view_within_store (snd (?m ?s3)) = _ =>
      assert (H : preserves view_within_store m);
        [frame | rewrite H]
  end.
  unfold view_within_store in *. simpl in *.
  rewrite forallb_forall in *. intros it Hit.
  apply in_index_at_set, Hv1, Hit.
Qed.

(** What follows the appending in [save_application] keeps the view within
    the store: the file and the remote sheet do not touch it, and the view
    is repopulated from the table. *)
Lemma keeps_view_populate :
  keeps (fun s => view_within_store s = true)
    (bind (gets applications_df) populate_treeview).
Proof.
  intros s _. rewrite (bind_ok _ _ s (a := applications_df s) (s' := s))
    by reflexivity.
  apply populate_treeview_within.
Qed.

Lemma in_range_S x n :
  In x (map Z.of_nat (seq 0 n)) -> In x (map Z.of_nat (seq 0 (S n))).
Proof.
  intros H. rewrite seq_S, map_app. apply in_or_app. left. exact H.
Qed.

(** [save_application] leaves the view within the store when the ids of the
    table are 0..n-1. *)
Lemma save_application_keeps_view_within_store (today : Z -> string) s :
  view_within_store s = true ->
  contiguous (applications_df s) ->
  (Pd.columns (applications_df s) = [] -> Pd.rows (applications_df s) = []) ->
  view_within_store
    (snd (save_application write_to_google_sheets save_applications_to_excel
            today s))
  = true.
Proof.
  intros Hv Hc Hcols.
  destruct (string_dec (Py.strip (company_entry s)) "") as [Ec|Ec];
    [rewrite save_application_rejected by auto; exact Hv|].
  destruct (string_dec (Py.strip (position_entry s)) "") as [Ep|Ep];
    [rewrite save_application_rejected by auto; exact Hv|].
  unfold save_application.
  unfold bind at 1 2 3 4. unfold gets at 1 2 3 4. cbv beta iota.
  rewrite (truthy_true _ Ec), (truthy_true _ Ep). cbn [negb orb].
  rewrite (bind_ok _ _ s (a := applications_df s) (s' := s)) by reflexivity.
  rewrite (bind_ok _ _ s (a := tt)
             (s' := set_applications_df (base_frame (applications_df s)) s)).
  2:{ unfold base_frame, when. destruct (Pd.empty (applications_df s)).
      - reflexivity.
      - rewrite set_applications_df_same. reflexivity. }
  match goal with
  | |- view_within_store (snd (bind ?m ?k ?s1)) = _ =>
      rewrite (bind_ok m k s1 (a := applications_df s1) (s' := s1)) by reflexivity
  end.
  match goal with
  | |- view_within_store (snd (bind (modify ?g) ?k ?s1)) = _ =>
      rewrite (bind_ok (modify g) k s1 (a := tt) (s' := g s1)) by reflexivity
  end.
  match goal with
  | |- view_within_store (snd (?m ?s2)) = true =>
      assert (Hk : keeps (fun s' => view_within_store s' = true) m);
        [|apply Hk]
  end.
  - apply keeps_bind;
      [apply (@keeps_preserved _ _ view_within_store (fun b => b = true)); frame
      |intro].
    apply keeps_bind;
      [apply (@keeps_preserved _ _ view_within_store (fun b => b = true)); frame
      |intro].
    apply keeps_bind;
      [apply (@keeps_preserved _ _ view_within_store (fun b => b = true)); frame
      |intro].
    apply keeps_bind;
      [apply (@keeps_preserved _ _ view_within_store (fun b => b = true)); frame
      |intro].
    match goal with
    | |- keeps ?P (bind (gets applications_df) (fun df => bind (populate_treeview df) ?k)) =>
        assert (Hrest : forall u, keeps P (k u))
    end.
    { intro. apply (@keeps_preserved _ _ view_within_store (fun b => b = true)). frame. }
    intros s' Hs'.
    rewrite (bind_ok _ _ s' (a := applications_df s') (s' := s')) by reflexivity.
    apply bind_inv; [apply populate_treeview_within|].
    intros u s'' Hs''. apply (Hrest u), Hs''.
  - unfold view_within_store in *. simpl.
    destruct (applications_tree s) as [tree|]; [|reflexivity].
    rewrite forallb_forall in *. intros it Hit. specialize (Hv it Hit).
    apply PdFacts.in_index_In. apply PdFacts.in_index_In in Hv.
    rewrite PdFacts.concat_row_index, base_frame_len by exact Hcols.
    apply in_range_S. rewrite <- Hc. exact Hv.
Qed.

End Update.

(** ** Claims about Update and Load *)




(** C8.  [load_application_data] never lets an exception out.  Whatever the
    reader does with the file, the call returns normally; when the reader
    raises, the failure is logged and the table is the empty snapshot; when
    it returns a frame, that frame is the table.  With the reader of the
    specification, an absent file gives the empty snapshot with nothing
    logged, and an unreadable file gives the empty snapshot with the failure
    logged. *)
Theorem load_never_propagates
    (read_applications_from_excel : file_state -> exn + Pd.DataFrame)
    (file : file_state) (s : App) :
  let out := load_application_data read_applications_from_excel file s in
  fst out = Ok tt
  /\ match read_applications_from_excel file with
     | inl e =>
         applications_df (snd out) = Pd.DataFrame_empty
         /\ trace (snd out) = EvLogError "load_application_data" e :: trace s
     | inr df =>
         applications_df (snd out) = df /\ trace (snd out) = trace s
     end
  /\ load_application_data read_applications_from_excel_spec FileAbsent s
     = (Ok tt, set_applications_df Pd.DataFrame_empty s)
  /\ exists e,
       load_application_data read_applications_from_excel_spec FileUnreadable s
       = (Ok tt,
          set_applications_df Pd.DataFrame_empty
            (set_trace (EvLogError "load_application_data" e :: trace s) s)).
Proof.
  intros out. subst out.
  unfold load_application_data, try_except, bind, lift, modify, emit.
  destruct (read_applications_from_excel file) as [e|df]; simpl.
  - repeat split. eexists. reflexivity.
  - repeat split. eexists. reflexivity.
Qed.

(** ** Only [toggle_sync] turns synchronisation on or off

    Whatever the remote sheet and the file do, and however the call ends,
    the methods that change the table leave [sync_to_google] as it was. *)

Section Flag.

Variable read_from_google_sheets : nat -> exn + Pd.DataFrame.
Variable write_to_google_sheets : nat -> Pd.DataFrame -> option exn.
Variable save_applications_to_excel : nat -> Pd.DataFrame -> option exn.
Variable read_applications_from_excel : file_state -> exn + Pd.DataFrame.
Variable today : Z -> string.

Lemma save_application_keeps_flag :
  preserves sync_to_google
    (save_application write_to_google_sheets save_applications_to_excel today).
Proof. unfold save_application. frame. Qed.

Lemma drop_if_present_preserves A (f : App -> A) row_index :
  (forall df s, f (set_applications_df df s) = f s) ->
  preserves f (drop_if_present row_index).
Proof. intros H. unfold drop_if_present. frame. Qed.

Lemma delete_rows_keeps_flag row_ids :
  preserves sync_to_google
    (delete_rows write_to_google_sheets save_applications_to_excel row_ids).
Proof.
  unfold delete_rows. destruct row_ids; [frame|].
  apply preserves_bind;
    [apply preserves_for_each; intro; apply drop_if_present_preserves; reflexivity|].
  intro. frame.
Qed.

Lemma save_edit_keeps_flag item_id col_index :
  preserves sync_to_google
    (save_edit write_to_google_sheets save_applications_to_excel item_id col_index).
Proof. unfold save_edit. frame. Qed.

Lemma load_application_data_keeps_flag file :
  preserves sync_to_google
    (load_application_data read_applications_from_excel file).
Proof. unfold load_application_data. frame. Qed.

Lemma pull_keeps_flag :
  preserves sync_to_google (sync_from_google_sheets read_from_google_sheets).
Proof. apply pull_preserves; reflexivity. Qed.

Lemma push_keeps_flag :
  preserves sync_to_google (sync_to_google_sheets write_to_google_sheets).
Proof. apply push_preserves; reflexivity. Qed.

Lemma schedule_sync_keeps_flag :
  preserves sync_to_google (schedule_sync read_from_google_sheets).
Proof.
  intros s. rewrite schedule_sync_run.
  destruct (sync_to_google s) eqn:Hs; simpl when.
  - rewrite pull_keeps_flag. exact Hs.
  - exact Hs.
Qed.

End Flag.

(** * Further properties *)

(** ** What the tree view shows *)

Lemma for_each_app {A} (l1 l2 : list A) (body : A -> M unit) s :
  for_each (l1 ++ l2) body s
  = match for_each l1 body s with
    | (Ok _, s1) => for_each l2 body s1
    | (Raise e, s1) => (Raise e, s1)
    end.
Proof.
  revert s. induction l1 as [|x l1 IH]; intros s; simpl.
  - destruct (for_each l2 body s) as [[[]|e] s1]; reflexivity.
  - unfold bind. destruct (body x s) as [[[]|e] s1]; [apply IH | reflexivity].
Qed.

Lemma exists_item_In iid (t : Tk.Tree) :
  Tk.exists_item iid t = true <-> In iid (map fst t).
Proof.
  unfold Tk.exists_item. rewrite existsb_exists, in_map_iff. split.
  - intros [it [Hin E]]. apply Z.eqb_eq in E. eauto.
  - intros [it [E Hin]]. exists it. split; [exact Hin | apply Z.eqb_eq, E].
Qed.

(** Inserting rows whose labels are new and distinct appends their items. *)
Lemma insert_rows_run cols (l : list (Z * list Pd.cell)) (pre : Tk.Tree) s :
  applications_tree s = Some pre ->
  NoDup (map fst pre ++ map fst l) ->
  for_each l (fun r => tree_insert (fst r) (row_values cols r)) s
  = (Ok tt,
     set_applications_tree
       (Some (pre ++ map (fun r => (fst r, row_values cols r)) l)) s).
Proof.
  revert pre s. induction l as [|r l IH]; intros pre s Ht Hnd; simpl.
  - rewrite app_nil_r. unfold ret. f_equal.
    destruct s. simpl in *. rewrite Ht. reflexivity.
  - assert (Hnew : Tk.exists_item (fst r) pre = false).
    { destruct (Tk.exists_item (fst r) pre) eqn:E; [|reflexivity].
      apply exists_item_In in E. apply NoDup_remove_2 in Hnd.
      exfalso. apply Hnd. apply in_or_app. left. exact E. }
    unfold bind at 1. unfold tree_insert, bind, the_tree, Tk.insert, modify.
    rewrite Ht, Hnew. simpl.
    rewrite (IH (pre ++ [(fst r, row_values cols r)])).
    + rewrite <- app_assoc. reflexivity.
    + reflexivity.
    + rewrite map_app, <- app_assoc. simpl.
      apply NoDup_remove_1 in Hnd as Hrest.
      apply NoDup_remove_2 in Hnd as Hfresh.
      apply Permutation_NoDup with (l := fst r :: map fst pre ++ map fst l).
      * apply Permutation_middle.
      * constructor; assumption.
Qed.

(** The state [populate_treeview] leaves for a frame with distinct labels. *)
Lemma populate_treeview_run df s tree0 :
  applications_tree s = Some tree0 ->
  NoDup (Pd.index df) ->
  populate_treeview df s
  = (Ok tt,
     set_applications_tree (Some (items_of df))
       (set_trace (EvPopulate df :: trace s) s)).
Proof.
  intros Ht Hnd. unfold populate_treeview, bind, emit, modify, the_tree. simpl.
  rewrite Ht.
  rewrite (insert_rows_run (Pd.columns df) (Pd.rows df) []); simpl; auto.
Qed.

(** A frame that is part of the table leaves the view within the store. *)
Lemma populate_part_within f s :
  (forall r, In r (Pd.rows f) -> In r (Pd.rows (applications_df s))) ->
  view_within_store (snd (populate_treeview f s)) = true.
Proof.
  intros Hsub. unfold populate_treeview, bind, emit, modify, the_tree. simpl.
  destruct (applications_tree s) as [t|] eqn:Et; simpl.
  - apply insert_rows_within.
    + simpl. intros r Hr. apply PdFacts.in_index_In. unfold Pd.index.
      apply in_map, Hsub, Hr.
    + reflexivity.
  - unfold view_within_store. simpl. rewrite Et. reflexivity.
Qed.

Lemma NoDup_map_filter {A B} (f : A -> B) (p : A -> bool) l :
  NoDup (map f l) -> NoDup (map f (filter p l)).
Proof.
  induction l as [|x l IH]; simpl; intros H; [exact H|].
  inversion H as [|y l' Hnin Hnd]; subst.
  destruct (p x); simpl; [|auto].
  constructor; [|auto].
  intros Hin. apply Hnin. apply in_map_iff in Hin as [z [E Hz]].
  apply filter_In in Hz as [Hz _]. apply in_map_iff. eauto.
Qed.

(** X1.  On an existing tree view, [populate_treeview] of a frame whose index
    labels are distinct returns normally and leaves in the view exactly one
    item per row of the frame, in the order of the rows, under the row's
    label, showing the label plus one and the five cells (the empty text
    where the frame has no such column); the table itself is not touched and
    what the view held before is gone. *)
Theorem populate_treeview_shows_frame (df : Pd.DataFrame) (s : App) (tree0 : Tk.Tree) :
  applications_tree s = Some tree0 ->
  NoDup (Pd.index df) ->
  let out := populate_treeview df s in
  fst out = Ok tt
  /\ applications_tree (snd out) = Some (items_of df)
  /\ map fst (items_of df) = Pd.index df
  /\ applications_df (snd out) = applications_df s
  /\ trace (snd out) = EvPopulate df :: trace s.
Proof.
  intros Ht Hnd out. subst out.
  rewrite (populate_treeview_run df s tree0 Ht Hnd). simpl.
  repeat split. unfold items_of, Pd.index. rewrite map_map. reflexivity.
Qed.

Lemma populate_treeview_shows_frame_witness :
  let out := populate_treeview store_ACD (app_showing false store_ABCD) in
  fst out = Ok tt
  /\ applications_tree (snd out) = Some (items_of store_ACD)
  /\ map fst (items_of store_ACD) = [0%Z; 1%Z; 2%Z]
  /\ applications_df (snd out) = store_ABCD
  /\ trace (snd out) = [EvPopulate store_ACD].
Proof.
  refine (populate_treeview_shows_frame store_ACD (app_showing false store_ABCD)
            [] eq_refl _).
  repeat constructor; simpl; intuition discriminate.
Defined.

(** X2.  When a label of the frame repeats, [populate_treeview] stops at the
    first row whose label is already shown: it raises the TclError of the
    insertion, and the view is left with the items of the rows before that
    one only. *)
Theorem populate_treeview_repeated_label
    (df : Pd.DataFrame) (s : App) (tree0 : Tk.Tree)
    (before after : list (Z * list Pd.cell)) (r : Z * list Pd.cell) :
  applications_tree s = Some tree0 ->
  Pd.rows df = before ++ r :: after ->
  NoDup (map fst before) ->
  In (fst r) (map fst before) ->
  let out := populate_treeview df s in
  fst out = Raise (TclError "Item already exists")
  /\ applications_tree (snd out)
     = Some (map (fun r => (fst r, row_values (Pd.columns df) r)) before)
  /\ applications_df (snd out) = applications_df s.
Proof.
  intros Ht Hrows Hnd Hin out. subst out.
  unfold populate_treeview, bind, emit, modify, the_tree. simpl.
  rewrite Ht, Hrows, for_each_app.
  rewrite (insert_rows_run (Pd.columns df) before []); simpl; auto.
  unfold bind at 1. unfold tree_insert, bind, the_tree, Tk.insert. simpl.
  assert (Hex : Tk.exists_item (fst r)
                  (map (fun r0 => (fst r0, row_values (Pd.columns df) r0)) before)
                = true).
  { apply exists_item_In. rewrite map_map. simpl. exact Hin. }
  rewrite Hex. simpl. auto.
Qed.

Lemma populate_treeview_repeated_label_witness :
  let out := populate_treeview frame_with_repeated_label (app_showing false store_A) in
  fst out = Raise (TclError "Item already exists")
  /\ applications_tree (snd out)
     = Some [(0%Z, row_values record_columns (0%Z, sample_row "A" "a" "Submitted"))]
  /\ applications_df (snd out) = store_A.
Proof.
  refine (populate_treeview_repeated_label frame_with_repeated_label
            (app_showing false store_A) []
            [(0%Z, sample_row "A" "a" "Submitted")] []
            (0%Z, sample_row "B" "b" "Rejected") eq_refl eq_refl _ _).
  - repeat constructor. intros [].
  - left. reflexivity.
Defined.

(** ** The filtered views *)

(** The rows [filter_by_status] keeps. *)
Lemma frame_where_eq_rows col v df f :
  frame_where_eq col v df = Some f ->
  Pd.columns f = Pd.columns df
  /\ Pd.rows f
     = filter (fun r => Pd.cell_eqb (Pd.get_cell (Pd.columns df) (snd r) col)
                          (Pd.Str v))
         (Pd.rows df).
Proof.
  unfold frame_where_eq. destruct (Pd.has_column col (Pd.columns df));
    [|discriminate].
  intros E. injection E as <-. split; reflexivity.
Qed.

(** X3.  On an existing tree view and a table with distinct labels,
    [filter_by_status] shows exactly the records whose Status is the given
    text, in the order of the table and under their own ids, and leaves the
    table as it was; a record whose Status is missing is never shown.  On a
    table without a Status column it raises a KeyError and changes
    nothing. *)
Theorem filter_by_status_shows_matching (status : string) (s : App) (tree0 : Tk.Tree) :
  applications_tree s = Some tree0 ->
  NoDup (Pd.index (applications_df s)) ->
  let df := applications_df s in
  let out := filter_by_status status s in
  let shown :=
    filter (fun r => Pd.cell_eqb (Pd.get_cell (Pd.columns df) (snd r) "Status")
                       (Pd.Str status))
      (Pd.rows df) in
  (Pd.has_column "Status" (Pd.columns df) = true ->
   fst out = Ok tt
   /\ applications_df (snd out) = df
   /\ applications_tree (snd out)
      = Some (map (fun r => (fst r, row_values (Pd.columns df) r)) shown)
   /\ (forall r, In r shown <->
         In r (Pd.rows df)
         /\ Pd.get_cell (Pd.columns df) (snd r) "Status" = Pd.Str status))
  /\ (Pd.has_column "Status" (Pd.columns df) = false ->
      out = (Raise KeyError, s)).
Proof.
  intros Ht Hnd df out shown. subst out. unfold filter_by_status.
  rewrite (bind_ok _ _ s (a := applications_df s) (s' := s)) by reflexivity.
  unfold frame_where_eq. fold df. split; intros Hcol; rewrite Hcol.
  - rewrite (populate_treeview_run _ s tree0 Ht).
    + simpl. split; [reflexivity|]. split; [reflexivity|].
      split; [reflexivity|]. intros r. subst shown. rewrite filter_In.
      rewrite PdFacts.cell_eqb_eq. reflexivity.
    + unfold Pd.index. simpl. apply NoDup_map_filter. exact Hnd.
  - reflexivity.
Qed.

Lemma filter_by_status_shows_matching_witness :
  let out := filter_by_status "Interview" (app_showing false store_ABCD) in
  fst out = Ok tt
  /\ applications_df (snd out) = store_ABCD
  /\ applications_tree (snd out)
     = Some [(2%Z, row_values record_columns (2%Z, sample_row "C" "c" "Interview"))].
Proof.
  assert (Hnd : NoDup (Pd.index (applications_df (app_showing false store_ABCD)))).
  { repeat constructor; simpl; intuition discriminate. }
  destruct (filter_by_status_shows_matching "Interview"
              (app_showing false store_ABCD) [] eq_refl Hnd) as [H _].
  destruct (H eq_refl) as [H1 [H2 [H3 _]]].
  repeat split; assumption.
Defined.

(** X21.  [perform_search] never changes the table, whatever is typed and
    however pandas prints a row, and it leaves every item of the view a row
    of the table; when the text typed is white space only it does what
    [populate_treeview] of the whole table does. *)
Theorem perform_search_never_changes_table
    (row_to_string : list string -> Z * list Pd.cell -> string)
    (search_var : string) (s : App) :
  let out := perform_search row_to_string search_var s in
  applications_df (snd out) = applications_df s
  /\ view_within_store (snd out) = true
  /\ (Py.all_space search_var = true ->
      out = populate_treeview (applications_df s) s).
Proof.
  intros out. subst out. unfold perform_search.
  split; [|split].
  - destruct (negb (Py.truthy (str_lower (Py.strip search_var))));
      rewrite (bind_ok _ _ s (a := applications_df s) (s' := s)) by reflexivity;
      apply populate_treeview_preserves; reflexivity.
  - destruct (negb (Py.truthy (str_lower (Py.strip search_var))));
      rewrite (bind_ok _ _ s (a := applications_df s) (s' := s)) by reflexivity.
    + apply populate_treeview_within.
    + apply populate_part_within. simpl. intros r Hr.
      apply filter_In in Hr. apply Hr.
  - intros Hblank. rewrite (PyFacts.strip_all_space _ Hblank). simpl.
    reflexivity.
Qed.

Lemma perform_search_never_changes_table_witness :
  Py.all_space "  " = true
  /\ perform_search (fun _ _ => ""%string) "  " (app_showing false store_A)
     = populate_treeview store_A (app_showing false store_A).
Proof.
  split; [reflexivity|].
  apply (perform_search_never_changes_table (fun _ _ => ""%string) "  "
           (app_showing false store_A)).
  reflexivity.
Defined.

(** ** Writing one cell *)

Module AtFacts.

Import Pd.
Local Open Scope Z_scope.

Lemma position_lt c cols i : position c cols = Some i -> (i < List.length cols)%nat.
Proof.
  revert i. induction cols as [|c' cols IH]; simpl; intros i; [discriminate|].
  destruct (String.eqb c c').
  - intros E. injection E as <-. lia.
  - destruct (position c cols) as [j|]; simpl; [|discriminate].
    intros E. injection E as <-. specialize (IH j eq_refl). lia.
Qed.

Lemma position_inj c c' cols i :
  position c cols = Some i -> position c' cols = Some i -> c = c'.
Proof.
  revert i. induction cols as [|d cols IH]; simpl; intros i; [discriminate|].
  destruct (String.eqb c d) eqn:E1, (String.eqb c' d) eqn:E2.
  - apply String.eqb_eq in E1, E2. congruence.
  - intros H1 H2. injection H1 as <-.
    destruct (position c' cols); simpl in H2; discriminate.
  - intros H1 H2. injection H2 as <-.
    destruct (position c cols); simpl in H1; discriminate.
  - destruct (position c cols) as [j|], (position c' cols) as [k|];
      simpl; try discriminate.
    intros H1 H2. injection H1 as <-. injection H2 as ->.
    apply (IH j); reflexivity.
Qed.

Lemma nth_set_nth_same {A} i (x d : A) l :
  (i < List.length l)%nat -> nth i (set_nth i x l) d = x.
Proof.
  revert i. induction l as [|y l IH]; intros [|i] H; simpl in *; try lia.
  - reflexivity.
  - apply IH. lia.
Qed.

Lemma nth_set_nth_other {A} i j (x d : A) l :
  i <> j -> nth j (set_nth i x l) d = nth j l d.
Proof.
  revert i j. induction l as [|y l IH]; intros [|i] [|j] H; simpl;
    try reflexivity; try congruence.
  apply IH. congruence.
Qed.

Lemma find_map_keep_label (g : Z * list cell -> Z * list cell) label rs :
  (forall r, fst (g r) = fst r) ->
  find (fun r => fst r =? label) (map g rs)
  = option_map g (find (fun r => fst r =? label) rs).
Proof.
  intros Hg. induction rs as [|r rs IH]; simpl; [reflexivity|].
  rewrite Hg. destruct (fst r =? label); [reflexivity | exact IH].
Qed.

(** The frame [at_set] gives when the label and the column exist. *)
Lemma at_set_present label col v df i :
  has_column col (columns df) = true ->
  in_index label df = true ->
  position col (columns df) = Some i ->
  at_set label col v df
  = mkDataFrame (columns df)
      (map (fun r => if fst r =? label then (fst r, set_nth i v (snd r)) else r)
         (rows df)).
Proof.
  intros Hc Hl Hp. unfold at_set. rewrite Hc, Hp, Hl. reflexivity.
Qed.

(** Writing a cell of an existing row under an existing column: no row and
    no column is added, the cell reads back as written, and every other
    cell reads as before. *)
Lemma at_set_in_range label col v df :
  Forall (fun r => List.length (snd r) = List.length (columns df)) (rows df) ->
  has_column col (columns df) = true ->
  in_index label df = true ->
  let df' := at_set label col v df in
  columns df' = columns df
  /\ index df' = index df
  /\ at_get label col df' = Some v
  /\ forall label' col',
       label' <> label \/ col' <> col ->
       at_get label' col' df' = at_get label' col' df.
Proof.
  intros Hfit Hc Hl df'.
  destruct (PdFacts.has_column_position col (columns df) Hc) as [i Hp].
  subst df'. rewrite (at_set_present label col v df i Hc Hl Hp).
  set (g := fun r : Z * list cell =>
              if fst r =? label then (fst r, set_nth i v (snd r)) else r).
  assert (Hg : forall r, fst (g r) = fst r).
  { intros r. unfold g. destruct (fst r =? label); reflexivity. }
  split; [reflexivity|]. split.
  { unfold index. simpl. rewrite map_map. apply map_ext. exact Hg. }
  unfold at_get. simpl. split.
  - rewrite (find_map_keep_label g label (rows df) Hg), Hp.
    apply PdFacts.in_index_In in Hl. unfold index in Hl.
    apply in_map_iff in Hl as [r0 [E0 Hin0]].
    destruct (find (fun r => fst r =? label) (rows df)) as [r|] eqn:Ef.
    + apply find_some in Ef as [Hin Hlab]. simpl. unfold g. rewrite Hlab. simpl.
      f_equal. apply nth_set_nth_same.
      rewrite Forall_forall in Hfit. rewrite (Hfit r Hin).
      apply (position_lt col), Hp.
    + exfalso. apply (find_none _ _ Ef) in Hin0. rewrite E0, Z.eqb_refl in Hin0.
      discriminate.
  - intros label' col' Hne.
    rewrite (find_map_keep_label g label' (rows df) Hg).
    destruct (find (fun r => fst r =? label') (rows df)) as [r|] eqn:Ef;
      [|reflexivity].
    simpl. destruct (position col' (columns df)) as [j|] eqn:Hj; [|reflexivity].
    f_equal. unfold g. destruct (fst r =? label) eqn:El; [|reflexivity].
    simpl. apply nth_set_nth_other. intros <-.
    apply find_some in Ef as [_ El']. apply Z.eqb_eq in El, El'.
    destruct Hne as [Hne|Hne]; [congruence|].
    apply Hne. symmetry. apply (position_inj col col' (columns df) i Hp Hj).
Qed.

End AtFacts.

(** ** Update: what [save_edit] and [save_status] write *)

Section UpdateRuns.

Local Open Scope Z_scope.

Variable write_to_google_sheets : nat -> Pd.DataFrame -> option exn.
Variable save_applications_to_excel : nat -> Pd.DataFrame -> option exn.

Lemma item_found_exists iid t values :
  Tk.item iid t = inr values -> Tk.exists_item iid t = true.
Proof.
  unfold Tk.item, Tk.exists_item.
  destruct (find (fun it => fst it =? iid) t) as [it|] eqn:E; [|discriminate].
  intros _. apply find_some in E as [Hin Hid]. apply existsb_exists. eauto.
Qed.

(** How [save_edit] ends once the item and the column are found. *)
Lemma save_edit_written s item_id col_index v t values column :
  edit_entry s = Some v ->
  applications_tree s = Some t ->
  Tk.item item_id t = inr values ->
  (col_index < List.length values)%nat ->
  nth_error tree_columns col_index = Some column ->
  let s3 := edited item_id col_index column v values t s in
  let df' := applications_df s3 in
  save_edit write_to_google_sheets save_applications_to_excel item_id col_index s
  = match save_applications_to_excel (calls s) df' with
    | Some e =>
        (Raise e, set_calls (S (calls s)) (set_trace (EvSave df' :: trace s) s3))
    | None =>
        (Ok tt,
         set_edit_entry None
           (if sync_to_google s
            then set_calls (S (S (calls s)))
                   (set_trace (EvPush df' :: EvSave df' :: trace s) s3)
            else set_calls (S (calls s)) (set_trace (EvSave df' :: trace s) s3)))
    end.
Proof.
  intros He Ht Hitem Hcol Hname s3 df'. subst df' s3.
  unfold save_edit, bind, gets, the_tree, list_set, list_get, modify. simpl.
  rewrite He, Ht, Hitem. simpl.
  apply Nat.ltb_lt in Hcol. rewrite Hcol. simpl. rewrite Ht.
  unfold Tk.item_set. rewrite (item_found_exists _ _ _ Hitem). simpl.
  rewrite Hname. simpl.
  unfold call_save_applications_to_excel, edited, view_with_values. simpl.
  destruct (save_applications_to_excel (calls s) _) as [e|]; [reflexivity|].
  destruct (sync_to_google s) eqn:Hs; simpl; rewrite Hs; simpl; [|reflexivity].
  unfold try_except, bind, gets, call_write_to_google_sheets. simpl.
  destruct (write_to_google_sheets (S (calls s)) _); reflexivity.
Qed.

(** How [save_status] ends once the item and the column are found. *)
Lemma save_status_written s item_id col_index v t values column :
  applications_tree s = Some t ->
  Tk.item item_id t = inr values ->
  (col_index < List.length values)%nat ->
  nth_error tree_columns col_index = Some column ->
  let s3 := edited item_id col_index column v values t s in
  let df' := applications_df s3 in
  let s4 :=
    if sync_to_google s
    then set_calls (S (S (calls s)))
           (set_trace (EvPush df' :: EvSave df' :: trace s) s3)
    else set_calls (S (calls s)) (set_trace (EvSave df' :: trace s) s3) in
  save_status write_to_google_sheets save_applications_to_excel (Some v)
    item_id col_index s
  = if pie_chart_frame s
    then (Ok tt, set_trace (EvDrawPie :: trace s4) s4)
    else (Raise AttributeError, s4).
Proof.
  intros Ht Hitem Hcol Hname s3 df' s4. subst s4 df' s3.
  unfold save_status, bind, gets, the_tree, list_set, list_get, modify. simpl.
  rewrite Ht, Hitem. simpl.
  apply Nat.ltb_lt in Hcol. rewrite Hcol. simpl. rewrite Ht.
  unfold Tk.item_set. rewrite (item_found_exists _ _ _ Hitem). simpl.
  rewrite Hname. simpl.
  unfold try_except, bind, gets, call_save_applications_to_excel, edited,
    view_with_values. simpl.
  destruct (save_applications_to_excel (calls s) _) as [e|]; simpl;
    (destruct (sync_to_google s) eqn:Hs; simpl; rewrite ?Hs; simpl;
     [unfold try_except, bind, gets, call_write_to_google_sheets; simpl;
      destruct (write_to_google_sheets (S (calls s)) _); simpl|];
     destruct (pie_chart_frame s) eqn:Hp; simpl; rewrite ?Hp; reflexivity).
Qed.

End UpdateRuns.

(** X4.  [save_edit] on an item of the view whose id is a row of the table,
    under one of the five record columns, with the file written without
    error: the call returns normally and closes the edit entry; the table
    keeps its columns and its ids (no record is added), the cell of that
    record under that column reads back as the text typed, and every other
    cell of the table reads as before; the item of the view carries the new
    text; the new table is what was saved to the file, and it is pushed to
    the remote sheet exactly when synchronisation is on. *)
Theorem save_edit_in_range_writes_one_cell
    (write_to_google_sheets save_applications_to_excel : nat -> Pd.DataFrame -> option exn)
    (s : App) (item_id : Z) (col_index : nat) (v : string) (t : Tk.Tree)
    (values : list Tk.value) (column : string) :
  edit_entry s = Some v ->
  applications_tree s = Some t ->
  Tk.item item_id t = inr values ->
  col_index < List.length values ->
  nth_error tree_columns col_index = Some column ->
  rows_fit (applications_df s) ->
  Pd.has_column column (Pd.columns (applications_df s)) = true ->
  Pd.in_index item_id (applications_df s) = true ->
  save_applications_to_excel (calls s)
    (Pd.at_set item_id column (Pd.Str v) (applications_df s)) = None ->
  let df := applications_df s in
  let out := save_edit write_to_google_sheets save_applications_to_excel
               item_id col_index s in
  let df' := applications_df (snd out) in
  fst out = Ok tt
  /\ edit_entry (snd out) = None
  /\ Pd.columns df' = Pd.columns df
  /\ Pd.index df' = Pd.index df
  /\ Pd.at_get item_id column df' = Some (Pd.Str v)
  /\ (forall label' col',
        label' <> item_id \/ col' <> column ->
        Pd.at_get label' col' df' = Pd.at_get label' col' df)
  /\ applications_tree (snd out)
     = Some (view_with_values item_id
               (Pd.set_nth col_index (Tk.VCell (Pd.Str v)) values) t)
  /\ In (EvSave df') (trace (snd out))
  /\ count_events is_push (trace (snd out))
     = (if sync_to_google s then 1 else 0) + count_events is_push (trace s).
Proof.
  intros He Ht Hitem Hcol Hname Hfit Hc Hin Hsave df out df'.
  subst df' out.
  rewrite (save_edit_written write_to_google_sheets save_applications_to_excel
             s item_id col_index v t values column He Ht Hitem Hcol Hname).
  cbv zeta.
  change (applications_df (edited item_id col_index column v values t s))
    with (Pd.at_set item_id column (Pd.Str v) (applications_df s)).
  rewrite Hsave.
  destruct (AtFacts.at_set_in_range item_id column (Pd.Str v) df Hfit Hc Hin)
    as [H1 [H2 [H3 H4]]].
  destruct (sync_to_google s);
    (split; [reflexivity|]; split; [reflexivity|]; split; [exact H1|];
     split; [exact H2|]; split; [exact H3|]; split; [exact H4|];
     split; [reflexivity|]; split; [|reflexivity]).
  - right. left. reflexivity.
  - left. reflexivity.
Qed.

Lemma save_edit_in_range_writes_one_cell_witness :
  let s := app_editing_sync true "Zeta" store_ABCD in
  let out := save_edit write_succeeds write_succeeds 2 1 s in
  rows_fit (applications_df s)
  /\ Pd.in_index 2 (applications_df s) = true
  /\ fst out = Ok tt
  /\ Pd.at_get 2 "Company" (applications_df (snd out)) = Some (Pd.Str "Zeta")
  /\ Pd.index (applications_df (snd out)) = [0%Z; 1%Z; 2%Z; 3%Z].
Proof.
  assert (Hfit : rows_fit (applications_df (app_editing_sync true "Zeta" store_ABCD))).
  { repeat constructor. }
  split; [exact Hfit|]. split; [reflexivity|].
  assert (Hlt : 1 < List.length
                      (row_values record_columns (2%Z, sample_row "C" "c" "Interview")))
    by (simpl; lia).
  destruct (save_edit_in_range_writes_one_cell write_succeeds write_succeeds
              (app_editing_sync true "Zeta" store_ABCD) 2 1 "Zeta"
              (items_of store_ABCD)
              (row_values record_columns (2%Z, sample_row "C" "c" "Interview"))
              "Company" eq_refl eq_refl eq_refl Hlt
              eq_refl Hfit eq_refl eq_refl eq_refl)
    as [H1 [_ [_ [H4 [H5 _]]]]].
  repeat split; assumption.
Defined.

(** X5.  When the file cannot be written, [save_edit] lets the exception of
    [save_applications_to_excel] out: the table and the view already hold
    the new text, nothing is pushed to the remote sheet although
    synchronisation may be on, and the edit entry stays open. *)
Theorem save_edit_file_failure_propagates
    (write_to_google_sheets save_applications_to_excel : nat -> Pd.DataFrame -> option exn)
    (s : App) (item_id : Z) (col_index : nat) (v : string) (t : Tk.Tree)
    (values : list Tk.value) (column : string) (e : exn) :
  edit_entry s = Some v ->
  applications_tree s = Some t ->
  Tk.item item_id t = inr values ->
  col_index < List.length values ->
  nth_error tree_columns col_index = Some column ->
  save_applications_to_excel (calls s)
    (Pd.at_set item_id column (Pd.Str v) (applications_df s)) = Some e ->
  let out := save_edit write_to_google_sheets save_applications_to_excel
               item_id col_index s in
  fst out = Raise e
  /\ applications_df (snd out)
     = Pd.at_set item_id column (Pd.Str v) (applications_df s)
  /\ applications_tree (snd out)
     = Some (view_with_values item_id
               (Pd.set_nth col_index (Tk.VCell (Pd.Str v)) values) t)
  /\ edit_entry (snd out) = Some v
  /\ count_events is_push (trace (snd out)) = count_events is_push (trace s).
Proof.
  intros He Ht Hitem Hcol Hname Hsave out. subst out.
  rewrite (save_edit_written write_to_google_sheets save_applications_to_excel
             s item_id col_index v t values column He Ht Hitem Hcol Hname).
  cbv zeta.
  change (applications_df (edited item_id col_index column v values t s))
    with (Pd.at_set item_id column (Pd.Str v) (applications_df s)).
  rewrite Hsave.
  split; [reflexivity|]. split; [reflexivity|]. split; [reflexivity|].
  split; [exact He | reflexivity].
Qed.

Lemma save_edit_file_failure_propagates_witness :
  let s := app_editing_sync true "Zeta" store_ABCD in
  let out := save_edit write_succeeds (write_fails network_error) 2 1 s in
  fst out = Raise network_error
  /\ Pd.at_get 2 "Company" (applications_df (snd out)) = Some (Pd.Str "Zeta")
  /\ edit_entry (snd out) = Some "Zeta"%string
  /\ count_events is_push (trace (snd out)) = 0.
Proof.
  assert (Hlt : 1 < List.length
                      (row_values record_columns (2%Z, sample_row "C" "c" "Interview")))
    by (simpl; lia).
  destruct (save_edit_file_failure_propagates write_succeeds
              (write_fails network_error)
              (app_editing_sync true "Zeta" store_ABCD) 2 1 "Zeta"
              (items_of store_ABCD)
              (row_values record_columns (2%Z, sample_row "C" "c" "Interview"))
              "Company" network_error eq_refl eq_refl eq_refl Hlt eq_refl eq_refl)
    as [H1 [H2 [_ [H4 H5]]]].
  split; [exact H1|]. split; [rewrite H2; reflexivity|].
  split; [exact H4 | exact H5].
Defined.

(** X6.  [save_status], once the item and the column are found and with the
    pie chart frame in place, returns normally whatever the file and the
    remote sheet do: a failure of [save_applications_to_excel] is caught
    here, the new table is still pushed exactly when synchronisation is on,
    and the chart is redrawn; the table is the old one with the selected
    status written at that id and column.  Without a dropdown to read, the
    call raises an AttributeError and changes nothing. *)
Theorem save_status_survives_file_failure
    (write_to_google_sheets save_applications_to_excel : nat -> Pd.DataFrame -> option exn)
    (s : App) (item_id : Z) (col_index : nat) (v : string) (t : Tk.Tree)
    (values : list Tk.value) (column : string) :
  applications_tree s = Some t ->
  Tk.item item_id t = inr values ->
  col_index < List.length values ->
  nth_error tree_columns col_index = Some column ->
  pie_chart_frame s = true ->
  let out := save_status write_to_google_sheets save_applications_to_excel
               (Some v) item_id col_index s in
  let df' := Pd.at_set item_id column (Pd.Str v) (applications_df s) in
  fst out = Ok tt
  /\ applications_df (snd out) = df'
  /\ trace (snd out)
     = EvDrawPie
       :: (if sync_to_google s then [EvPush df'] else []) ++ EvSave df' :: trace s
  /\ save_status write_to_google_sheets save_applications_to_excel
       None item_id col_index s
     = (Raise AttributeError, s).
Proof.
  intros Ht Hitem Hcol Hname Hpie out df'. subst out df'.
  rewrite (save_status_written write_to_google_sheets save_applications_to_excel
             s item_id col_index v t values column Ht Hitem Hcol Hname).
  cbv zeta. rewrite Hpie.
  change (applications_df (edited item_id col_index column v values t s))
    with (Pd.at_set item_id column (Pd.Str v) (applications_df s)).
  destruct (sync_to_google s); repeat split; reflexivity.
Qed.

Lemma save_status_survives_file_failure_witness :
  let s := app_editing_sync true "" store_ABCD in
  let out := save_status (write_fails network_error) (write_fails network_error)
               (Some "Offer"%string) 2 5 s in
  pie_chart_frame s = true
  /\ fst out = Ok tt
  /\ Pd.at_get 2 "Status" (applications_df (snd out)) = Some (Pd.Str "Offer")
  /\ count_events is_push (trace (snd out)) = 1.
Proof.
  assert (Hlt : 5 < List.length
                      (row_values record_columns (2%Z, sample_row "C" "c" "Interview")))
    by (simpl; lia).
  destruct (save_status_survives_file_failure (write_fails network_error)
              (write_fails network_error)
              (app_editing_sync true "" store_ABCD) 2 5 "Offer"
              (items_of store_ABCD)
              (row_values record_columns (2%Z, sample_row "C" "c" "Interview"))
              "Status" eq_refl eq_refl Hlt eq_refl eq_refl)
    as [H1 [H2 [H3 _]]].
  split; [reflexivity|]. split; [exact H1|].
  split; [rewrite H2; reflexivity | rewrite H3; reflexivity].
Defined.

(** ** Delete: how [delete_rows] ends *)

Section DeleteRuns.

Local Open Scope Z_scope.

Variable write_to_google_sheets : nat -> Pd.DataFrame -> option exn.
Variable save_applications_to_excel : nat -> Pd.DataFrame -> option exn.

Lemma reset_index_NoDup df : NoDup (Pd.index (Pd.reset_index df)).
Proof. rewrite PdFacts.reset_index_index. apply NoDup_range. Qed.

(** How [delete_rows] ends on an existing view. *)
Lemma delete_rows_run ids s tree0 :
  ids <> [] ->
  applications_tree s = Some tree0 ->
  let df' := Pd.reset_index (drop_all ids (applications_df s)) in
  let s2 := pushed_if_sync df' (deleted ids s) in
  delete_rows write_to_google_sheets save_applications_to_excel ids s
  = match save_applications_to_excel (calls s2) df' with
    | Some e => (Raise e, saved df' s2)
    | None =>
        if pie_chart_frame s
        then (Ok tt, set_trace (EvDrawPie :: EvSave df' :: trace s2) (saved df' s2))
        else (Raise AttributeError, saved df' s2)
    end.
Proof.
  intros Hne Ht df' s2. subst s2 df'.
  destruct ids as [|i ids]; [congruence|].
  unfold delete_rows.
  rewrite (bind_ok _ _ s (drop_loop_run _ s)).
  rewrite drop_all_sorted_reverse.
  set (df1 := drop_all (i :: ids) (applications_df s)).
  unfold bind at 1. unfold modify at 1. cbv iota beta.
  unfold bind at 1. unfold gets at 1. cbv iota beta.
  unfold bind at 1.
  rewrite (populate_treeview_run _ _ tree0); [|exact Ht|].
  2:{ simpl. apply reset_index_NoDup. }
  simpl.
  unfold pushed_if_sync, deleted, saved. fold df1.
  destruct s as [sync gv task df tree ee ce pe ue pie line clk tms nid cl tr].
  simpl in *.
  unfold bind, gets, when, try_except, call_write_to_google_sheets,
    call_save_applications_to_excel, draw_status_pie_chart, emit, raise, ret.
  simpl.
  destruct sync; simpl.
  - destruct (write_to_google_sheets cl (Pd.reset_index df1)); simpl;
      destruct (save_applications_to_excel (S cl) (Pd.reset_index df1)); simpl;
      try reflexivity; destruct pie; reflexivity.
  - destruct (save_applications_to_excel cl (Pd.reset_index df1)); simpl;
      try reflexivity; destruct pie; reflexivity.
Qed.

Lemma mem_ext ids ids' (x : Z) :
  (forall i, In i ids <-> In i ids') -> mem x ids = mem x ids'.
Proof.
  intros H. destruct (mem x ids) eqn:E1, (mem x ids') eqn:E2; try reflexivity.
  - apply mem_In, H, mem_In in E1. congruence.
  - apply mem_In, H, mem_In in E2. congruence.
Qed.

Lemma mem_app x l1 l2 : mem x (l1 ++ l2) = mem x l1 || mem x l2.
Proof. unfold mem. apply existsb_app. Qed.

Lemma drop_all_absent ids ids' df :
  (forall i, In i ids' -> ~ In i (Pd.index df)) ->
  drop_all (ids ++ ids') df = drop_all ids df.
Proof.
  intros Habs. unfold drop_all. f_equal. apply filter_ext_in. intros r Hr.
  rewrite mem_app.
  destruct (mem (fst r) ids') eqn:E; [|rewrite orb_false_r; reflexivity].
  apply mem_In in E. exfalso. apply (Habs _ E).
  unfold Pd.index. apply in_map. exact Hr.
Qed.

End DeleteRuns.

(** X7.  [delete_rows] with a non-empty selection on an existing view, when
    the file can be written and the pie chart frame is in place, returns
    normally whatever the remote sheet answers, and does its work in this
    order: the view is filled from the renumbered table, the table is pushed
    to the remote sheet exactly when synchronisation is on, the file is
    saved, the pie chart is redrawn.  The view ends with one item per
    remaining record. *)
Theorem delete_rows_effects_in_order
    (write_to_google_sheets save_applications_to_excel : nat -> Pd.DataFrame -> option exn)
    (s : App) (row_ids : list Z) (tree0 : Tk.Tree) :
  row_ids <> [] ->
  applications_tree s = Some tree0 ->
  pie_chart_frame s = true ->
  let df' := Pd.reset_index (drop_all row_ids (applications_df s)) in
  save_applications_to_excel
    (if sync_to_google s then S (calls s) else calls s) df' = None ->
  let out := delete_rows write_to_google_sheets save_applications_to_excel
               row_ids s in
  fst out = Ok tt
  /\ applications_tree (snd out) = Some (items_of df')
  /\ trace (snd out)
     = EvDrawPie :: EvSave df'
       :: (if sync_to_google s then [EvPush df'] else [])
          ++ EvPopulate df' :: trace s.
Proof.
  intros Hne Ht Hpie df' Hsave out. subst out.
  rewrite (delete_rows_run write_to_google_sheets save_applications_to_excel
             row_ids s tree0 Hne Ht).
  cbv zeta. fold df'.
  assert (Hcalls : calls (pushed_if_sync df' (deleted row_ids s))
                   = if sync_to_google s then S (calls s) else calls s).
  { unfold pushed_if_sync, deleted. simpl. destruct (sync_to_google s); reflexivity. }
  rewrite Hcalls, Hsave, Hpie.
  unfold pushed_if_sync, deleted, saved. fold df'. simpl.
  destruct (sync_to_google s); simpl; repeat split; reflexivity.
Qed.

Lemma delete_rows_effects_in_order_witness :
  let s := snd (populate_treeview store_ABCD (app_showing true store_ABCD)) in
  let out := delete_rows (write_fails network_error) write_succeeds [1%Z] s in
  fst out = Ok tt
  /\ applications_tree (snd out) = Some (items_of store_ACD)
  /\ trace (snd out)
     = [EvDrawPie; EvSave store_ACD; EvPush store_ACD; EvPopulate store_ACD;
        EvPopulate store_ABCD].
Proof.
  assert (Hne : [1%Z] <> []) by discriminate.
  exact (delete_rows_effects_in_order (write_fails network_error) write_succeeds
           (snd (populate_treeview store_ABCD (app_showing true store_ABCD)))
           [1%Z] (items_of store_ABCD) Hne eq_refl eq_refl eq_refl).
Defined.

(** X8.  When the file cannot be written, [delete_rows] lets the exception of
    [save_applications_to_excel] out, and by then the deletion is done
    everywhere else: the table and the view no longer hold the records, and
    with synchronisation on the table has already been pushed to the remote
    sheet.  The pie chart is not redrawn. *)
Theorem delete_rows_file_failure_after_push
    (write_to_google_sheets save_applications_to_excel : nat -> Pd.DataFrame -> option exn)
    (s : App) (row_ids : list Z) (tree0 : Tk.Tree) (e : exn) :
  row_ids <> [] ->
  applications_tree s = Some tree0 ->
  let df' := Pd.reset_index (drop_all row_ids (applications_df s)) in
  save_applications_to_excel
    (if sync_to_google s then S (calls s) else calls s) df' = Some e ->
  let out := delete_rows write_to_google_sheets save_applications_to_excel
               row_ids s in
  fst out = Raise e
  /\ applications_df (snd out) = df'
  /\ applications_tree (snd out) = Some (items_of df')
  /\ trace (snd out)
     = EvSave df'
       :: (if sync_to_google s then [EvPush df'] else [])
          ++ EvPopulate df' :: trace s.
Proof.
  intros Hne Ht df' Hsave out. subst out.
  rewrite (delete_rows_run write_to_google_sheets save_applications_to_excel
             row_ids s tree0 Hne Ht).
  cbv zeta. fold df'.
  assert (Hcalls : calls (pushed_if_sync df' (deleted row_ids s))
                   = if sync_to_google s then S (calls s) else calls s).
  { unfold pushed_if_sync, deleted. simpl. destruct (sync_to_google s); reflexivity. }
  rewrite Hcalls, Hsave.
  unfold pushed_if_sync, deleted, saved. fold df'. simpl.
  destruct (sync_to_google s); simpl; repeat split; reflexivity.
Qed.

Lemma delete_rows_file_failure_after_push_witness :
  let s := snd (populate_treeview store_ABCD (app_showing true store_ABCD)) in
  let out := delete_rows write_succeeds (write_fails network_error) [1%Z] s in
  fst out = Raise network_error
  /\ applications_df (snd out) = store_ACD
  /\ applications_tree (snd out) = Some (items_of store_ACD)
  /\ trace (snd out)
     = [EvSave store_ACD; EvPush store_ACD; EvPopulate store_ACD;
        EvPopulate store_ABCD].
Proof.
  assert (Hne : [1%Z] <> []) by discriminate.
  exact (delete_rows_file_failure_after_push write_succeeds
           (write_fails network_error)
           (snd (populate_treeview store_ABCD (app_showing true store_ABCD)))
           [1%Z] (items_of store_ABCD) network_error Hne eq_refl eq_refl).
Defined.

(** X9.  [delete_rows] with a non-empty selection, on any table and however
    the call ends: the ids of the table left are 0, 1, ... in order; the
    table left depends on which ids are selected only, not on their order
    or on repetitions; and selected ids that label no row are passed over. *)
Theorem delete_rows_any_selection
    (write_to_google_sheets save_applications_to_excel : nat -> Pd.DataFrame -> option exn)
    (s : App) (row_ids : list Z) :
  row_ids <> [] ->
  let table_after ids :=
    applications_df
      (snd (delete_rows write_to_google_sheets save_applications_to_excel ids s)) in
  contiguous (table_after row_ids)
  /\ (forall ids', (forall i, In i row_ids <-> In i ids') ->
                   table_after ids' = table_after row_ids)
  /\ (forall ids', (forall i, In i ids' -> ~ In i (Pd.index (applications_df s))) ->
                   table_after (row_ids ++ ids')%list = table_after row_ids).
Proof.
  intros Hne table_after. subst table_after. cbv beta.
  rewrite (delete_rows_table write_to_google_sheets save_applications_to_excel
             row_ids s Hne).
  split; [|split].
  - unfold contiguous. rewrite PdFacts.reset_index_index.
    unfold Pd.len, Pd.reset_index. cbn [Pd.rows].
    rewrite PdFacts.renumber_from_length. reflexivity.
  - intros ids' Hsame.
    assert (Hne' : ids' <> []).
    { destruct row_ids as [|i l]; [congruence|].
      intros ->. apply (Hsame i). left. reflexivity. }
    rewrite (delete_rows_table write_to_google_sheets save_applications_to_excel
               ids' s Hne').
    f_equal. unfold drop_all. f_equal. apply filter_ext. intros r.
    rewrite (mem_ext row_ids ids' (fst r) Hsame). reflexivity.
  - intros ids' Habs.
    assert (Hne' : (row_ids ++ ids')%list <> []).
    { destruct row_ids; [congruence | discriminate]. }
    rewrite (delete_rows_table write_to_google_sheets save_applications_to_excel
               _ s Hne').
    rewrite (drop_all_absent row_ids ids' _ Habs). reflexivity.
Qed.

Lemma delete_rows_any_selection_witness :
  let table_after ids :=
    applications_df
      (snd (delete_rows write_succeeds write_succeeds ids
              (app_showing false store_ABCD))) in
  contiguous (table_after [3%Z; 1%Z])
  /\ table_after [1%Z; 3%Z; 1%Z] = table_after [3%Z; 1%Z]
  /\ table_after [3%Z; 1%Z; 7%Z] = table_after [3%Z; 1%Z].
Proof.
  assert (Hne : [3%Z; 1%Z] <> []) by discriminate.
  destruct (delete_rows_any_selection write_succeeds write_succeeds
              (app_showing false store_ABCD) [3%Z; 1%Z] Hne) as [H1 [H2 H3]].
  split; [exact H1|]. split.
  - apply H2. intros i. simpl. tauto.
  - apply (H3 [7%Z]). intros i [<-|[]]. simpl. lia.
Defined.

(** ** Add: how [save_application] ends *)

Section AddRuns.

Local Open Scope string_scope.

Variable write_to_google_sheets : nat -> Pd.DataFrame -> option exn.
Variable save_applications_to_excel : nat -> Pd.DataFrame -> option exn.
Variable today : Z -> string.

Lemma table_with_new_record_NoDup s :
  NoDup (Pd.index (table_with_new_record today s)).
Proof.
  unfold table_with_new_record. rewrite PdFacts.concat_row_index.
  apply NoDup_range.
Qed.

(** How [save_application] ends on an existing view once the input passes
    the check. *)
Lemma save_application_run s tree0 :
  Py.strip (company_entry s) <> "" ->
  Py.strip (position_entry s) <> "" ->
  applications_tree s = Some tree0 ->
  let df' := table_with_new_record today s in
  let s1 := saved df' (set_applications_df df' s) in
  save_application write_to_google_sheets save_applications_to_excel today s
  = match save_applications_to_excel (calls s) df' with
    | Some e => (Raise e, s1)
    | None =>
        (Ok tt,
         shown_and_cleared df'
           (if sync_to_google s
            then match write_to_google_sheets (S (calls s)) df' with
                 | Some _ =>
                     set_trace (sync_failed_error :: EvPush df' :: trace s1)
                       (set_calls (S (S (calls s))) s1)
                 | None =>
                     set_trace (EvPush df' :: trace s1)
                       (set_calls (S (S (calls s))) s1)
                 end
            else s1))
    end.
Proof.
  intros Hc Hp Ht df' s1. subst s1.
  unfold save_application.
  unfold bind at 1 2 3 4. unfold gets at 1 2 3 4. cbv beta iota.
  rewrite (truthy_true _ Hc), (truthy_true _ Hp). cbn [negb orb].
  rewrite (bind_ok _ _ s (a := applications_df s) (s' := s)) by reflexivity.
  rewrite (bind_ok _ _ s (a := tt)
             (s' := set_applications_df (base_frame (applications_df s)) s)).
  2:{ unfold base_frame, when. destruct (Pd.empty (applications_df s)).
      - reflexivity.
      - rewrite set_applications_df_same. reflexivity. }
  match goal with
  | |- bind ?m ?k ?s1 = _ =>
      rewrite (bind_ok m k s1 (a := applications_df s1) (s' := s1)) by reflexivity
  end.
  match goal with
  | |- bind (modify ?g) ?k ?s1 = _ =>
      rewrite (bind_ok (modify g) k s1 (a := tt) (s' := g s1)) by reflexivity
  end.
  change (Pd.concat _ _) with df'.
  assert (Hnd : NoDup (Pd.index df')) by apply table_with_new_record_NoDup.
  clearbody df'.
  unfold saved, shown_and_cleared, sync_failed_error.
  clear Hc Hp.
  pose proof populate_treeview_run as Hpop.
  revert Hpop. generalize populate_treeview. intros pop Hpop.
  destruct s as [sync gv task df tree ee ce pe ue pie line clk tms nid cl tr].
  simpl in Ht. subst tree.
  unfold bind, gets, when, try_except, call_save_applications_to_excel,
    call_write_to_google_sheets, emit, clear_input_fields, modify, ret,
    draw_status_pie_chart, draw_submissions_line_graph.
  simpl.
  destruct (save_applications_to_excel cl df') as [e|]; [reflexivity|].
  destruct sync; simpl.
  - destruct (write_to_google_sheets (S cl) df') as [e|]; simpl.
    + destruct (is_FileNotFoundError e); simpl;
        rewrite (Hpop _ _ tree0) by (try reflexivity; exact Hnd); simpl;
        destruct pie, line; reflexivity.
    + rewrite (Hpop _ _ tree0) by (try reflexivity; exact Hnd); simpl;
        destruct pie, line; reflexivity.
  - rewrite (Hpop _ _ tree0) by (try reflexivity; exact Hnd); simpl;
      destruct pie, line; reflexivity.
Qed.

(** How [save_application] ends when the file cannot be written. *)
Lemma save_application_save_failed s e :
  Py.strip (company_entry s) <> "" ->
  Py.strip (position_entry s) <> "" ->
  let df' := table_with_new_record today s in
  save_applications_to_excel (calls s) df' = Some e ->
  save_application write_to_google_sheets save_applications_to_excel today s
  = (Raise e, saved df' (set_applications_df df' s)).
Proof.
  intros Hc Hp df' Hsave.
  unfold save_application.
  unfold bind at 1 2 3 4. unfold gets at 1 2 3 4. cbv beta iota.
  rewrite (truthy_true _ Hc), (truthy_true _ Hp). cbn [negb orb].
  rewrite (bind_ok _ _ s (a := applications_df s) (s' := s)) by reflexivity.
  rewrite (bind_ok _ _ s (a := tt)
             (s' := set_applications_df (base_frame (applications_df s)) s)).
  2:{ unfold base_frame, when. destruct (Pd.empty (applications_df s)).
      - reflexivity.
      - rewrite set_applications_df_same. reflexivity. }
  match goal with
  | |- bind ?m ?k ?s1 = _ =>
      rewrite (bind_ok m k s1 (a := applications_df s1) (s' := s1)) by reflexivity
  end.
  match goal with
  | |- bind (modify ?g) ?k ?s1 = _ =>
      rewrite (bind_ok (modify g) k s1 (a := tt) (s' := g s1)) by reflexivity
  end.
  change (Pd.concat _ _) with df'.
  clearbody df'. clear Hc Hp. unfold saved.
  destruct s as [sync gv task df tree ee ce pe ue pie line clk tms nid cl tr].
  simpl in Hsave.
  unfold bind, gets, call_save_applications_to_excel. simpl.
  rewrite Hsave. reflexivity.
Qed.

End AddRuns.

(** X10.  When the file cannot be written, [save_application] lets the
    exception of [save_applications_to_excel] out and stops there: the new
    record is already in the table, but the view is not refilled, nothing is
    pushed to the remote sheet even with synchronisation on, and the input
    fields keep what was typed. *)
Theorem save_application_file_failure_stops_add
    (write_to_google_sheets save_applications_to_excel : nat -> Pd.DataFrame -> option exn)
    (today : Z -> string) (s : App) (e : exn) :
  Py.strip (company_entry s) <> ""%string ->
  Py.strip (position_entry s) <> ""%string ->
  save_applications_to_excel (calls s) (table_with_new_record today s) = Some e ->
  let out := save_application write_to_google_sheets save_applications_to_excel
               today s in
  fst out = Raise e
  /\ applications_df (snd out) = table_with_new_record today s
  /\ applications_tree (snd out) = applications_tree s
  /\ trace (snd out) = EvSave (table_with_new_record today s) :: trace s
  /\ (company_entry (snd out), position_entry (snd out), url_entry (snd out))
     = (company_entry s, position_entry s, url_entry s).
Proof.
  intros Hc Hp Hsave out. subst out.
  rewrite (save_application_save_failed write_to_google_sheets
             save_applications_to_excel today s e Hc Hp Hsave).
  destruct s. repeat split; reflexivity.
Qed.

Lemma save_application_file_failure_stops_add_witness :
  let s := set_input_fields " Acme " "Engineer" ""
             (app_showing true store_A) in
  let out := save_application write_succeeds (write_fails network_error)
               fixed_date s in
  fst out = Raise network_error
  /\ Pd.len (applications_df (snd out)) = 2
  /\ applications_tree (snd out) = Some []
  /\ count_events is_push (trace (snd out)) = 0
  /\ company_entry (snd out) = " Acme "%string.
Proof.
  assert (Hc : Py.strip " Acme " <> ""%string) by discriminate.
  assert (Hp : Py.strip "Engineer" <> ""%string) by discriminate.
  destruct (save_application_file_failure_stops_add write_succeeds
              (write_fails network_error) fixed_date
              (set_input_fields " Acme " "Engineer" ""
                 (app_showing true store_A))
              network_error Hc Hp eq_refl) as [H1 [H2 [H3 [H4 H5]]]].
  split; [exact H1|]. split; [rewrite H2; reflexivity|].
  split; [exact H3|]. split; [rewrite H4; reflexivity|].
  exact (f_equal (fun p => fst (fst p)) H5).
Defined.

(** X11.  Once the file is written, [save_application] completes the Add
    whatever the remote sheet answers: with synchronisation on the table is
    pushed once, and a failure of the push only shows an error box; then
    the view is refilled with one item per record of the new table, the
    charts that exist are redrawn, and the three input fields are cleared.
    With synchronisation off the remote sheet is not called. *)
Theorem save_application_completes_after_save
    (write_to_google_sheets save_applications_to_excel : nat -> Pd.DataFrame -> option exn)
    (today : Z -> string) (s : App) (tree0 : Tk.Tree) :
  Py.strip (company_entry s) <> ""%string ->
  Py.strip (position_entry s) <> ""%string ->
  applications_tree s = Some tree0 ->
  let df' := table_with_new_record today s in
  save_applications_to_excel (calls s) df' = None ->
  let out := save_application write_to_google_sheets save_applications_to_excel
               today s in
  fst out = Ok tt
  /\ applications_tree (snd out) = Some (items_of df')
  /\ (company_entry (snd out), position_entry (snd out), url_entry (snd out))
     = (""%string, ""%string, ""%string)
  /\ trace (snd out)
     = (if line_graph_frame s then [EvDrawLine] else [])
       ++ (if pie_chart_frame s then [EvDrawPie] else [])
       ++ EvPopulate df'
       :: (if sync_to_google s
           then match write_to_google_sheets (S (calls s)) df' with
                | Some _ => [sync_failed_error; EvPush df']
                | None => [EvPush df']
                end
           else [])
       ++ EvSave df' :: trace s.
Proof.
  intros Hc Hp Ht df' Hsave out. subst out.
  rewrite (save_application_run write_to_google_sheets
             save_applications_to_excel today s tree0 Hc Hp Ht).
  cbv zeta. fold df'. rewrite Hsave. clearbody df'.
  unfold shown_and_cleared, saved.
  destruct s as [sync gv task df tree ee ce pe ue pie line clk tms nid cl tr].
  simpl.
  destruct sync; [destruct (write_to_google_sheets (S cl) df')|];
    repeat split; reflexivity.
Qed.

Lemma save_application_completes_after_save_witness :
  let s := set_input_fields " Acme " "Engineer" ""
             (app_showing true store_A) in
  let out := save_application (write_fails network_error) write_succeeds
               fixed_date s in
  let df' := table_with_new_record fixed_date s in
  fst out = Ok tt
  /\ applications_tree (snd out) = Some (items_of df')
  /\ company_entry (snd out) = ""%string
  /\ trace (snd out)
     = [EvDrawLine; EvDrawPie; EvPopulate df'; sync_failed_error; EvPush df';
        EvSave df'].
Proof.
  assert (Hc : Py.strip " Acme " <> ""%string) by discriminate.
  assert (Hp : Py.strip "Engineer" <> ""%string) by discriminate.
  destruct (save_application_completes_after_save (write_fails network_error)
              write_succeeds fixed_date
              (set_input_fields " Acme " "Engineer" ""
                 (app_showing true store_A))
              [] Hc Hp eq_refl eq_refl) as [H1 [H2 [H3 H4]]].
  split; [exact H1|]. split; [exact H2|].
  split; [exact (f_equal (fun p => fst (fst p)) H3) | exact H4].
Defined.

(** ** Synchronisation: what a Pull and a Push leave in the trace, and the
       timers *)

Section SyncRuns.

Local Open Scope Z_scope.

Variable read_from_google_sheets : nat -> exn + Pd.DataFrame.
Variable write_to_google_sheets : nat -> Pd.DataFrame -> option exn.

(** A Pull adds to the trace nothing but its fetch, the replacement of the
    table, the filling of the view and a logged error. *)
Lemma pull_counts_only_own (p : event -> bool) s :
  p EvFetch = false ->
  (forall df, p (EvReplace df) = false) ->
  (forall df, p (EvPopulate df) = false) ->
  (forall op e, p (EvLogError op e) = false) ->
  count_events p (trace (snd (sync_from_google_sheets read_from_google_sheets s)))
  = count_events p (trace s).
Proof.
  intros Hf Hr Hp He.
  destruct (sync_to_google s) eqn:Hs.
  2:{ rewrite pull_disabled by exact Hs. reflexivity. }
  destruct (read_from_google_sheets (calls s)) as [e|raw] eqn:Hread.
  { rewrite (pull_failed read_from_google_sheets s e Hs Hread).
    unfold count_events. simpl. rewrite He, Hf. reflexivity. }
  assert (Hcase : (Pd.empty (Pd.fillna raw) = true
                   \/ Pd.equals (Pd.fillna raw) (applications_df s) = true)
                  \/ (Pd.empty (Pd.fillna raw) = false
                      /\ Pd.equals (Pd.fillna raw) (applications_df s) = false)).
  { destruct (Pd.empty (Pd.fillna raw)), (Pd.equals (Pd.fillna raw) (applications_df s));
      auto. }
  destruct Hcase as [Hno|[Hne Hq]].
  { rewrite (pull_not_adopted read_from_google_sheets s Hs Hread Hno).
    unfold count_events. simpl. rewrite Hf. reflexivity. }
  unfold sync_from_google_sheets, bind, gets, try_except,
    call_read_from_google_sheets, when, modify, emit. simpl.
  rewrite Hs. simpl. rewrite Hread. simpl. rewrite Hne. simpl. rewrite Hq. simpl.
  destruct (applications_tree s) as [t|] eqn:Ht; simpl.
  - match goal with
    | |- context [populate_treeview ?df ?s1] =>
        pose proof (populate_treeview_trace df s1) as Htr;
        destruct (populate_treeview df s1) as [[[]|e] s2]
    end; simpl in *; rewrite Htr; unfold count_events; simpl;
      rewrite ?He, Hp, Hr, Hf; reflexivity.
  - unfold count_events. simpl. rewrite Hr, Hf. reflexivity.
Qed.

(** What a Push with synchronisation on adds to the trace. *)
Lemma push_run s :
  sync_to_google s = true ->
  sync_to_google_sheets write_to_google_sheets s
  = (Ok tt,
     match write_to_google_sheets (calls s) (applications_df s) with
     | Some e =>
         set_trace (EvLogError "sync_to_google_sheets" e
                    :: EvPush (applications_df s) :: trace s)
           (set_calls (S (calls s)) s)
     | None =>
         set_calls (S (calls s))
           (set_trace (EvPush (applications_df s) :: trace s) s)
     end).
Proof.
  intros Hs.
  destruct (write_to_google_sheets (calls s) (applications_df s)) as [e|] eqn:Hw.
  - apply (push_failed write_to_google_sheets s e Hs Hw).
  - unfold sync_to_google_sheets, bind, gets, try_except,
      call_write_to_google_sheets. simpl. rewrite Hs. simpl. rewrite Hw.
    reflexivity.
Qed.

Lemma push_disabled s :
  sync_to_google s = false ->
  sync_to_google_sheets write_to_google_sheets s = (Ok tt, s).
Proof.
  intros H. unfold sync_to_google_sheets, bind, gets. simpl. rewrite H.
  reflexivity.
Qed.

(** Checking the box: [toggle_sync] turns synchronisation on, arms a tick,
    pulls and then pushes. *)
Lemma toggle_sync_on s :
  google_sync_var s = true ->
  toggle_sync read_from_google_sheets write_to_google_sheets s
  = sync_to_google_sheets write_to_google_sheets
      (snd (sync_from_google_sheets read_from_google_sheets
              (armed (set_trace (EvUpdateConfig true :: trace s)
                        (set_sync_to_google true s))))).
Proof.
  intros Hv.
  unfold toggle_sync, bind, gets, modify, update_config, emit. simpl.
  rewrite Hv. simpl.
  rewrite schedule_sync_run. simpl sync_to_google. simpl when.
  set (s1 := armed _).
  pose proof (pull_returns read_from_google_sheets s1) as Hret.
  pose proof (pull_preserves read_from_google_sheets _ sync_to_google
                (fun _ _ _ => eq_refl) (fun _ _ => eq_refl)
                (fun _ _ => eq_refl) (fun _ _ => eq_refl) s1) as Hflag.
  destruct (sync_from_google_sheets read_from_google_sheets s1) as [[[]|e] s2];
    simpl in *; [|discriminate].
  rewrite Hflag. reflexivity.
Qed.

Lemma count_events_app p l1 l2 :
  count_events p (l1 ++ l2) = (count_events p l1 + count_events p l2)%nat.
Proof. unfold count_events. rewrite filter_app, length_app. reflexivity. Qed.

Lemma ticks_app_tick ts t :
  is_tick t = true ->
  List.length (filter is_tick (ts ++ [t])) = S (List.length (filter is_tick ts)).
Proof.
  intros H. rewrite filter_app, length_app. simpl. rewrite H. simpl. lia.
Qed.

Lemma next_due_In target ts t : Tk.next_due target ts = Some t -> In t ts.
Proof.
  unfold Tk.next_due. intros E. apply earliest_In, filter_In in E. apply E.
Qed.

(** What a timer that fires leaves in the queue: a tick of [schedule_sync]
    is replaced by the next one, a Push timer is gone. *)
Lemma fire_timers t s :
  let s' := fire read_from_google_sheets write_to_google_sheets t s in
  match Tk.timer_cb t with
  | Tk.cb_schedule_sync =>
      timers s'
      = (Tk.remove_timer (Tk.timer_id t) (timers s)
         ++ [Tk.mkTimer (next_id s) (Z.max (clock s) (Tk.due t) + 60000)
               Tk.cb_schedule_sync])%list
      /\ next_id s' = S (next_id s)
  | Tk.cb_sync_to_google_sheets =>
      timers s' = Tk.remove_timer (Tk.timer_id t) (timers s)
      /\ next_id s' = next_id s
  end.
Proof.
  unfold fire, run_callback. destruct (Tk.timer_cb t).
  - rewrite schedule_sync_run. simpl sync_to_google.
    destruct (sync_to_google s); simpl when.
    + rewrite (pull_preserves read_from_google_sheets _ timers),
        (pull_preserves read_from_google_sheets _ next_id);
        try reflexivity. split; reflexivity.
    + split; reflexivity.
  - rewrite (push_preserves write_to_google_sheets _ timers),
      (push_preserves write_to_google_sheets _ next_id); try reflexivity.
    split; reflexivity.
Qed.

(** Taking a pending timer out of the queue takes out one tick if it is a
    tick, and none otherwise. *)
Lemma ticks_remove_timer t ts :
  NoDup (map Tk.timer_id ts) -> In t ts ->
  (List.length (filter is_tick (Tk.remove_timer (Tk.timer_id t) ts))
   + (if is_tick t then 1 else 0)
   = List.length (filter is_tick ts))%nat.
Proof.
  unfold Tk.remove_timer.
  induction ts as [|u ts IH]; simpl; intros Hnd Hin; [destruct Hin|].
  inversion Hnd as [|x l Hnin Hnd']; subst.
  destruct Hin as [->|Hin].
  - rewrite Nat.eqb_refl. simpl.
    assert (Hsame : filter (fun t0 => negb (Nat.eqb (Tk.timer_id t0) (Tk.timer_id t))) ts
                    = ts).
    { apply PdFacts.filter_all. intros v Hv.
      apply negb_true_iff, Nat.eqb_neq. intros E. apply Hnin. rewrite <- E.
      apply in_map. exact Hv. }
    rewrite Hsame. destruct (is_tick t); simpl; lia.
  - assert (Hne : Nat.eqb (Tk.timer_id u) (Tk.timer_id t) = false).
    { apply Nat.eqb_neq. intros E. apply Hnin. rewrite E. apply in_map. exact Hin. }
    rewrite Hne. simpl. specialize (IH Hnd' Hin).
    destruct (is_tick u); simpl; lia.
Qed.

Lemma remove_timer_In id ts t :
  In t (Tk.remove_timer id ts) -> In t ts.
Proof. unfold Tk.remove_timer. intros H. apply filter_In in H. apply H. Qed.

(** A timer that fires leaves the queue well formed and the number of
    pending ticks as it was. *)
Lemma fire_keeps_ticks t s :
  timers_ok s -> In t (timers s) ->
  let s' := fire read_from_google_sheets write_to_google_sheets t s in
  timers_ok s' /\ ticks_pending s' = ticks_pending s.
Proof.
  intros [Hnd Hlt] Hin s'.
  pose proof (fire_timers t s) as Hf. fold s' in Hf. cbv zeta in Hf.
  pose proof (ticks_remove_timer t (timers s) Hnd Hin) as Hcount.
  unfold timers_ok, ticks_pending.
  unfold is_tick at 2 in Hcount.
  destruct (Tk.timer_cb t); destruct Hf as [Ht Hn]; rewrite Ht, Hn.
  - split; [split|].
    + rewrite map_app. simpl.
      apply Permutation_NoDup
        with (l := next_id s :: map Tk.timer_id
                                  (Tk.remove_timer (Tk.timer_id t) (timers s))).
      * apply Permutation_cons_append.
      * constructor; [|apply remove_timer_NoDup, Hnd].
        intros Hin'. apply in_map_iff in Hin' as [u [E Hu]].
        apply remove_timer_In, Hlt in Hu. lia.
    + intros u Hu. apply in_app_or in Hu as [Hu|[<-|[]]].
      * apply remove_timer_In, Hlt in Hu. lia.
      * simpl. lia.
    + rewrite ticks_app_tick by reflexivity. lia.
  - split; [split|].
    + apply remove_timer_NoDup, Hnd.
    + intros u Hu. apply remove_timer_In, Hlt in Hu. exact Hu.
    + lia.
Qed.

End SyncRuns.

(** X12.  [toggle_sync] with the box checked turns synchronisation on and
    returns normally whatever the remote sheet answers.  It arms one more
    tick of [schedule_sync] and records it in [sync_task], without
    cancelling any timer that was pending; it fetches once and then pushes
    once, so that what is pushed is the table the Pull has left: when the
    remote snapshot has records and differs from the table, the table
    typed in while synchronisation was off is replaced by the snapshot
    before anything is pushed. *)
Theorem toggle_sync_on_pulls_then_pushes
    (read_from_google_sheets : nat -> exn + Pd.DataFrame)
    (write_to_google_sheets : nat -> Pd.DataFrame -> option exn)
    (s : App) :
  google_sync_var s = true ->
  let out := toggle_sync read_from_google_sheets write_to_google_sheets s in
  fst out = Ok tt
  /\ sync_to_google (snd out) = true
  /\ sync_task (snd out) = Some (next_id s)
  /\ timers (snd out) = (timers s ++ [next_tick s])%list
  /\ ticks_pending (snd out) = S (ticks_pending s)
  /\ count_events is_fetch (trace (snd out)) = S (count_events is_fetch (trace s))
  /\ count_events is_push (trace (snd out)) = S (count_events is_push (trace s))
  /\ In (EvPush (applications_df (snd out))) (trace (snd out))
  /\ (forall raw,
        read_from_google_sheets (calls s) = inr raw ->
        Pd.empty (Pd.fillna raw) = false ->
        Pd.equals (Pd.fillna raw) (applications_df s) = false ->
        applications_df (snd out) = Pd.fillna raw).
Proof.
  intros Hv out. subst out.
  rewrite (toggle_sync_on read_from_google_sheets write_to_google_sheets s Hv).
  set (s0 := set_trace (EvUpdateConfig true :: trace s) (set_sync_to_google true s)).
  set (s1 := armed s0).
  set (s2 := snd (sync_from_google_sheets read_from_google_sheets s1)).
  assert (Hs1 : sync_to_google s1 = true) by reflexivity.
  assert (Hflag : sync_to_google s2 = true).
  { unfold s2. rewrite (pull_preserves read_from_google_sheets _ sync_to_google);
      reflexivity. }
  assert (Htask : sync_task s2 = Some (next_id s)).
  { unfold s2. rewrite (pull_preserves read_from_google_sheets _ sync_task);
      reflexivity. }
  assert (Htimers : timers s2 = (timers s ++ [next_tick s])%list).
  { unfold s2. rewrite (pull_preserves read_from_google_sheets _ timers);
      reflexivity. }
  assert (Hfetch : count_events is_fetch (trace s2)
                   = S (count_events is_fetch (trace s))).
  { unfold s2. rewrite (pull_fetches_once read_from_google_sheets s1 Hs1).
    reflexivity. }
  assert (Hpush : count_events is_push (trace s2) = count_events is_push (trace s)).
  { unfold s2. rewrite (pull_counts_only_own read_from_google_sheets is_push s1);
      reflexivity. }
  rewrite (push_run write_to_google_sheets s2 Hflag). cbn [fst snd].
  assert (Hnew : forall raw,
            read_from_google_sheets (calls s) = inr raw ->
            Pd.empty (Pd.fillna raw) = false ->
            Pd.equals (Pd.fillna raw) (applications_df s) = false ->
            applications_df s2 = Pd.fillna raw).
  { intros raw Hr He Hq.
    apply (pull_adopted read_from_google_sheets s1 Hs1 Hr He Hq). }
  destruct (write_to_google_sheets (calls s2) (applications_df s2)); simpl;
    (split; [reflexivity|]; split; [exact Hflag|]; split; [exact Htask|];
     split; [exact Htimers|]; split;
     [unfold ticks_pending; simpl; rewrite Htimers;
      apply ticks_app_tick; reflexivity|];
     split; [exact Hfetch|]; split; [unfold count_events in *; simpl; lia|];
     split; [auto|exact Hnew]).
Qed.

Lemma toggle_sync_on_pulls_then_pushes_witness :
  let s := app_showing true store_A in
  let out := toggle_sync (remote_returns store_B) write_succeeds s in
  fst out = Ok tt
  /\ timers (snd out) = [next_tick s]
  /\ applications_df (snd out) = store_B
  /\ In (EvPush store_B) (trace (snd out)).
Proof.
  destruct (toggle_sync_on_pulls_then_pushes (remote_returns store_B)
              write_succeeds (app_showing true store_A) eq_refl)
    as [H1 [_ [_ [H4 [_ [_ [_ [H8 H9]]]]]]]].
  specialize (H9 store_B eq_refl eq_refl eq_refl).
  split; [exact H1|]. split; [exact H4|]. split; [exact H9|].
  rewrite H9 in H8. exact H8.
Defined.

(** X13.  While the main loop serves timers, however long and whatever the
    remote sheet answers, the queue stays well formed and the number of
    pending ticks of [schedule_sync] never changes: every tick that fires
    arms exactly one successor before it does anything else, and nothing
    else in the loop arms or cancels one.  A chain of ticks, once started,
    is only ever ended by [toggle_sync]. *)
Theorem mainloop_keeps_tick_chains
    (read_from_google_sheets : nat -> exn + Pd.DataFrame)
    (write_to_google_sheets : nat -> Pd.DataFrame -> option exn)
    (fuel : nat) (target : Z) (s : App) :
  timers_ok s ->
  let s' := mainloop_until read_from_google_sheets write_to_google_sheets
              fuel target s in
  timers_ok s'
  /\ ticks_pending s' = ticks_pending s
  /\ sync_to_google s' = sync_to_google s.
Proof.
  revert s. induction fuel as [|fuel IH]; intros s Hok; simpl.
  - auto.
  - destruct (Tk.next_due target (timers s)) as [t|] eqn:E.
    + apply next_due_In in E.
      destruct (fire_keeps_ticks read_from_google_sheets write_to_google_sheets
                  t s Hok E) as [Hok' Hticks].
      destruct (IH _ Hok') as [G1 [G2 G3]].
      split; [exact G1|]. split; [rewrite G2; exact Hticks|].
      rewrite G3. apply fire_keeps_flag.
    + split; [exact Hok|]. split; reflexivity.
Qed.

Lemma mainloop_keeps_tick_chains_witness :
  let s' := mainloop_until (remote_returns store_B) write_succeeds 20 600000%Z
              app_after_init in
  ticks_pending app_after_init = 2
  /\ timers_ok s'
  /\ ticks_pending s' = 2.
Proof.
  assert (Hok : timers_ok app_after_init).
  { split.
    - simpl. repeat constructor; simpl; intuition discriminate.
    - intros t Hin. simpl in Hin.
      destruct Hin as [<-|[<-|[<-|[]]]]; simpl; lia. }
  destruct (mainloop_keeps_tick_chains (remote_returns store_B) write_succeeds
              20 600000%Z app_after_init Hok) as [H1 [H2 _]].
  split; [reflexivity|]. split; [exact H1 | exact H2].
Defined.

(** ** The timers armed when the application starts *)

Section InitRuns.

Local Open Scope Z_scope.

Variable read_from_google_sheets : nat -> exn + Pd.DataFrame.



End InitRuns.



(** ** With synchronisation off *)

Section Offline.

Variable n : nat.

Lemma offline_same_state {A} (m : M A) :
  (forall s, snd (m s) = s) -> keeps (offline n) m.
Proof. intros H s Hs. rewrite H. exact Hs. Qed.

Lemma offline_ret A (a : A) : keeps (offline n) (ret a).
Proof. apply offline_same_state. reflexivity. Qed.

Lemma offline_raise A e : keeps (offline n) (@raise A e).
Proof. apply offline_same_state. reflexivity. Qed.

Lemma offline_gets A (g : App -> A) : keeps (offline n) (gets g).
Proof. apply offline_same_state. reflexivity. Qed.

Lemma offline_lift A (r : exn + A) : keeps (offline n) (lift r).
Proof. apply offline_same_state. intros s. destruct r; reflexivity. Qed.

Lemma offline_the_tree : keeps (offline n) the_tree.
Proof.
  apply offline_same_state. intros s. unfold the_tree.
  destruct (applications_tree s); reflexivity.
Qed.

Lemma offline_list_get A i (l : list A) : keeps (offline n) (list_get i l).
Proof.
  apply offline_same_state. intros s. unfold list_get.
  destruct (nth_error l i); reflexivity.
Qed.

Lemma offline_list_set A i (x : A) (l : list A) : keeps (offline n) (list_set i x l).
Proof.
  apply offline_same_state. intros s. unfold list_set.
  destruct (i <? List.length l)%nat; reflexivity.
Qed.

Lemma offline_modify (g : App -> App) :
  (forall s, sync_to_google (g s) = sync_to_google s) ->
  (forall s, trace (g s) = trace s) ->
  keeps (offline n) (modify g).
Proof.
  intros H1 H2 s [Hs Hn]. unfold offline. simpl. rewrite H1, H2. auto.
Qed.

Lemma offline_emit e : is_remote e = false -> keeps (offline n) (emit e).
Proof.
  intros He s [Hs Hn]. unfold offline, count_events. simpl. rewrite He. auto.
Qed.

Lemma offline_try_except A (m : M A) (h : exn -> M A) :
  keeps (offline n) m -> (forall e, keeps (offline n) (h e)) ->
  keeps (offline n) (try_except m h).
Proof.
  intros Hm Hh s Hs. unfold try_except. specialize (Hm s Hs).
  destruct (m s) as [[a|e] s']; simpl in *; [exact Hm|].
  apply Hh, Hm.
Qed.

Lemma offline_for_each A (l : list A) (body : A -> M unit) :
  (forall x, keeps (offline n) (body x)) -> keeps (offline n) (for_each l body).
Proof.
  intros H. induction l as [|x l IH]; simpl.
  - apply offline_ret.
  - apply keeps_bind; auto.
Qed.

(** What is guarded by [if self.sync_to_google] is not run. *)
Lemma offline_read_flag A (k : bool -> M A) :
  keeps (offline n) (k false) ->
  keeps (offline n) (bind (gets sync_to_google) k).
Proof.
  intros Hk s Hs. unfold bind, gets. simpl.
  destruct Hs as [Hoff Hn]. rewrite Hoff. apply Hk. split; assumption.
Qed.

Lemma offline_call_save save df :
  keeps (offline n) (call_save_applications_to_excel save df).
Proof.
  intros s [Hs Hn]. unfold call_save_applications_to_excel.
  destruct (save (calls s) df); simpl; split; assumption.
Qed.

Lemma offline_populate_treeview df : keeps (offline n) (populate_treeview df).
Proof.
  intros s [Hs Hn]. unfold offline.
  rewrite (populate_treeview_preserves sync_to_google df
             (fun _ _ => eq_refl) (fun _ _ => eq_refl)).
  rewrite populate_treeview_trace. unfold count_events. simpl. auto.
Qed.

End Offline.

(** Splits a goal [keeps (offline n) m] along the structure of the method. *)
Ltac offline_step :=
  first
    [ apply offline_ret
    | apply offline_raise
    | apply offline_read_flag; cbn [when negb]
    | apply offline_gets
    | apply offline_lift
    | apply offline_list_get
    | apply offline_list_set
    | apply offline_the_tree
    | apply offline_call_save
    | apply offline_populate_treeview
    | apply offline_emit; reflexivity
    | apply offline_modify; intros; reflexivity
    | apply offline_try_except; [|intro]
    | apply offline_for_each; intro
    | apply keeps_bind; [|intro]
    | match goal with
      | |- keeps _ (when ?b _) => destruct b; cbn [when]
      | |- keeps _ (if ?b then _ else _) => destruct b
      | |- keeps _ (match ?x with _ => _ end) => destruct x
      end ].

Ltac offline := repeat offline_step.

Section OfflineMethods.

Variable read_from_google_sheets : nat -> exn + Pd.DataFrame.
Variable write_to_google_sheets : nat -> Pd.DataFrame -> option exn.
Variable save_applications_to_excel : nat -> Pd.DataFrame -> option exn.
Variable today : Z -> string.
Variable n : nat.

Lemma save_application_offline :
  keeps (offline n)
    (save_application write_to_google_sheets save_applications_to_excel today).
Proof. unfold save_application, clear_input_fields, draw_status_pie_chart,
         draw_submissions_line_graph. offline. Qed.

Lemma delete_rows_offline row_ids :
  keeps (offline n)
    (delete_rows write_to_google_sheets save_applications_to_excel row_ids).
Proof. unfold delete_rows, drop_if_present, draw_status_pie_chart. offline. Qed.

Lemma save_edit_offline item_id col_index :
  keeps (offline n)
    (save_edit write_to_google_sheets save_applications_to_excel item_id col_index).
Proof. unfold save_edit. offline. Qed.

Lemma save_status_offline combobox item_id col_index :
  keeps (offline n)
    (save_status write_to_google_sheets save_applications_to_excel combobox
       item_id col_index).
Proof. unfold save_status, draw_status_pie_chart. offline. Qed.

Lemma pull_offline :
  keeps (offline n) (sync_from_google_sheets read_from_google_sheets).
Proof. unfold sync_from_google_sheets. offline. Qed.

Lemma push_offline :
  keeps (offline n) (sync_to_google_sheets write_to_google_sheets).
Proof. unfold sync_to_google_sheets. offline. Qed.

End OfflineMethods.

(** X15.  With synchronisation off, Add, Update, the change of a status and
    Delete never call the remote sheet, neither to fetch nor to push,
    whatever their arguments, whatever state the view is in and however
    they end (normally or with an exception), and they leave
    synchronisation off. *)
Theorem sync_off_never_calls_remote
    (write_to_google_sheets save_applications_to_excel : nat -> Pd.DataFrame -> option exn)
    (today : Z -> string) (s : App) :
  sync_to_google s = false ->
  let quiet (m : M unit) :=
    sync_to_google (snd (m s)) = false
    /\ count_events is_remote (trace (snd (m s)))
       = count_events is_remote (trace s) in
  quiet (save_application write_to_google_sheets save_applications_to_excel today)
  /\ (forall item_id col_index,
        quiet (save_edit write_to_google_sheets save_applications_to_excel
                 item_id col_index))
  /\ (forall status_combobox item_id col_index,
        quiet (save_status write_to_google_sheets save_applications_to_excel
                 status_combobox item_id col_index))
  /\ (forall row_ids,
        quiet (delete_rows write_to_google_sheets save_applications_to_excel
                 row_ids)).
Proof.
  intros Hoff quiet. subst quiet. cbv beta.
  assert (Hs : offline (count_events is_remote (trace s)) s) by (split; auto).
  split; [|split; [|split]]; intros.
  - apply (save_application_offline write_to_google_sheets
             save_applications_to_excel today _ s Hs).
  - apply (save_edit_offline write_to_google_sheets save_applications_to_excel
             _ item_id col_index s Hs).
  - apply (save_status_offline write_to_google_sheets save_applications_to_excel
             _ status_combobox item_id col_index s Hs).
  - apply (delete_rows_offline write_to_google_sheets save_applications_to_excel
             _ row_ids s Hs).
Qed.

Lemma sync_off_never_calls_remote_witness :
  let s := app_with_input "Acme" "Engineer" "" store_A in
  let out := save_application (write_fails network_error) write_succeeds
               fixed_date s in
  sync_to_google s = false
  /\ Pd.len (applications_df (snd out)) = 2
  /\ count_events is_remote (trace (snd out)) = 0.
Proof.
  destruct (sync_off_never_calls_remote (write_fails network_error)
              write_succeeds fixed_date
              (app_with_input "Acme" "Engineer" "" store_A) eq_refl)
    as [[_ H] _].
  split; [reflexivity|]. split; [reflexivity | exact H].
Defined.

(** ** The view stays within the store *)

Section ViewWithin.

Local Open Scope Z_scope.

Variable write_to_google_sheets : nat -> Pd.DataFrame -> option exn.
Variable save_applications_to_excel : nat -> Pd.DataFrame -> option exn.

(** [save_status] leaves the view within the store. *)
Lemma save_status_keeps_view_within_store combobox item_id col_index s :
  view_within_store s = true ->
  view_within_store
    (snd (save_status write_to_google_sheets save_applications_to_excel
            combobox item_id col_index s))
  = true.
Proof.
  intros Hv. unfold save_status.
  unfold bind at 1.
  destruct combobox as [new_value|]; [|exact Hv]. unfold ret at 1.
  unfold bind at 1. unfold the_tree at 1.
  destruct (applications_tree s) as [tree|] eqn:Et; [|exact Hv].
  unfold bind at 1.
  destruct (Tk.item item_id tree) as [e|values]; [exact Hv|]. simpl lift.
  unfold ret at 1. unfold bind at 1. unfold list_set.
  destruct (col_index <? List.length values)%nat; [|exact Hv].
  unfold ret at 1. unfold bind at 1. unfold the_tree at 1. rewrite Et.
  unfold bind at 1.
  destruct (Tk.item_set item_id
              (Pd.set_nth col_index (Tk.VCell (Pd.Str new_value)) values) tree)
    as [e|tree'] eqn:Eset; [exact Hv|]. simpl lift.
  unfold ret at 1. unfold bind at 1, modify at 1.
  assert (Hv1 : view_within_store (set_applications_tree (Some tree') s) = true).
  { unfold view_within_store in *. rewrite Et in Hv. simpl.
    apply (forallb_ids (fun i => Pd.in_index i (applications_df s)) tree tree');
      [exact (item_set_ids _ _ _ _ Eset) | exact Hv]. }
  unfold bind at 1. unfold list_get.
  destruct (nth_error tree_columns col_index) as [column_name|]; [|exact Hv1].
  unfold ret at 1. unfold bind at 1, modify at 1.
  match goal with
  | |- view_within_store (snd (?m ?s3)) = _ =>
      assert (H : preserves view_within_store m);
        [unfold draw_status_pie_chart, emit; frame | rewrite H]
  end.
  unfold view_within_store in *. simpl in *.
  rewrite forallb_forall in *. intros it Hit.
  apply in_index_at_set, Hv1, Hit.
Qed.

(** [filter_by_status] leaves the view within the store. *)
Lemma filter_by_status_keeps_view_within_store status s :
  view_within_store s = true ->
  view_within_store (snd (filter_by_status status s)) = true.
Proof.
  intros Hv. unfold filter_by_status.
  rewrite (bind_ok _ _ s (a := applications_df s) (s' := s)) by reflexivity.
  unfold frame_where_eq.
  destruct (Pd.has_column "Status" (Pd.columns (applications_df s)));
    [|exact Hv].
  apply populate_part_within. simpl. intros r Hr.
  apply filter_In in Hr. apply Hr.
Qed.

End ViewWithin.

(** X16.  Every item of the tree view stands for a row of the table, and
    this is kept by every method that changes the view or the table,
    however it ends: Pull, Update, the change of a status, Delete and the
    filter by status keep it from any state; Add keeps it when the ids of
    the table are 0, 1, ... in order. *)
Theorem view_stays_within_store
    (read_from_google_sheets : nat -> exn + Pd.DataFrame)
    (write_to_google_sheets save_applications_to_excel : nat -> Pd.DataFrame -> option exn)
    (today : Z -> string) (s : App) :
  view_within_store s = true ->
  let kept (m : M unit) := view_within_store (snd (m s)) = true in
  kept (sync_from_google_sheets read_from_google_sheets)
  /\ (forall item_id col_index,
        kept (save_edit write_to_google_sheets save_applications_to_excel
                item_id col_index))
  /\ (forall status_combobox item_id col_index,
        kept (save_status write_to_google_sheets save_applications_to_excel
                status_combobox item_id col_index))
  /\ (forall row_ids,
        kept (delete_rows write_to_google_sheets save_applications_to_excel
                row_ids))
  /\ (forall status, kept (filter_by_status status))
  /\ (contiguous (applications_df s) ->
      (Pd.columns (applications_df s) = [] -> Pd.rows (applications_df s) = []) ->
      kept (save_application write_to_google_sheets save_applications_to_excel
              today)).
Proof.
  intros Hv kept. subst kept. cbv beta.
  split; [|split; [|split; [|split; [|split]]]]; intros.
  - apply pull_keeps_view_within_store, Hv.
  - apply save_edit_keeps_view_within_store, Hv.
  - apply save_status_keeps_view_within_store, Hv.
  - apply delete_rows_keeps_view_within_store, Hv.
  - apply filter_by_status_keeps_view_within_store, Hv.
  - apply save_application_keeps_view_within_store; assumption.
Qed.

Lemma view_stays_within_store_witness :
  let s := app_editing_sync true "Zeta" store_ABCD in
  view_within_store s = true
  /\ view_within_store
       (snd (delete_rows write_succeeds write_succeeds [1%Z; 3%Z] s)) = true
  /\ view_within_store
       (snd (sync_from_google_sheets (remote_returns store_B) s)) = true.
Proof.
  destruct (view_stays_within_store (remote_returns store_B) write_succeeds
              write_succeeds fixed_date
              (app_editing_sync true "Zeta" store_ABCD) eq_refl)
    as [H1 [_ [_ [H4 _]]]].
  split; [reflexivity|]. split; [apply H4 | exact H1].
Defined.

(** ** Add followed by Delete *)

Section RoundTrip.

Local Open Scope Z_scope.

Lemma renumber_from_same k (rs : list (Z * list Pd.cell)) :
  map fst rs = map (fun i => k + Z.of_nat i) (seq 0 (List.length rs)) ->
  Pd.renumber_from k rs = rs.
Proof.
  revert k. induction rs as [|r rs IH]; intros k H; simpl; [reflexivity|].
  simpl in H. injection H as H0 Hrest.
  f_equal.
  - destruct r as [l c]. simpl in *. f_equal. lia.
  - apply IH. rewrite Hrest, <- seq_shift, map_map.
    apply map_ext. intros i. lia.
Qed.

Lemma renumber_contiguous df :
  contiguous df -> Pd.renumber_from 0 (Pd.rows df) = Pd.rows df.
Proof.
  intros H. apply renumber_from_same. unfold contiguous, Pd.index, Pd.len in H.
  rewrite H. apply map_ext. intros i. lia.
Qed.




End RoundTrip.



(** ** Masked values *)

Lemma append_length (a b : string) :
  String.length (a ++ b)%string = String.length a + String.length b.
Proof. induction a as [|c a IH]; simpl; [reflexivity | rewrite IH; reflexivity]. Qed.

Lemma str_times_length mask_char n :
  String.length (str_times mask_char n) = n * String.length mask_char.
Proof.
  induction n as [|n IH]; simpl; [reflexivity|].
  rewrite append_length, IH. reflexivity.
Qed.

Lemma mask_value_times value mask_char :
  mask_value value mask_char = str_times mask_char (String.length value).
Proof. unfold mask_value. destruct value; reflexivity. Qed.

Lemma str_times_star_get n i c :
  String.get i (str_times "*" n) = Some c -> c = "*"%char.
Proof.
  revert i. induction n as [|n IH]; intros i; simpl; [discriminate|].
  destruct i as [|i]; simpl.
  - intros E. injection E as <-. reflexivity.
  - apply IH.
Qed.

(** X18.  [mask_value] shows nothing of a value but its length: the result
    is as long as the value times the length of the mask, two values of the
    same length are masked alike, and with the default mask every
    character of the result is the star. *)
Theorem mask_value_shows_length_only (value mask_char : string) :
  String.length (mask_value value mask_char)
  = String.length value * String.length mask_char
  /\ (forall value',
        String.length value' = String.length value ->
        mask_value value' mask_char = mask_value value mask_char)
  /\ (forall i c, String.get i (mask_value value "*") = Some c -> c = "*"%char).
Proof.
  split; [|split].
  - rewrite mask_value_times. apply str_times_length.
  - intros value' H. rewrite !mask_value_times, H. reflexivity.
  - intros i c. rewrite mask_value_times. apply str_times_star_get.
Qed.

Lemma mask_value_shows_length_only_witness :
  mask_value "hunter2" "*" = mask_value "secret!" "*"
  /\ String.length (mask_value "hunter2" "*") = 7.
Proof.
  destruct (mask_value_shows_length_only "secret!" "*") as [H1 [H2 _]].
  split; [apply H2; reflexivity | rewrite (H2 "hunter2"%string eq_refl); exact H1].
Defined.

(** ** A Pull repeated *)

(** X19.  A Pull with synchronisation on that fetches a snapshot with
    records leaves the table equal to the snapshot with its missing cells
    filled, whether or not the table differed before; a second Pull that
    fetches the same snapshot then only fetches: the table is not replaced
    again and the view is not filled again. *)
Theorem pull_twice_settles
    (read_from_google_sheets : nat -> exn + Pd.DataFrame)
    (s : App) (raw : Pd.DataFrame) :
  sync_to_google s = true ->
  read_from_google_sheets (calls s) = inr raw ->
  Pd.empty (Pd.fillna raw) = false ->
  let s1 := snd (sync_from_google_sheets read_from_google_sheets s) in
  applications_df s1 = Pd.fillna raw
  /\ (read_from_google_sheets (calls s1) = inr raw ->
      sync_from_google_sheets read_from_google_sheets s1
      = (Ok tt, set_calls (S (calls s1)) (set_trace (EvFetch :: trace s1) s1))).
Proof.
  intros Hs Hr He s1.
  assert (Hdf : applications_df s1 = Pd.fillna raw).
  { subst s1.
    destruct (Pd.equals (Pd.fillna raw) (applications_df s)) eqn:Hq.
    - rewrite (pull_not_adopted read_from_google_sheets s Hs Hr) by auto.
      simpl. symmetry. apply PdFacts.equals_eq, Hq.
    - apply (pull_adopted read_from_google_sheets s Hs Hr He Hq). }
  split; [exact Hdf|].
  intros Hr1.
  assert (Hs1 : sync_to_google s1 = true).
  { subst s1. rewrite (pull_preserves read_from_google_sheets _ sync_to_google);
      auto. }
  apply (pull_not_adopted read_from_google_sheets s1 Hs1 Hr1).
  right. rewrite Hdf. apply PdFacts.equals_refl.
Qed.

Lemma pull_twice_settles_witness :
  let pull := sync_from_google_sheets (remote_returns store_B) in
  let s1 := snd (pull (app_showing true store_A)) in
  applications_df s1 = store_B
  /\ count_events is_replace (trace (snd (pull s1))) = 1
  /\ count_events is_fetch (trace (snd (pull s1))) = 2.
Proof.
  destruct (pull_twice_settles (remote_returns store_B)
              (app_showing true store_A) store_B eq_refl eq_refl eq_refl)
    as [H1 H2].
  split; [exact H1|]. rewrite (H2 eq_refl). split; reflexivity.
Defined.

(** ** Update keeps the view in step with the table *)

Section ViewInStep.

Local Open Scope Z_scope.

Lemma row_get_written cols cells column i (x d : Pd.cell) :
  Pd.has_column column cols = true ->
  Pd.position column cols = Some i ->
  (i < List.length cells)%nat ->
  Pd.row_get cols (Pd.set_nth i x cells) column d = x.
Proof.
  intros Hc Hp Hi. unfold Pd.row_get, Pd.get_cell. rewrite Hc, Hp.
  apply AtFacts.nth_set_nth_same, Hi.
Qed.

Lemma row_get_other cols cells column name i (x d : Pd.cell) :
  Pd.position column cols = Some i ->
  name <> column ->
  Pd.row_get cols (Pd.set_nth i x cells) name d = Pd.row_get cols cells name d.
Proof.
  intros Hp Hne. unfold Pd.row_get, Pd.get_cell.
  destruct (Pd.has_column name cols); [|reflexivity].
  destruct (Pd.position name cols) as [j|] eqn:Hj; [|reflexivity].
  apply AtFacts.nth_set_nth_other. intros <-. apply Hne.
  apply (AtFacts.position_inj name column cols i Hj Hp).
Qed.

(** The values shown for a row whose cell under one of the five columns is
    rewritten are the values shown before, with that one replaced. *)
Lemma row_values_set cols l cells i k column v :
  Pd.has_column column cols = true ->
  Pd.position column cols = Some i ->
  (i < List.length cells)%nat ->
  nth_error record_columns k = Some column ->
  row_values cols (l, Pd.set_nth i (Pd.Str v) cells)
  = Pd.set_nth (S k) (Tk.VCell (Pd.Str v)) (row_values cols (l, cells)).
Proof.
  intros Hc Hp Hi Hk.
  do 5 (destruct k as [|k];
        [simpl in Hk; injection Hk as <-; unfold row_values;
         cbn [Pd.set_nth fst snd];
         repeat (f_equal;
                 try (apply (row_get_written cols cells _ i); assumption);
                 try (apply (row_get_other cols cells _ _ i _ _ Hp); discriminate))
        |]).
  destruct k; discriminate.
Qed.

Lemma NoDup_labels_eq (rs : list (Z * list Pd.cell)) r r' :
  NoDup (map fst rs) -> In r rs -> In r' rs -> fst r = fst r' -> r = r'.
Proof.
  induction rs as [|x rs IH]; simpl; intros H Hr Hr' E; [destruct Hr|].
  inversion H as [|y l Hnin Hnd]; subst.
  destruct Hr as [->|Hr], Hr' as [->|Hr']; auto.
  - exfalso. apply Hnin. rewrite E. apply in_map. exact Hr'.
  - exfalso. apply Hnin. rewrite <- E. apply in_map. exact Hr.
Qed.

Lemma item_items_of iid df :
  Tk.item iid (items_of df)
  = match find (fun r => fst r =? iid) (Pd.rows df) with
    | Some r => inr (row_values (Pd.columns df) r)
    | None => inl (TclError "Item not found")
    end.
Proof.
  unfold Tk.item, items_of.
  induction (Pd.rows df) as [|r rs IH]; simpl; [reflexivity|].
  destruct (fst r =? iid); [reflexivity|exact IH].
Qed.

(** The view of a table, once an item and the cell it stands for are both
    rewritten, is the view of the new table. *)
Lemma view_after_write df iid k column v r0 :
  NoDup (Pd.index df) ->
  rows_fit df ->
  find (fun r => fst r =? iid) (Pd.rows df) = Some r0 ->
  nth_error record_columns k = Some column ->
  Pd.has_column column (Pd.columns df) = true ->
  view_with_values iid
    (Pd.set_nth (S k) (Tk.VCell (Pd.Str v)) (row_values (Pd.columns df) r0))
    (items_of df)
  = items_of (Pd.at_set iid column (Pd.Str v) df).
Proof.
  intros Hnd Hfit Hfind Hk Hc.
  destruct (PdFacts.has_column_position column (Pd.columns df) Hc) as [i Hp].
  apply find_some in Hfind as [Hin0 Hid0]. apply Z.eqb_eq in Hid0.
  assert (Hl : Pd.in_index iid df = true).
  { apply PdFacts.in_index_In. unfold Pd.index. rewrite <- Hid0.
    apply in_map. exact Hin0. }
  rewrite (AtFacts.at_set_present iid column (Pd.Str v) df i Hc Hl Hp).
  unfold view_with_values, items_of. cbn [Pd.columns Pd.rows].
  rewrite !map_map. apply map_ext_in. intros r Hr. cbn [fst snd].
  destruct (fst r =? iid) eqn:E; [|reflexivity].
  apply Z.eqb_eq in E.
  assert (r = r0) as ->.
  { apply (NoDup_labels_eq (Pd.rows df)); auto. congruence. }
  clear E. destruct r0 as [l cells]. cbn [fst snd] in *. subst l. f_equal.
  symmetry. apply (row_values_set _ iid cells i k column v Hc Hp); [|exact Hk].
  unfold rows_fit in Hfit. rewrite Forall_forall in Hfit.
  pose proof (Hfit _ Hin0) as Hlen. cbn [snd] in Hlen. rewrite Hlen.
  apply (AtFacts.position_lt column), Hp.
Qed.

End ViewInStep.

(** X20.  When the view shows the table (one item per record, as
    [populate_treeview] leaves it) and a text is saved into a cell of one of
    the five record columns of a record of the table, by [save_edit] or by
    [save_status], the view shows the new table again without being
    refilled, whether the file and the remote sheet accept the change or
    not. *)
Theorem update_keeps_view_in_step
    (write_to_google_sheets save_applications_to_excel : nat -> Pd.DataFrame -> option exn)
    (s : App) (item_id : Z) (k : nat) (v column : string) :
  applications_tree s = Some (items_of (applications_df s)) ->
  NoDup (Pd.index (applications_df s)) ->
  rows_fit (applications_df s) ->
  Pd.in_index item_id (applications_df s) = true ->
  nth_error record_columns k = Some column ->
  Pd.has_column column (Pd.columns (applications_df s)) = true ->
  let shows_table (s' : App) :=
    applications_tree s' = Some (items_of (applications_df s'))
    /\ applications_df s' = Pd.at_set item_id column (Pd.Str v) (applications_df s) in
  (edit_entry s = Some v ->
   shows_table (snd (save_edit write_to_google_sheets save_applications_to_excel
                       item_id (S k) s)))
  /\ shows_table (snd (save_status write_to_google_sheets
                         save_applications_to_excel (Some v) item_id (S k) s)).
Proof.
  intros Ht Hnd Hfit Hin Hk Hc shows_table. subst shows_table. cbv beta.
  assert (Hfind : exists r0,
            find (fun r => fst r =? item_id)%Z (Pd.rows (applications_df s))
            = Some r0).
  { destruct (find (fun r => fst r =? item_id)%Z (Pd.rows (applications_df s)))
      as [r0|] eqn:E; [eauto|].
    apply PdFacts.in_index_In in Hin. unfold Pd.index in Hin.
    apply in_map_iff in Hin as [r [Er Hr]].
    apply (find_none _ _ E) in Hr. rewrite Er, Z.eqb_refl in Hr. discriminate. }
  destruct Hfind as [r0 Hfind].
  assert (Hitem : Tk.item item_id (items_of (applications_df s))
                  = inr (row_values (Pd.columns (applications_df s)) r0)).
  { rewrite item_items_of, Hfind. reflexivity. }
  assert (Hcol : S k < List.length (row_values (Pd.columns (applications_df s)) r0)).
  { assert (k < List.length record_columns) by (apply nth_error_Some; congruence).
    simpl in *. lia. }
  assert (Hname : nth_error tree_columns (S k) = Some column) by exact Hk.
  pose proof (view_after_write (applications_df s) item_id k column v r0
                Hnd Hfit Hfind Hk Hc) as Hview.
  split.
  - intros He.
    rewrite (save_edit_written write_to_google_sheets save_applications_to_excel
               s item_id (S k) v _ _ column He Ht Hitem Hcol Hname).
    cbv zeta.
    pose proof (eq_refl : applications_tree
                            (edited item_id (S k) column v
                               (row_values (Pd.columns (applications_df s)) r0)
                               (items_of (applications_df s)) s)
                          = Some (view_with_values item_id
                                    (Pd.set_nth (S k) (Tk.VCell (Pd.Str v))
                                       (row_values (Pd.columns (applications_df s)) r0))
                                    (items_of (applications_df s)))) as Htree.
    pose proof (eq_refl : applications_df (edited item_id (S k) column v
                                             (row_values (Pd.columns (applications_df s)) r0)
                                             (items_of (applications_df s)) s)
                          = Pd.at_set item_id column (Pd.Str v) (applications_df s))
      as Hdf.
    revert Htree Hdf. generalize (edited item_id (S k) column v
                                    (row_values (Pd.columns (applications_df s)) r0)
                                    (items_of (applications_df s)) s).
    intros s3 Htree Hdf.
    destruct (save_applications_to_excel (calls s) _);
      [|destruct (sync_to_google s)]; simpl; rewrite Htree, Hdf, Hview; auto.
  - rewrite (save_status_written write_to_google_sheets save_applications_to_excel
               s item_id (S k) v _ _ column Ht Hitem Hcol Hname).
    cbv zeta.
    pose proof (eq_refl : applications_tree
                            (edited item_id (S k) column v
                               (row_values (Pd.columns (applications_df s)) r0)
                               (items_of (applications_df s)) s)
                          = Some (view_with_values item_id
                                    (Pd.set_nth (S k) (Tk.VCell (Pd.Str v))
                                       (row_values (Pd.columns (applications_df s)) r0))
                                    (items_of (applications_df s)))) as Htree.
    pose proof (eq_refl : applications_df (edited item_id (S k) column v
                                             (row_values (Pd.columns (applications_df s)) r0)
                                             (items_of (applications_df s)) s)
                          = Pd.at_set item_id column (Pd.Str v) (applications_df s))
      as Hdf.
    revert Htree Hdf. generalize (edited item_id (S k) column v
                                    (row_values (Pd.columns (applications_df s)) r0)
                                    (items_of (applications_df s)) s).
    intros s3 Htree Hdf.
    destruct (pie_chart_frame s), (sync_to_google s); simpl;
      rewrite Htree, Hdf, Hview; auto.
Qed.

Lemma update_keeps_view_in_step_witness :
  let s := app_editing_sync true "Zeta" store_ABCD in
  let s' := snd (save_edit (write_fails network_error) write_succeeds 2 1 s) in
  applications_tree s' = Some (items_of (applications_df s'))
  /\ Pd.at_get 2 "Company" (applications_df s') = Some (Pd.Str "Zeta").
Proof.
  assert (Hnd : NoDup (Pd.index store_ABCD)).
  { simpl. repeat constructor; simpl; intuition discriminate. }
  assert (Hfit : rows_fit store_ABCD) by (repeat constructor).
  destruct (update_keeps_view_in_step (write_fails network_error) write_succeeds
              (app_editing_sync true "Zeta" store_ABCD) 2 0 "Zeta" "Company"
              eq_refl Hnd Hfit eq_refl eq_refl eq_refl) as [H _].
  destruct (H eq_refl) as [H1 H2].
  split; [exact H1 | rewrite H2; reflexivity].
Defined.
